(** * ETF / bond-futures DV01 hedging back-test

  A shallow embedding of [utils/dv01_calc.py],
  [backtest/backtest_with_alpha_threshold.py], [scripts/market_maker.py]
  and [scripts/factors_engine.py], and the properties of the design
  document that are stated about them.

  Conventions of the embedding.
  - A finite [float64] is an exact rational ([Q]); the rounding error of
    the binary format and the sign of zero are not represented.
    Comparisons of rationals are done up to [Qeq] by boolean tests.
  - The range of [float64] is represented where the code depends on it:
    in the series arithmetic of the hedge ratio a product or quotient
    whose magnitude reaches 2^1024 - 2^970 is an infinity, and in the
    loop [math.floor] of such a quotient raises [OverflowError].
  - A missing value ([NaN]) of a data-frame cell is [None]; every ordered
    comparison with it is false, as in IEEE-754.  Prices are numbers; the
    prediction and the merged hedge ratio may be missing.
  - Python integers are [Z].  The cells of the hedge-ratio column are
    [int64]: the cast of an integral float that is out of range gives the
    least [int64] (the x86-64 conversion), and the product of a Python
    integer and a cell wraps around (NumPy 2 scalar arithmetic).
  - Dates are time stamps or strings, represented by integers that order
    them; a row of such a frame keeps the type of each of its cells.
  - Exceptions are values of [exn].  In the loop and on Python scalars a
    division whose divisor is zero raises [ZeroDivisionError]; in the
    series arithmetic of pandas it gives an infinity or [NaN].
  - The frame is a list of rows in the order of its index; the names of
    the price columns are fixed.  The name of the prediction column is
    given by the bytes of its UTF-8 form, and read as code points. *)

From Stdlib Require Import ZArith QArith Qround Qabs List String Ascii Bool Lia Lqa.
From Stdlib Require Import Sorted Permutation.
Import ListNotations.

Open Scope Q_scope.

(** ** Exceptions and the error monad *)

Inductive exn : Type :=
| ZeroDivisionError
| ValueError
| OverflowError
| KeyError (key : string).

Inductive result (A : Type) : Type :=
| Ok (a : A)
| Raise (e : exn).

Arguments Ok {A} a.
Arguments Raise {A} e.

Definition bind {A B : Type} (m : result A) (k : A -> result B) : result B :=
match m with
| Ok a => k a
| Raise e => Raise e
end.

Notation "x <- m ;; k" := (bind m (fun x => k))
(at level 61, m at next level, right associativity).
Notation "' p <- m ;; k" := (bind m (fun p => k))
(at level 61, p pattern, m at next level, right associativity).

Fixpoint mapM {A B : Type} (f : A -> result B) (l : list A) : result (list B) :=
match l with
| [] => Ok []
| a :: l' => b <- f a ;; bs <- mapM f l' ;; Ok (b :: bs)
end.

(** ** Numbers *)

Module Num.

Definition Qltb (x y : Q) : bool := negb (Qle_bool y x).
Definition Qleb (x y : Q) : bool := Qle_bool x y.
Definition Qgtb (x y : Q) : bool := Qltb y x.
Definition Qgeb (x y : Q) : bool := Qleb y x.

(** [x / y] on Python numbers. *)
Definition py_div (x y : Q) : result Q :=
  if Qeq_bool y 0 then Raise ZeroDivisionError else Ok (x / y).

(** A result whose magnitude reaches [2^1024 - 2^970] is not a finite
    [float64]: it is rounded to an infinity. *)
Definition float_overflow : Q := inject_Z (2 ^ 1024 - 2 ^ 970).

Definition is_finite (x : Q) : bool := Qltb (Qabs x) float_overflow.

(** The value of [math.floor] on a finite float. *)
Definition floor (x : Q) : Z := Qfloor x.

(** [math.floor] of a quotient or product computed in [float64]: an
    infinity is refused with [OverflowError]. *)
Definition math_floor (x : Q) : result Z :=
  if is_finite x then Ok (floor x) else Raise OverflowError.

(** The [int64] of NumPy: its range and the wrap-around of its
    arithmetic. *)
Definition int64_min : Z := (- 2 ^ 63)%Z.
Definition int64_max : Z := (2 ^ 63 - 1)%Z.

Definition fits_int64 (z : Z) : bool :=
  ((int64_min <=? z) && (z <=? int64_max))%Z.

Definition wrap64 (z : Z) : Z := ((z + 2 ^ 63) mod 2 ^ 64 - 2 ^ 63)%Z.

(** [np.rint] and Python's one-argument [round]: the nearest integer,
    a tie going to the even neighbour. *)
Definition rint (x : Q) : Z :=
  let f := Qfloor x in
  match Qcompare (x - inject_Z f) (1 # 2) with
  | Lt => f
  | Gt => (f + 1)%Z
  | Eq => if Z.even f then f else (f + 1)%Z
  end.

(** Comparisons with a cell that may be [NaN]. *)
Definition nan_gt (c : option Q) (y : Q) : bool :=
  match c with Some x => Qgtb x y | None => false end.
Definition nan_lt (c : option Q) (y : Q) : bool :=
  match c with Some x => Qltb x y | None => false end.

End Num.
Import Num.

(** ** Values of a [float64] series

    The columns of a frame and the statistics are computed by pandas and
    NumPy on [float64], where a division by zero gives an infinity or
    [NaN] instead of raising. *)

Module Float.

Inductive fval : Type :=
| Fin (q : Q)
| PInf
| NInf
| NaN.

Definition fneg (x : fval) : fval :=
  match x with
  | Fin q => Fin (- q)
  | PInf => NInf
  | NInf => PInf
  | NaN => NaN
  end.

Definition fadd (x y : fval) : fval :=
  match x, y with
  | NaN, _ | _, NaN => NaN
  | Fin a, Fin b => Fin (a + b)
  | PInf, NInf | NInf, PInf => NaN
  | PInf, _ | _, PInf => PInf
  | NInf, _ | _, NInf => NInf
  end.

Definition fsub (x y : fval) : fval := fadd x (fneg y).

(** An infinity with the sign of [s]: positive, negative, or [NaN] for
    a zero [s]. *)
Definition inf_signed (s : Q) : fval :=
  if Qltb 0 s then PInf else if Qltb s 0 then NInf else NaN.

Definition fmul (x y : fval) : fval :=
  match x, y with
  | NaN, _ | _, NaN => NaN
  | Fin a, Fin b => Fin (a * b)
  | PInf, Fin b | Fin b, PInf => inf_signed b
  | NInf, Fin b | Fin b, NInf => inf_signed (- b)
  | PInf, PInf | NInf, NInf => PInf
  | PInf, NInf | NInf, PInf => NInf
  end.

(** Zero is taken as [+0.0]. *)
Definition fdiv (x y : fval) : fval :=
  match x, y with
  | NaN, _ | _, NaN => NaN
  | Fin a, Fin b => if Qeq_bool b 0 then inf_signed a else Fin (a / b)
  | Fin _, _ => Fin 0
  | PInf, Fin b => if Qltb b 0 then NInf else PInf
  | NInf, Fin b => if Qltb b 0 then PInf else NInf
  | _, _ => NaN
  end.

Definition fabs (x : fval) : fval :=
  match x with
  | Fin q => Fin (Qabs q)
  | PInf | NInf => PInf
  | NaN => NaN
  end.

Definition fltb (x y : fval) : bool :=
  match x, y with
  | NaN, _ | _, NaN => false
  | Fin a, Fin b => Qltb a b
  | NInf, NInf | PInf, _ | _, NInf => false
  | _, _ => true
  end.

Definition fgtb (x y : fval) : bool := fltb y x.

(** [x != y]: true as soon as one side is [NaN]. *)
Definition fneb (x y : fval) : bool :=
  match x, y with
  | Fin a, Fin b => negb (Qeq_bool a b)
  | PInf, PInf | NInf, NInf => false
  | _, _ => true
  end.

Definition is_nan (x : fval) : bool :=
  match x with NaN => true | _ => false end.

(** The result of an operation as a [float64]: a magnitude out of range
    becomes an infinity of its sign. *)
Definition overflow (x : fval) : fval :=
  match x with
  | Fin q => if is_finite q then Fin q else inf_signed q
  | _ => x
  end.

End Float.
Import Float.

(** ** [utils/dv01_calc.py] *)

Module Dv01.

(** The three columns of the frame that [calculate_dv01_metrics] reads. *)
Record Quote : Type := {
  date : Z;
  close_etf : Q;
  close_fut : Q
}.

(** One row of the frame it returns. *)
Record Metrics : Type := {
  m_date : Z;
  m_close_etf : Q;
  m_close_fut : Q;
  etf_dv01 : fval;
  fut_dv01 : fval;
  hedge_ratio : Z
}.

(** Line 13: [df["close_etf"] * etf_duration * 0.0001] on one cell. *)
Definition etf_dv01_of (etf_duration close : Q) : fval :=
  overflow (fmul (overflow (fmul (Fin close) (Fin etf_duration)))
                 (Fin 0.0001)).

(** Line 14: [(ctd_dv01 / conversion_factor) * 10000] on Python floats;
    the division raises for a zero divisor, an overflow gives [inf]. *)
Definition fut_dv01_of (ctd_dv01 conversion_factor : Q) : result fval :=
  q <- py_div ctd_dv01 conversion_factor ;;
  Ok (overflow (fmul (overflow (Fin q)) (Fin 10000))).

(** The conversion of an integral [float64] to [int64]: a value out of
    range gives the least [int64]. *)
Definition to_int64 (z : Z) : Z := if fits_int64 z then z else int64_min.

(** Line 16: [np.rint(a / b).astype(int)] on one cell.  The element-wise
    quotient of a series is [inf] or [nan] when the divisor is zero, and
    pandas refuses to cast a value that is not finite. *)
Definition rint_astype_int (a b : fval) : result Z :=
  match overflow (fdiv a b) with
  | Fin q => Ok (to_int64 (rint q))
  | _ => Raise ValueError
  end.

Definition metrics_of_row (etf_duration : Q) (fut : fval) (r : Quote)
  : result Metrics :=
  let etf := etf_dv01_of etf_duration (close_etf r) in
  h <- rint_astype_int etf fut ;;
  Ok {| m_date := date r; m_close_etf := close_etf r;
        m_close_fut := close_fut r; etf_dv01 := etf; fut_dv01 := fut;
        hedge_ratio := h |}.

Definition calculate_dv01_metrics (df : list Quote)
    (etf_duration ctd_dv01 conversion_factor : Q) : result (list Metrics) :=
  fut <- fut_dv01_of ctd_dv01 conversion_factor ;;
  mapM (metrics_of_row etf_duration fut) df.

(** The quotient whose nearest integer is the hedge ratio of a day. *)
Definition dv01_quotient (etf_duration ctd_dv01 conversion_factor : Q)
    (close : Q) : Q :=
  (close * etf_duration * 0.0001)
  / ((ctd_dv01 / conversion_factor) * 10000).

(** No product or quotient on the way to the hedge ratio of a day leaves
    the range of [float64]. *)
Definition finite_quotient (etf_duration ctd_dv01 conversion_factor : Q)
    (close : Q) : bool :=
  is_finite (close * etf_duration)
  && is_finite (close * etf_duration * 0.0001)
  && is_finite (ctd_dv01 / conversion_factor)
  && is_finite (ctd_dv01 / conversion_factor * 10000)
  && is_finite (dv01_quotient etf_duration ctd_dv01 conversion_factor close).


End Dv01.

(** ** Signal alignment (source lines 128-142) *)

Module Signal.

(** A name is given by the bytes of its UTF-8 form; Python sees its
    characters, which are code points. *)
Definition replacement : N := 65533%N.

Definition continuation (b : N) : N := (b mod 64)%N.

(** The characters of a well-formed byte sequence; a byte that starts no
    character is read as U+FFFD. *)
Fixpoint decode_utf8 (l : list N) : list N :=
  match l with
  | [] => []
  | b :: r =>
      if (b <? 128)%N then b :: decode_utf8 r
      else if (b <? 192)%N then replacement :: decode_utf8 r
      else if (b <? 224)%N then
        match r with
        | c1 :: r1 =>
            ((b - 192) * 64 + continuation c1)%N :: decode_utf8 r1
        | _ => [replacement]
        end
      else if (b <? 240)%N then
        match r with
        | c1 :: c2 :: r2 =>
            ((b - 224) * 4096 + continuation c1 * 64 + continuation c2)%N
            :: decode_utf8 r2
        | _ => [replacement]
        end
      else
        match r with
        | c1 :: c2 :: c3 :: r3 =>
            ((b - 240) * 262144 + continuation c1 * 4096
             + continuation c2 * 64 + continuation c3)%N
            :: decode_utf8 r3
        | _ => [replacement]
        end
  end.

Definition chars (name : string) : list N :=
  decode_utf8 (map N_of_ascii (list_ascii_of_string name)).

(** The decimal digits of Unicode 14.0 (category [Nd]), as ranges of code
    points; every range starts with a digit zero and holds whole sets of
    ten digits. *)
Definition decimal_ranges : list (N * N) :=
  [ (48, 57); (1632, 1641); (1776, 1785); (1984, 1993); (2406, 2415);
    (2534, 2543); (2662, 2671); (2790, 2799); (2918, 2927); (3046, 3055);
    (3174, 3183); (3302, 3311); (3430, 3439); (3558, 3567); (3664, 3673);
    (3792, 3801); (3872, 3881); (4160, 4169); (4240, 4249); (6112, 6121);
    (6160, 6169); (6470, 6479); (6608, 6617); (6784, 6793); (6800, 6809);
    (6992, 7001); (7088, 7097); (7232, 7241); (7248, 7257); (42528, 42537);
    (43216, 43225); (43264, 43273); (43472, 43481); (43504, 43513);
    (43600, 43609); (44016, 44025); (65296, 65305); (66720, 66729);
    (68912, 68921); (69734, 69743); (69872, 69881); (69942, 69951);
    (70096, 70105); (70384, 70393); (70736, 70745); (70864, 70873);
    (71248, 71257); (71360, 71369); (71472, 71481); (71904, 71913);
    (72016, 72025); (72784, 72793); (73040, 73049); (73120, 73129);
    (92768, 92777); (92864, 92873); (93008, 93017); (120782, 120831);
    (123200, 123209); (123632, 123641); (125264, 125273);
    (130032, 130041) ]%N.

(** The value of a character as a decimal digit: the characters that
    [\d] matches in a [str] pattern are those that [int] reads. *)
Definition digit_value (c : N) : option N :=
  match find (fun r => (fst r <=? c) && (c <=? snd r))%N decimal_ranges with
  | Some r => Some ((c - fst r) mod 10)%N
  | None => None
  end.

Definition is_digit (c : N) : bool :=
  match digit_value c with Some _ => true | None => false end.

Definition value_of (c : N) : Z :=
  match digit_value c with Some v => Z.of_N v | None => 0%Z end.

(** The number written by a run of decimal digits. *)
Definition int_of_digits (ds : list N) : Z :=
  fold_left (fun acc c => (10 * acc + value_of c)%Z) ds 0%Z.

(** [int(...)] of a run of decimal digits: a run of more than 4300 digits
    is refused (the default [sys.get_int_max_str_digits()]). *)
Definition max_str_digits : nat := 4300.

Definition int (ds : list N) : result Z :=
  if (max_str_digits <? List.length ds)%nat then Raise ValueError
  else Ok (int_of_digits ds).

(** The longest run of digits at the head of a list. *)
Fixpoint take_digits (l : list N) : list N :=
  match l with
  | c :: l' => if is_digit c then c :: take_digits l' else []
  | [] => []
  end.

Definition newline : N := 10%N.
Definition letter_d : N := 100%N.

(** Where [$] can stand in a name read backwards: at its end, or in front
    of a line feed that is its last character. *)
Definition before_dollar (rev_name : list N) : list N :=
  match rev_name with
  | c :: r => if (c =? newline)%N then r else rev_name
  | [] => []
  end.

(** [re.search(r"(\d+)d$", pred_col)]: group 1 of the leftmost match, the
    digits read most significant first. *)
Definition search_digits_d (pred_col : string) : option (list N) :=
  match before_dollar (rev (chars pred_col)) with
  | c :: r =>
      if (c =? letter_d)%N then
        match take_digits r with
        | [] => None
        | ds => Some (rev ds)
        end
      else None
  | [] => None
  end.

(** Lines 131-136. *)
Definition pred_shift (pred_col : string) : result Z :=
  match search_digits_d pred_col with
  | Some ds => int ds
  | None => Ok 0%Z
  end.

(** Row [i] takes the value of row [i + n]; the rows that have no such
    row become [NaN]. *)
Definition shift_back {A : Type} (n : nat) (col : list (option A))
  : list (option A) :=
  skipn n col ++ repeat None (Nat.min n (List.length col)).

(** [Series.shift(-n)] for [n > 0]: a column without rows is copied; the
    number of rows to roll is converted to a machine integer, which fails
    below the least [int64]. *)
Definition shift_minus {A : Type} (n : Z) (col : list (option A))
  : result (list (option A)) :=
  match col with
  | [] => Ok []
  | _ =>
      if (- n <? int64_min)%Z then Raise OverflowError
      else Ok (shift_back (Z.to_nat (Z.min n (Z.of_nat (List.length col))))
                 col)
  end.

(** The column [_signal_today]. *)
Definition signal_today_col (pred_col : string) (col : list (option Q))
  : result (list (option Q)) :=
  n <- pred_shift pred_col ;;
  if (0 <? n)%Z then shift_minus n col else Ok col.

End Signal.

(** ** The daily loop of [backtest_spread_strategy] *)

Module Backtest.

Record Config : Type := {
  initial_capital : Q;
  margin_rate : Q;
  tick_etf : Q;
  tick_fut : Q;
  etf_duration : Q;
  conversion_factor : Q;
  stop_gain : Q;
  stop_loss : Q;
  alpha_entry_threshold : Q
}.

(** The default arguments of the function. *)
Definition default_config : Config := {|
  initial_capital := 10000000;
  margin_rate := 0.1;
  tick_etf := 0.001;
  tick_fut := 0.005;
  etf_duration := 7.5;
  conversion_factor := 0.925;
  stop_gain := 0.005;
  stop_loss := 0.005;
  alpha_entry_threshold := -0.3
|}.

(** A row of the caller's frame; [pred] is the cell of column [pred_col]. *)
Record MarketDay : Type := {
  date : Z;
  open_etf : Q;
  open_fut : Q;
  close_etf : Q;
  close_fut : Q;
  pred : option Q
}.

(** A row as the loop reads it, after the merge of [hedge_ratio] and the
    creation of [_signal_today]. *)
Record Row : Type := {
  day : MarketDay;
  hedge_ratio_cell : option Z;
  signal_today : option Q
}.

Record DailyRecord : Type := {
  rec_date : Z;
  position : Z;
  trade : Z;
  equity : Q;
  cum_return : Q
}.

(** The base and alpha books. *)
Record Books : Type := {
  base_built : bool;
  base_etf_units : Z;
  base_fut_units : Z;
  alpha_etf_units : Z;
  alpha_fut_units : Z;
  entry_equity_alpha : option Q
}.

(** The account and the primary position. *)
Record Account : Type := {
  cash : Q;
  capital : Q;
  holding : bool;
  n_etf : Z;
  n_fut : Z;
  entry_equity : Q;
  entry_etf_price : Q;
  entry_fut_price : Q
}.

Record State : Type := {
  books : Books;
  account : Account;
  realized_pnls : list Q;
  records : list DailyRecord
}.

Definition initial_state (cfg : Config) : State := {|
  books := {| base_built := false; base_etf_units := 0; base_fut_units := 0;
              alpha_etf_units := 0; alpha_fut_units := 0;
              entry_equity_alpha := None |};
  account := {| cash := initial_capital cfg; capital := initial_capital cfg;
                holding := false; n_etf := 0; n_fut := 0; entry_equity := 0;
                entry_etf_price := 0; entry_fut_price := 0 |};
  realized_pnls := [];
  records := []
|}.

(** [row["hedge_ratio"] if not pd.isna(row["hedge_ratio"]) else 0.0] *)
Definition hedge_ratio (row : Row) : Q :=
  match hedge_ratio_cell row with
  | Some h => inject_Z h
  | None => 0
  end.

(** The cell of the hedge ratio as the [int64] that it is; the products
    of a Python integer and this cell are [int64] products. *)
Definition hedge_int (row : Row) : Z :=
  match hedge_ratio_cell row with
  | Some h => h
  | None => 0%Z
  end.

(** [int(round(units * hedge_ratio))] for an integer [units] that is an
    [int64]. *)
Definition units_times_hedge (row : Row) (units : Z) : Z :=
  wrap64 (units * hedge_int row).

(** Lines 177-180: the base book is built once. *)
Definition build_base (row : Row) (b : Books) : Books :=
  if negb (base_built b) && nan_gt (signal_today row) 0
     && Qgtb (hedge_ratio row) 0 && Qgtb (open_etf (day row)) 0
  then
    let units := 1000%Z in
    {| base_built := true;
       base_etf_units := units;
       base_fut_units := units_times_hedge row units;
       alpha_etf_units := alpha_etf_units b;
       alpha_fut_units := alpha_fut_units b;
       entry_equity_alpha := entry_equity_alpha b |}
  else b.

(** The expression of lines 186 and 189. *)
Definition combined_value (cash_now : Q) (b : Books) (row : Row) : Q :=
  cash_now
  + inject_Z (base_etf_units b + alpha_etf_units b) * open_etf (day row)
  - inject_Z (base_fut_units b + alpha_fut_units b) * open_fut (day row)
    * 10000.

(** Lines 182-186: the alpha book grows by one step. *)
Definition accumulate_alpha (cfg : Config) (row : Row) (cash_now : Q)
    (b : Books) : Books :=
  if nan_lt (signal_today row) (alpha_entry_threshold cfg)
     && Qgtb (hedge_ratio row) 0
  then
    if (alpha_etf_units b <? 2 * base_etf_units b)%Z then
      let grown :=
        {| base_built := base_built b;
           base_etf_units := base_etf_units b;
           base_fut_units := base_fut_units b;
           alpha_etf_units := alpha_etf_units b + 100;
           alpha_fut_units := alpha_fut_units b + units_times_hedge row 100;
           entry_equity_alpha := entry_equity_alpha b |} in
      {| base_built := base_built grown;
         base_etf_units := base_etf_units grown;
         base_fut_units := base_fut_units grown;
         alpha_etf_units := alpha_etf_units grown;
         alpha_fut_units := alpha_fut_units grown;
         entry_equity_alpha := Some (combined_value cash_now grown row) |}
    else b
  else b.

Definition close_alpha (b : Books) : Books :=
  {| base_built := base_built b;
     base_etf_units := base_etf_units b;
     base_fut_units := base_fut_units b;
     alpha_etf_units := 0;
     alpha_fut_units := 0;
     entry_equity_alpha := None |}.

(** Lines 188-196: the stop of the alpha book.  The test
    [alpha_etf_units > 0 and entry_equity_alpha] is false for [None] and
    for a basis equal to zero. *)
Definition exit_alpha (cfg : Config) (row : Row) (cash_now : Q)
    (b : Books) (pnls : list Q) : result (Books * list Q) :=
  match entry_equity_alpha b with
  | Some basis =>
      if (0 <? alpha_etf_units b)%Z && negb (Qeq_bool basis 0) then
        let total_value_now := combined_value cash_now b row in
        let alpha_pnl := total_value_now - basis in
        alpha_pnl_rate <- py_div alpha_pnl basis ;;
        if Qgeb alpha_pnl_rate (stop_gain cfg)
           || Qleb alpha_pnl_rate (- stop_loss cfg)
        then Ok (close_alpha b, pnls ++ [alpha_pnl_rate])
        else Ok (b, pnls)
      else Ok (b, pnls)
  | None => Ok (b, pnls)
  end.

(** Lines 210-214: equity at the open and the floating return of the
    primary position, relative to its own entry equity. *)
Definition current_equity_open (row : Row) (a : Account) : Q :=
  let etf_value_open := inject_Z (n_etf a) * open_etf (day row) in
  let fut_pnl_open :=
    (entry_fut_price a - open_fut (day row)) * inject_Z (n_fut a) * 10000 in
  cash a + etf_value_open + fut_pnl_open.

Definition pnl_rate (row : Row) (a : Account) : result Q :=
  if negb (Qeq_bool (entry_equity a) 0)
  then py_div (current_equity_open row a - entry_equity a) (entry_equity a)
  else Ok 0.

(** The test of line 216. *)
Definition exit_condition (cfg : Config) (row : Row) (rate : Q) : bool :=
  Qgeb rate (stop_gain cfg) || Qleb rate (- stop_loss cfg)
  || negb (nan_gt (signal_today row) 0).

Definition close_primary (row : Row) (a : Account) : Account :=
  {| cash := current_equity_open row a;
     capital := current_equity_open row a;
     holding := false;
     n_etf := 0;
     n_fut := 0;
     entry_equity := entry_equity a;
     entry_etf_price := entry_etf_price a;
     entry_fut_price := entry_fut_price a |}.

(** Lines 205-227; the third component is [trade_action]. *)
Definition exit_primary (cfg : Config) (row : Row) (a : Account)
    (pnls : list Q) : result (Account * list Q * Z) :=
  let trade_action := 0%Z in
  if holding a then
    rate <- pnl_rate row a ;;
    if exit_condition cfg row rate
    then Ok (close_primary row a, pnls ++ [rate], (-1)%Z)
    else Ok (a, pnls, trade_action)
  else Ok (a, pnls, trade_action).

Definition margin_required (cfg : Config) (row : Row) (lots : Z) : Q :=
  inject_Z lots * margin_rate cfg * open_fut (day row) * 10000.

Definition etf_cost (row : Row) (units : Z) : Q :=
  inject_Z units * open_etf (day row).

Definition total_required (cfg : Config) (row : Row) (units lots : Z) : Q :=
  margin_required cfg row lots + etf_cost row units.

(** The value of [max(1, int(round(units * hedge_ratio)))]. *)
Definition lots_value (row : Row) (units : Z) : Z :=
  Z.max 1 (units_times_hedge row units).

(** [max(1, int(round(units * hedge_ratio)))] for the result [units] of
    [math.floor]: a Python integer that is not an [int64] cannot be
    multiplied by an [int64] cell (NumPy 2). *)
Definition lots_for (row : Row) (units : Z) : result Z :=
  if fits_int64 units then Ok (lots_value row units)
  else Raise OverflowError.

(** [math.floor(n_etf * scale)]: with a quotient [scale] that is not a
    finite float the product is an infinity, or [nan] for [n_etf = 0],
    which [math.floor] refuses with [ValueError]. *)
Definition floor_product (units : Z) (scale : Q) : result Z :=
  if is_finite scale then math_floor (inject_Z units * scale)
  else if (units =? 0)%Z then Raise ValueError
  else Raise OverflowError.

(** Lines 238-263: the sizes [(n_etf, n_fut)] and [etf_cost] that reach the
    test of line 264. *)
Definition size_position (cfg : Config) (row : Row) (available_funds : Q)
  : result (Z * Z * Q) :=
  q <- py_div available_funds (open_etf (day row)) ;;
  max_etf <- math_floor q ;;
  lots <- lots_for row max_etf ;;
  q' <- py_div (inject_Z lots) (hedge_ratio row) ;;
  units <- math_floor q' ;;
  let total := total_required cfg row units lots in
  if Qgtb total available_funds && Qgtb total 0 then
    scale <- py_div available_funds total ;;
    units' <- floor_product units scale ;;
    lots' <- lots_for row units' ;;
    if Qgtb (total_required cfg row units' lots') available_funds
    then Ok (0%Z, 0%Z, etf_cost row units')
    else Ok (units', lots', etf_cost row units')
  else Ok (units, lots, etf_cost row units).

Definition open_primary (cfg : Config) (row : Row) (a : Account)
    (units lots : Z) (cost : Q) : Account :=
  let slip_etf_cost := inject_Z units * tick_etf cfg * 3 in
  let slip_fut_cost := inject_Z lots * tick_fut cfg * 10000 in
  let cash' := cash a - (cost + slip_etf_cost + slip_fut_cost) in
  let equity' := cash' + inject_Z units * open_etf (day row) in
  {| cash := cash';
     capital := equity';
     holding := true;
     n_etf := units;
     n_fut := lots;
     entry_equity := equity';
     entry_etf_price := open_etf (day row);
     entry_fut_price := open_fut (day row) |}.

Definition with_sizes (a : Account) (units lots : Z) : Account :=
  {| cash := cash a;
     capital := capital a;
     holding := holding a;
     n_etf := units;
     n_fut := lots;
     entry_equity := entry_equity a;
     entry_etf_price := entry_etf_price a;
     entry_fut_price := entry_fut_price a |}.

(** Lines 229-276. *)
Definition enter_primary (cfg : Config) (row : Row) (a : Account)
    (trade_action : Z) : result (Account * Z) :=
  if negb (holding a) && nan_gt (signal_today row) 0 then
    let available_funds := capital a * 0.90 in
    if Qleb (open_etf (day row)) 0 || Qleb (hedge_ratio row) 0
    then Ok (a, trade_action)
    else
      ' (units, lots, cost) <- size_position cfg row available_funds ;;
      if (0 <? units)%Z && (0 <? lots)%Z
      then Ok (open_primary cfg row a units lots cost, 1%Z)
      else Ok (with_sizes a units lots, trade_action)
  else Ok (a, trade_action).

(** Lines 278-296. *)
Definition mark_and_record (cfg : Config) (row : Row) (b : Books)
    (a : Account) (trade_action : Z) : result DailyRecord :=
  let current_equity :=
    if holding a then
      cash a
      + inject_Z (base_etf_units b + alpha_etf_units b) * open_etf (day row)
      + (entry_fut_price a - open_fut (day row))
        * inject_Z (base_fut_units b + alpha_fut_units b) * 10000
    else cash a in
  let position_flag := if holding a then 1%Z else 0%Z in
  q <- py_div current_equity (initial_capital cfg) ;;
  Ok {| rec_date := date (day row);
        position := position_flag;
        trade := trade_action;
        equity := current_equity;
        cum_return := q - 1 |}.

(** One iteration of the loop of line 166. *)
Definition step (cfg : Config) (st : State) (row : Row) : result State :=
  let b1 := build_base row (books st) in
  let b2 := accumulate_alpha cfg row (cash (account st)) b1 in
  ' (b3, pnls1) <- exit_alpha cfg row (cash (account st)) b2
                     (realized_pnls st) ;;
  ' (a1, pnls2, action1) <- exit_primary cfg row (account st) pnls1 ;;
  ' (a2, action2) <- enter_primary cfg row a1 action1 ;;
  r <- mark_and_record cfg row b3 a2 action2 ;;
  Ok {| books := b3; account := a2; realized_pnls := pnls2;
        records := records st ++ [r] |}.

Fixpoint run_days (cfg : Config) (st : State) (rows : list Row)
  : result State :=
  match rows with
  | [] => Ok st
  | row :: rest => st' <- step cfg st row ;; run_days cfg st' rest
  end.

(** *** Preparation of the frame *)

(** [df.sort_values("date")]; the dates of a frame are distinct, and rows
    of equal date would be kept in their order here. *)
Fixpoint insert_by_date (r : MarketDay) (l : list MarketDay)
  : list MarketDay :=
  match l with
  | [] => [r]
  | x :: l' =>
      if (date r <=? date x)%Z then r :: l else x :: insert_by_date r l'
  end.

Definition sort_values_date (df : list MarketDay) : list MarketDay :=
  fold_right insert_by_date [] df.

Definition quote_of (d : MarketDay) : Dv01.Quote :=
  {| Dv01.date := date d; Dv01.close_etf := close_etf d;
     Dv01.close_fut := close_fut d |}.

(** [df.merge(dv01_df[["date", "hedge_ratio"]], on="date", how="left")] *)
Definition merge_hedge_ratio (df : list MarketDay) (dv : list Dv01.Metrics)
  : list (MarketDay * option Z) :=
  flat_map
    (fun d =>
       match filter (fun m => (Dv01.m_date m =? date d)%Z) dv with
       | [] => [(d, None)]
       | ms => map (fun m => (d, Some (Dv01.hedge_ratio m))) ms
       end) df.

(** The rows of the merged frame with the column [_signal_today]. *)
Definition make_rows (merged : list (MarketDay * option Z))
    (signal : list (option Q)) : list Row :=
  map (fun p => {| day := fst (fst p); hedge_ratio_cell := snd (fst p);
                   signal_today := snd p |})
      (combine merged signal).

Definition rows_of (pred_col : string) (merged : list (MarketDay * option Z))
  : result (list Row) :=
  signal <- Signal.signal_today_col pred_col
              (map (fun p => pred (fst p)) merged) ;;
  Ok (make_rows merged signal).

Definition ctd_dv01 : Q := 0.042.

(** Lines 109-142: the rows that the loop reads. *)
Definition prepare (df : list MarketDay) (pred_col : string) (cfg : Config)
  : result (list Row) :=
  let df := sort_values_date df in
  dv01_df <- Dv01.calculate_dv01_metrics (map quote_of df)
               (etf_duration cfg) ctd_dv01 (conversion_factor cfg) ;;
  rows_of pred_col (merge_hedge_ratio df dv01_df).

End Backtest.

(** ** Result frame and performance metrics (source lines 298-332) *)

Module Evaluator.
Import Backtest.

(** A value of the [metrics] dictionary. *)
Inductive mval : Type :=
| MFloat (f : fval)
| MInt (n : Z).

Definition Metrics : Type := list (string * mval).

(** [metrics[key]] *)
Fixpoint lookup (key : string) (m : Metrics) : option mval :=
  match m with
  | [] => None
  | (k, v) :: m' => if String.eqb key k then Some v else lookup key m'
  end.

(** [Series.pct_change()] *)
Fixpoint pct_change_from (prev : Q) (l : list Q) : list fval :=
  match l with
  | [] => []
  | x :: l' => fsub (fdiv (Fin x) (Fin prev)) (Fin 1) :: pct_change_from x l'
  end.

Definition pct_change (l : list Q) : list fval :=
  match l with
  | [] => []
  | x :: l' => NaN :: pct_change_from x l'
  end.

Definition fillna (v : Q) (l : list fval) : list fval :=
  map (fun x => if is_nan x then Fin v else x) l.

(** [Series.cummax()] *)
Fixpoint cummax_from (m : Q) (l : list Q) : list Q :=
  match l with
  | [] => []
  | x :: l' => let m' := if Qltb m x then x else m in m' :: cummax_from m' l'
  end.

Definition cummax (l : list Q) : list Q :=
  match l with
  | [] => []
  | x :: l' => x :: cummax_from x l'
  end.

(** Line 301: [equity.pct_change().fillna(0)]. *)
Definition strategy_ret_of (equity_col : list Q) : list fval :=
  fillna 0 (pct_change equity_col).

(** The reductions of pandas skip [NaN]. *)
Definition dropna (l : list fval) : list fval :=
  filter (fun x => negb (is_nan x)) l.

Definition fsum (l : list fval) : fval := fold_left fadd l (Fin 0).

Definition count (l : list fval) : Q :=
  inject_Z (Z.of_nat (List.length (dropna l))).

Definition series_min (l : list fval) : fval :=
  match dropna l with
  | [] => NaN
  | x :: l' => fold_left (fun m y => if fltb y m then y else m) l' x
  end.

Definition series_mean (l : list fval) : fval :=
  fdiv (fsum (dropna l)) (Fin (count l)).

(** [Series.var()] with its default [ddof = 1]. *)
Definition series_var (l : list fval) : fval :=
  let d := count l - 1 in
  if Qleb d 0 then NaN
  else
    let avg := series_mean l in
    let sqr := map (fun x => fmul (fsub avg x) (fsub avg x)) (dropna l) in
    fdiv (fsum sqr) (Fin d).

Section WithLibm.

(** [**] on floats and [np.sqrt], whose values are not rational. *)
Variable fpow : fval -> fval -> fval.
Variable fsqrt : fval -> fval.

Definition series_std (l : list fval) : fval := fsqrt (series_var l).

(** Line 307. *)
Definition annual_return_of (total_return : fval) (trade_days : nat)
  : result fval :=
  if (0 <? trade_days)%nat then
    e <- py_div 252 (inject_Z (Z.of_nat trade_days)) ;;
    Ok (fsub (fpow (fadd (Fin 1) total_return) (Fin e)) (Fin 1))
  else Ok (Fin 0).

(** Lines 313-317. *)
Definition sharpe_ratio_of (daily_returns : list fval) : fval :=
  if fneb (series_std daily_returns) (Fin 0)
  then fmul (fdiv (series_mean daily_returns) (series_std daily_returns))
            (fsqrt (Fin 252))
  else Fin 0.

(** Line 319. *)
Definition calmar_ratio_of (annual_return max_drawdown : fval) : fval :=
  if fgtb max_drawdown (Fin 1e-8)
  then fdiv annual_return max_drawdown
  else NaN.

(** Lines 321-323. *)
Definition win_trades_of (pnls : list Q) : nat :=
  List.length (filter (fun pnl => Qgtb pnl 0) pnls).

Definition win_rate_of (pnls : list Q) : result fval :=
  let win_trades := win_trades_of pnls in
  let total_trades := List.length pnls in
  if (0 <? total_trades)%nat then
    q <- py_div (inject_Z (Z.of_nat win_trades))
                (inject_Z (Z.of_nat total_trades)) ;;
    Ok (Fin q)
  else Ok NaN.

(** Line 306. *)
Definition total_return_of (final_equity initial : Q) : fval :=
  fsub (fdiv (Fin final_equity) (Fin initial)) (Fin 1).

(** Lines 309-311, for a frame that has rows. *)
Definition max_drawdown_of (equity_col : list Q) : fval :=
  let cumulative_max := cummax equity_col in
  let drawdown :=
    map (fun p => fsub (fdiv (Fin (fst p)) (Fin (snd p))) (Fin 1))
        (combine equity_col cumulative_max) in
  match drawdown with
  | [] => Fin 0
  | _ => fabs (series_min drawdown)
  end.

(** Lines 298-332.  A frame built from an empty list of records has no
    column, so that [result_df["equity"]] raises. *)
Definition evaluate (initial : Q) (recs : list DailyRecord)
    (pnls : list Q)
  : result (list (DailyRecord * fval) * Metrics * list Q) :=
  match recs with
  | [] => Raise (KeyError "equity")
  | first :: _ =>
      let equity_col := map equity recs in
      let strategy_ret := strategy_ret_of equity_col in
      let trade_days := List.length recs in
      let final_equity := last equity_col (equity first) in
      let total_return := total_return_of final_equity initial in
      annual_return <- annual_return_of total_return trade_days ;;
      let max_drawdown := max_drawdown_of equity_col in
      let sharpe_ratio := sharpe_ratio_of strategy_ret in
      let calmar_ratio := calmar_ratio_of annual_return max_drawdown in
      win_rate <- win_rate_of pnls ;;
      let total_trades := List.length pnls in
      let metrics :=
        [ ("annual_return"%string, MFloat annual_return);
          ("max_drawdown"%string, MFloat max_drawdown);
          ("sharpe_ratio"%string, MFloat sharpe_ratio);
          ("calmar_ratio"%string, MFloat calmar_ratio);
          ("win_rate"%string, MFloat win_rate);
          ("total_trades"%string, MInt (Z.of_nat total_trades)) ] in
      Ok (combine recs strategy_ret, metrics, pnls)
  end.

(** *** Values named in the statements *)

(** The win rate of a list of trade outcomes. *)
Definition win_rate_value (pnls : list Q) : fval :=
  match pnls with
  | [] => NaN
  | _ => Fin (inject_Z (Z.of_nat (win_trades_of pnls))
              / inject_Z (Z.of_nat (List.length pnls)))
  end.

(** The dictionary returned for a ledger that has records. *)
Definition metrics_of (initial : Q) (recs : list DailyRecord)
    (pnls : list Q) : Metrics :=
  let equity_col := map equity recs in
  let final_equity := last equity_col 0 in
  let annual_return :=
    fsub (fpow (fadd (Fin 1) (total_return_of final_equity initial))
            (Fin (252 / inject_Z (Z.of_nat (List.length recs)))))
         (Fin 1) in
  let max_drawdown := max_drawdown_of equity_col in
  [ ("annual_return"%string, MFloat annual_return);
    ("max_drawdown"%string, MFloat max_drawdown);
    ("sharpe_ratio"%string,
     MFloat (sharpe_ratio_of (strategy_ret_of equity_col)));
    ("calmar_ratio"%string,
     MFloat (calmar_ratio_of annual_return max_drawdown));
    ("win_rate"%string, MFloat (win_rate_value pnls));
    ("total_trades"%string, MInt (Z.of_nat (List.length pnls))) ].

(** *** The whole function *)

Definition backtest_spread_strategy (df : list MarketDay)
    (pred_col : string) (cfg : Config)
  : result (list (DailyRecord * fval) * Metrics * list Q) :=
  rows <- prepare df pred_col cfg ;;
  st <- run_days cfg (initial_state cfg) rows ;;
  evaluate (initial_capital cfg) (records st) (realized_pnls st).

End WithLibm.

End Evaluator.

(** ** Worked inputs *)

Module Examples.
Import Backtest.

Definition market_day (d : Z) (o_etf o_fut c_etf : Q) (p : option Q)
  : MarketDay :=
  {| date := d; open_etf := o_etf; open_fut := o_fut; close_etf := c_etf;
     close_fut := o_fut; pred := p |}.

(** The loop on the rows prepared from a frame. *)
Definition run_frame (df : list MarketDay) (pred_col : string)
    (cfg : Config) : result State :=
  rows <- prepare df pred_col cfg ;;
  run_days cfg (initial_state cfg) rows.

(** Two days with a positive signal; the ETF opens 1.2 % higher on the
    second day, above the default stop-gain of 0.5 %. *)
Definition reopen_frame : list MarketDay :=
  [ market_day 1 605000 100 605000 (Some 1);
    market_day 2 612000 100 612000 (Some 1) ].

(** A row of the loop: the day, its hedge ratio, and the prediction of the
    day as signal (no shift). *)
Definition row_with (h : Z) (d : MarketDay) : Row :=
  {| day := d; hedge_ratio_cell := Some h; signal_today := pred d |}.

Definition reopen_rows : list Row := map (row_with 1) reopen_frame.

(** The base book is built on the first day; the signal of the second and
    third day is below the alpha threshold. *)
Definition alpha_rows : list Row :=
  [ row_with 1 (market_day 1 605000 100 605000 (Some 1));
    row_with 1 (market_day 2 605000 100 605000 (Some (-0.5)));
    row_with 1 (market_day 3 605000 100 605000 (Some (-0.5))) ].

(** The default configuration with a margin rate of zero. *)
Definition no_margin_config : Config := {|
  initial_capital := 10000000;
  margin_rate := 0;
  tick_etf := 0.001;
  tick_fut := 0.005;
  etf_duration := 7.5;
  conversion_factor := 0.925;
  stop_gain := 0.005;
  stop_loss := 0.005;
  alpha_entry_threshold := -0.3
|}.

(** An entry, a close on a non-positive signal after the futures doubled,
    which leaves the equity negative, and a new positive signal. *)
Definition negative_equity_frame : list MarketDay :=
  [ market_day 1 605000 100 605000 (Some 1);
    market_day 2 605000 200 605000 (Some (-0.1));
    market_day 3 605000 200 1210000 (Some 1) ].

(** A held position of one unit and one lot entered at 100, and a day on
    which the ETF opens at 100.5: a floating return of exactly 0.5 %. *)
Definition held_account : Account :=
  {| cash := 0; capital := 100; holding := true; n_etf := 1; n_fut := 1;
     entry_equity := 100; entry_etf_price := 100; entry_fut_price := 100 |}.

Definition boundary_row : Row :=
  row_with 1 (market_day 2 100.5 100 100.5 (Some 1)).

(** A flat account with 100 of capital, too little for one lot. *)
Definition small_account : Account :=
  {| cash := 100; capital := 100; holding := false; n_etf := 0; n_fut := 0;
     entry_equity := 0; entry_etf_price := 0; entry_fut_price := 0 |}.

Definition entry_row : Row :=
  row_with 1 (market_day 1 605000 100 605000 (Some 1)).

Definition negative_equity_rows : list Row :=
  [ row_with 1 (market_day 1 605000 100 605000 (Some 1));
    row_with 1 (market_day 2 605000 200 605000 (Some (-0.1)));
    row_with 2 (market_day 3 605000 200 1210000 (Some 1)) ].

Definition third_day : Row :=
  row_with 2 (market_day 3 605000 200 1210000 (Some 1)).

(** The ledger of a single flat day. *)
Definition flat_ledger : list DailyRecord :=
  [ {| rec_date := 1; position := 0; trade := 0; equity := 10000000;
       cum_return := 0 |} ].

(** One day at ordinary prices: the hedge ratio is 0 and nothing trades. *)
Definition quiet_frame : list MarketDay :=
  [ market_day 1 100 100 100 (Some 1) ].

Definition quiet_rows : list Row := map (row_with 0) quiet_frame.

(** The default configuration with a conversion factor of zero, and with
    an initial capital of zero. *)
Definition no_factor_config : Config := {|
  initial_capital := 10000000;
  margin_rate := 0.1;
  tick_etf := 0.001;
  tick_fut := 0.005;
  etf_duration := 7.5;
  conversion_factor := 0;
  stop_gain := 0.005;
  stop_loss := 0.005;
  alpha_entry_threshold := -0.3
|}.

Definition no_capital_config : Config := {|
  initial_capital := 0;
  margin_rate := 0.1;
  tick_etf := 0.001;
  tick_fut := 0.005;
  etf_duration := 7.5;
  conversion_factor := 0.925;
  stop_gain := 0.005;
  stop_loss := 0.005;
  alpha_entry_threshold := -0.3
|}.

(** The record of a flat day at the default capital. *)
Definition flat_day : DailyRecord :=
  {| rec_date := 1; position := 0; trade := 0; equity := 10000000;
     cum_return := 0 |}.



(** A column name whose last character is a line feed. *)
Definition name_with_line_feed : string :=
  String.append "pred_5d" (String (ascii_of_nat 10) EmptyString).

End Examples.

(** ** Statements about the ledger *)

Module Ledger.
Import Backtest.

Definition flag (b : bool) : Z := if b then 1%Z else 0%Z.

Definition flags_in_range (r : DailyRecord) : Prop :=
  (position r = 0 \/ position r = 1)%Z
  /\ (trade r = -1 \/ trade r = 0 \/ trade r = 1)%Z.

(** The transitions as the design document words them; [prev] is the
    position flag of the day before, 0 before the first day. *)
Definition documented_day (prev : Z) (r : DailyRecord) : Prop :=
  flags_in_range r
  /\ (trade r = 1 -> prev = 0 /\ position r = 1)%Z
  /\ (trade r = -1 -> prev = 1 /\ position r = 0)%Z.

(** The transitions that the loop records. *)
Definition recorded_day (prev : Z) (r : DailyRecord) : Prop :=
  flags_in_range r
  /\ (trade r = 1 -> position r = 1)%Z
  /\ (trade r = -1 -> prev = 1 /\ position r = 0)%Z
  /\ (trade r = 0 -> position r = prev)%Z.

(** [P] holds of every record, given the flag of the record before it. *)
Fixpoint each_day (P : Z -> DailyRecord -> Prop) (prev : Z)
    (recs : list DailyRecord) : Prop :=
  match recs with
  | [] => True
  | r :: rest => P prev r /\ each_day P (position r) rest
  end.

(** The position flag of the last record, [prev] for an empty ledger. *)
Definition last_flag (prev : Z) (recs : list DailyRecord) : Z :=
  fold_left (fun _ r => position r) recs prev.

End Ledger.

(** ** Statements about the books, the exit rule and the sizing *)

Module Invariant.
Import Backtest.

(** What every reachable pair of books satisfies: the base book holds 0 or
    1000 units, nothing before it is built, and the alpha book holds a
    multiple of 100 between 0 and twice the base. *)
Definition books_inv (b : Books) : Prop :=
  (base_etf_units b = 0 \/ base_etf_units b = 1000)%Z
  /\ (base_built b = false -> base_etf_units b = 0%Z)
  /\ exists k : Z,
       (0 <= k)%Z /\ alpha_etf_units b = (100 * k)%Z
       /\ (alpha_etf_units b <= 2 * base_etf_units b)%Z.

End Invariant.

Module ExitRule.
Import Backtest.

(** The signal of the day is a number, and strictly positive. *)
Definition signal_positive (row : Row) : Prop :=
  exists s, signal_today row = Some s /\ 0 < s.

(** The three ways in which a held primary position is closed. *)
Definition stop_or_flip (cfg : Config) (row : Row) (rate : Q) : Prop :=
  stop_gain cfg <= rate \/ rate <= - stop_loss cfg \/ ~ signal_positive row.

End ExitRule.

Module Sizing.
Import Backtest.

(** The sizes computed on an entry attempt with [avail] reserved funds:
    first from the funds alone (lines 238-245), then after the scale-down
    (lines 254-256). *)
Definition first_lots (row : Row) (avail : Q) : Z :=
  lots_value row (floor (avail / open_etf (day row))).

Definition first_units (row : Row) (avail : Q) : Z :=
  floor (inject_Z (first_lots row avail) / hedge_ratio row).

Definition first_required (cfg : Config) (row : Row) (avail : Q) : Q :=
  total_required cfg row (first_units row avail) (first_lots row avail).

Definition scaled_units (cfg : Config) (row : Row) (avail : Q) : Z :=
  floor (inject_Z (first_units row avail)
         * (avail / first_required cfg row avail)).

Definition scaled_lots (cfg : Config) (row : Row) (avail : Q) : Z :=
  lots_value row (scaled_units cfg row avail).

Definition scaled_required (cfg : Config) (row : Row) (avail : Q) : Q :=
  total_required cfg row (scaled_units cfg row avail)
    (scaled_lots cfg row avail).

(** The first sizes require more than the reserved funds, and more than
    nothing: the test of line 252. *)
Definition scale_down (cfg : Config) (row : Row) (avail : Q) : bool :=
  Qgtb (first_required cfg row avail) avail
  && Qgtb (first_required cfg row avail) 0.

(** The sizes can be computed: the quotients and the product that go to
    [math.floor] are finite floats, and the unit counts that are
    multiplied by the hedge ratio are [int64]. *)
Definition computable (cfg : Config) (row : Row) (avail : Q) : bool :=
  is_finite (avail / open_etf (day row))
  && fits_int64 (floor (avail / open_etf (day row)))
  && (negb (scale_down cfg row avail)
      || (is_finite (avail / first_required cfg row avail)
          && is_finite (inject_Z (first_units row avail)
                        * (avail / first_required cfg row avail))
          && fits_int64 (scaled_units cfg row avail))).

(** The products of a requirement are finite floats, and the product of
    the unit count and the hedge ratio is an integer that [int64] and
    [float64] both hold exactly. *)
Definition exact_sizes (cfg : Config) (row : Row) (floored units lots : Z)
  : bool :=
  (Z.abs (floored * hedge_int row) <=? 2 ^ 53)%Z
  && is_finite (inject_Z lots * margin_rate cfg)
  && is_finite (inject_Z lots * margin_rate cfg * open_fut (day row))
  && is_finite (margin_required cfg row lots)
  && is_finite (etf_cost row units)
  && is_finite (total_required cfg row units lots).

(** The sizes are numbers of the loop: they can be computed, and nothing
    on the way to them or to the capital they require is rounded or leaves
    the range of [float64]. *)
Definition representable (cfg : Config) (row : Row) (avail : Q) : bool :=
  computable cfg row avail
  && exact_sizes cfg row (floor (avail / open_etf (day row)))
       (first_units row avail) (first_lots row avail)
  && (negb (scale_down cfg row avail)
      || exact_sizes cfg row (scaled_units cfg row avail)
           (scaled_units cfg row avail) (scaled_lots cfg row avail)).

End Sizing.

(** ** Statements about column names *)

Module Pattern.
Import Signal.

(** The name, read as characters, ends with a digit followed by [d]. *)
Definition ends_with_digits_d (pred_col : string) : bool :=
  match rev (chars pred_col) with
  | c :: c' :: _ => (c =? letter_d)%N && is_digit c'
  | _ => false
  end.

(** The same, a final line feed being left out of the name. *)
Definition ends_with_digits_d_before_line_feed (pred_col : string) : bool :=
  match before_dollar (rev (chars pred_col)) with
  | c :: c' :: _ => (c =? letter_d)%N && is_digit c'
  | _ => false
  end.

(** [ds] is a run of digits that is not preceded by a digit in
    [pre ++ ds]. *)
Definition digit_run (pre ds : list N) : Prop :=
  ds <> [] /\ forallb is_digit ds = true
  /\ take_digits (rev pre) = [].

End Pattern.

(** ** Statements about reachable states *)

Module Reach.
Import Backtest.

(** The account of a reachable state: flat, the capital is the cash;
    holding, the capital is the entry equity, the entry equity is the cash
    plus the ETF units at their entry price, and both counts are
    positive. *)
Definition account_inv (a : Account) : Prop :=
  if holding a then
    capital a = entry_equity a
    /\ entry_equity a = cash a + inject_Z (n_etf a) * entry_etf_price a
    /\ (0 < n_etf a)%Z /\ (0 < n_fut a)%Z
  else capital a = cash a.

(** The base part of the books. *)
Definition base_book (b : Books) : bool * Z * Z :=
  (base_built b, base_etf_units b, base_fut_units b).

(** A row that opens nothing: its hedge ratio is missing or not positive,
    or its signal is neither positive nor below the alpha threshold. *)
Definition inert (cfg : Config) (row : Row) : bool :=
  Qleb (hedge_ratio row) 0
  || negb (nan_gt (signal_today row) 0
           || nan_lt (signal_today row) (alpha_entry_threshold cfg)).

(** The record of a day on which the account is flat and untouched. *)
Definition flat_record (cfg : Config) (row : Row) : DailyRecord :=
  {| rec_date := date (day row);
     position := 0;
     trade := 0;
     equity := initial_capital cfg;
     cum_return := initial_capital cfg / initial_capital cfg - 1 |}.

End Reach.

(** ** Statements about the hedge-ratio frame *)

Module Dv01Rows.

(** The row that [calculate_dv01_metrics] returns for a row of its
    argument, when no product or quotient leaves the range of
    [float64]. *)
Definition row_metrics (etf_duration ctd_dv01 conversion_factor : Q)
    (r : Dv01.Quote) : Dv01.Metrics :=
  {| Dv01.m_date := Dv01.date r;
     Dv01.m_close_etf := Dv01.close_etf r;
     Dv01.m_close_fut := Dv01.close_fut r;
     Dv01.etf_dv01 := Fin (Dv01.close_etf r * etf_duration * 0.0001);
     Dv01.fut_dv01 := Fin (ctd_dv01 / conversion_factor * 10000);
     Dv01.hedge_ratio :=
       Dv01.to_int64
         (rint (Dv01.dv01_quotient etf_duration ctd_dv01 conversion_factor
                  (Dv01.close_etf r))) |}.

End Dv01Rows.

(** ** Statements about the trade outcomes *)

Module Outcome.

(** The number of strictly positive outcomes of a list. *)
Fixpoint positive_count (pnls : list Q) : nat :=
  match pnls with
  | [] => 0%nat
  | p :: rest =>
      if Qlt_le_dec 0 p then S (positive_count rest)
      else positive_count rest
  end.

End Outcome.

(** ** Statements about the equity curve *)

Module Curve.

(** Every value of the list is at least [m] and at least the value in
    front of it. *)
Fixpoint nondecreasing_from (m : Q) (l : list Q) : Prop :=
  match l with
  | [] => True
  | x :: l' => m <= x /\ nondecreasing_from x l'
  end.

Definition nondecreasing (l : list Q) : Prop :=
  match l with
  | [] => True
  | x :: l' => nondecreasing_from x l'
  end.

(** The drawdown of an equity against the running maximum. *)
Definition drawdown_of (p : Q * Q) : fval :=
  fsub (fdiv (Fin (fst p)) (Fin (snd p))) (Fin 1).

(** The daily return of an equity [b] that follows an equity [a]. *)
Definition daily_return (a b : Q) : fval :=
  if Qeq_bool a 0 then
    if Qltb 0 b then PInf else if Qltb b 0 then NInf else Fin 0
  else Fin (b / a - 1).

End Curve.

(** ** Statements about the prepared frame *)

Module Prepared.
Import Backtest.



(** The hedge ratio of the day is computed without overflow. *)
Definition finite_day (cfg : Config) (d : MarketDay) : bool :=
  Dv01.finite_quotient (etf_duration cfg) ctd_dv01 (conversion_factor cfg)
    (close_etf d).

(** A close so low that the DV01 quotient of the day stays below one
    half, with a margin that covers the rounding of the quotient. *)
Definition low_close (cfg : Config) (d : MarketDay) : bool :=
  finite_day cfg d
  && Qleb (Dv01.dv01_quotient (etf_duration cfg) ctd_dv01
             (conversion_factor cfg) (close_etf d)) 0.499.

(** The frame after the merge of the hedge ratio, when nothing
    overflows. *)
Definition merged_frame (cfg : Config) (df : list MarketDay)
  : list (MarketDay * option Z) :=
  merge_hedge_ratio (sort_values_date df)
    (map (Dv01Rows.row_metrics (etf_duration cfg) ctd_dv01
            (conversion_factor cfg))
         (map quote_of (sort_values_date df))).

End Prepared.

(** ** [scripts/market_maker.py] *)

Module MarketMaker.

Section WithFeatures.

(** The argument of the model: a feature vector. *)
Variable Features : Type.

(** The data class.  [model] stands for [model.predict([features])[0]];
    [inventory_limits] is a dictionary. *)
Record SpreadMarketMaker : Type := {
  model : Features -> Q;
  inventory_limits : list (string * Q);
  base_spread : Q;
  position : Q
}.

(** [d.get(key)] *)
Fixpoint dict_get (key : string) (d : list (string * Q)) : option Q :=
  match d with
  | [] => None
  | (k, v) :: d' => if String.eqb key k then Some v else dict_get key d'
  end.

Definition predict_spread (self : SpreadMarketMaker) (features : Features)
  : Q :=
  model self features.

(** The placeholder of the source: both prices are 0.0 and the conversion
    factor is 1.0. *)
Definition calculate_theoretical_spread (self : SpreadMarketMaker) : Q :=
  let current_cash_price := 0 in
  let futures_price := 0 in
  let conversion_factor := 1 in
  current_cash_price / conversion_factor - futures_price.

(** [position > inventory_limits.get("max", inf)]: false without the key. *)
Definition above_max (self : SpreadMarketMaker) : bool :=
  match dict_get "max" (inventory_limits self) with
  | Some m => Qgtb (position self) m
  | None => false
  end.

(** [position < inventory_limits.get("min", -inf)]: false without the key. *)
Definition below_min (self : SpreadMarketMaker) : bool :=
  match dict_get "min" (inventory_limits self) with
  | Some m => Qltb (position self) m
  | None => false
  end.

Definition calculate_inventory_adjust (self : SpreadMarketMaker) : Q :=
  if above_max self then - 0.1
  else if below_min self then 0.1
  else 0.

(** The pair [(bid, ask)]. *)
Definition adjust_quote (self : SpreadMarketMaker) (prediction : Q)
  : Q * Q :=
  let mid_price := calculate_theoretical_spread self in
  let direction_adjust := 0.5 * prediction in
  let inventory_adjust := calculate_inventory_adjust self in
  let adjusted_mid := mid_price + direction_adjust + inventory_adjust in
  let bid := adjusted_mid - base_spread self / 2 in
  let ask := adjusted_mid + base_spread self / 2 in
  (bid, ask).

(** What [publish_quote] prints: the bid, the ask and the position (the
    formatting of the numbers is left out). *)
Record Published : Type := {
  pub_bid : Q;
  pub_ask : Q;
  pub_position : Q
}.

Definition publish_quote (self : SpreadMarketMaker) (bid ask : Q)
  : Published :=
  {| pub_bid := bid; pub_ask := ask; pub_position := position self |}.

(** The object is not modified; the result is what is printed. *)
Definition on_new_market_data (self : SpreadMarketMaker)
    (features : Features) : Published :=
  let prediction := predict_spread self features in
  let (bid, ask) := adjust_quote self prediction in
  publish_quote self bid ask.

(** [self.position += trade_size] *)
Definition update_position (self : SpreadMarketMaker) (trade_size : Q)
  : SpreadMarketMaker :=
  {| model := model self;
     inventory_limits := inventory_limits self;
     base_spread := base_spread self;
     position := position self + trade_size |}.

End WithFeatures.

Arguments model {Features} _ _.
Arguments inventory_limits {Features} _.
Arguments base_spread {Features} _.
Arguments position {Features} _.
Arguments predict_spread {Features} _ _.
Arguments calculate_theoretical_spread {Features} _.
Arguments above_max {Features} _.
Arguments below_min {Features} _.
Arguments calculate_inventory_adjust {Features} _.
Arguments adjust_quote {Features} _ _.
Arguments publish_quote {Features} _ _ _.
Arguments on_new_market_data {Features} _ _.
Arguments update_position {Features} _ _.

(** The maker of [example_usage]: the model returns the last feature. *)
Definition example_maker : SpreadMarketMaker (list Q) :=
  {| model := fun x => last x 0;
     inventory_limits := [("min"%string, -100); ("max"%string, 100)];
     base_spread := 0.02;
     position := 0 |}.

Definition example_features : list Q := repeat 0 10 ++ [0.05].

(** The two quotes that [example_usage] prints. *)
Definition example_usage : list Published :=
  let mm := example_maker in
  let first := on_new_market_data mm example_features in
  let mm := update_position mm 10 in
  let second := on_new_market_data mm example_features in
  [first; second].

End MarketMaker.

(** ** Statements about the market maker *)

Module Limits.
Import MarketMaker.

(** The position is above the limit ["max"], or below the limit
    ["min"], of a maker that has such a limit. *)
Definition over {Features : Type} (mm : SpreadMarketMaker Features) : Prop :=
  exists M, dict_get "max" (inventory_limits mm) = Some M
            /\ M < position mm.

Definition under {Features : Type} (mm : SpreadMarketMaker Features)
  : Prop :=
  exists m, dict_get "min" (inventory_limits mm) = Some m
            /\ position mm < m.

End Limits.

(** ** [scripts/factors_engine.py] *)

Module Factors.

(** A data frame: its columns by name, in their order.  The cells are
    [float64]; the columns of a frame have the same length. *)
Definition Frame : Type := list (string * list fval).

(** [df[name]] *)
Fixpoint getcol (df : Frame) (name : string) : result (list fval) :=
  match df with
  | [] => Raise (KeyError name)
  | (k, c) :: df' => if String.eqb name k then Ok c else getcol df' name
  end.

(** [df[name] = c]: an existing column is replaced where it stands, a new
    one is added as the last column. *)
Fixpoint setcol (df : Frame) (name : string) (c : list fval) : Frame :=
  match df with
  | [] => [(name, c)]
  | (k, c0) :: df' =>
      if String.eqb name k then (k, c) :: df'
      else (k, c0) :: setcol df' name c
  end.

(** An operation on two columns of the same frame, cell by cell. *)
Definition zip_with (f : fval -> fval -> fval) (a b : list fval)
  : list fval :=
  map (fun p => f (fst p) (snd p)) (combine a b).

(** The right-hand side of an assignment, evaluated on the frame. *)
Definition Expr : Type := Frame -> result (list fval).

Definition col (name : string) : Expr := fun df => getcol df name.

Definition sub (a b : Expr) : Expr :=
  fun df => x <- a df ;; y <- b df ;; Ok (zip_with fsub x y).

Definition add (a b : Expr) : Expr :=
  fun df => x <- a df ;; y <- b df ;; Ok (zip_with fadd x y).

(** [a - c] and [c * a] for a number [c]. *)
Definition sub_const (a : Expr) (c : Q) : Expr :=
  fun df => x <- a df ;; Ok (map (fun v => fsub v (Fin c)) x).

Definition const_mul (c : Q) (a : Expr) : Expr :=
  fun df => x <- a df ;; Ok (map (fun v => fmul (Fin c) v) x).

(** The statements [df[name] = expr] of a function, run in their order. *)
Fixpoint run_steps (steps : list (string * Expr)) (df : Frame)
  : result Frame :=
  match steps with
  | [] => Ok df
  | (name, e) :: rest => c <- e df ;; run_steps rest (setcol df name c)
  end.

Section WithPandas.

(** [Series.pct_change()], [Series.rolling(n).corr(other)] and
    [Series.rolling(n).std()]. *)
Variable pct_change : list fval -> list fval.
Variable rolling_corr : nat -> list fval -> list fval -> list fval.
Variable rolling_std : nat -> list fval -> list fval.

Definition pct (a : Expr) : Expr :=
  fun df => x <- a df ;; Ok (pct_change x).

Definition corr_of (n : nat) (a b : Expr) : Expr :=
  fun df => x <- a df ;; y <- b df ;; Ok (rolling_corr n x y).

Definition std_of (n : nat) (a : Expr) : Expr :=
  fun df => x <- a df ;; Ok (rolling_std n x).

Definition gov_10y : string := "中国:国债收益率:10年".
Definition gov_1y : string := "中国:国债收益率:1年".
Definition gov_30y : string := "中债国债到期收益率:30年".
Definition gov_5y : string := "中债国债到期收益率:5年".
Definition policy_10y : string := "中债国开债到期收益率:10年".
Definition shibor_3m : string := "SHIBOR:3个月".
Definition r007 : string := "R007".
Definition fr007_1y : string := "利率互换:FR007:1年".

(** The assignments of [add_factors], line by line. *)
Definition factor_steps : list (string * Expr) :=
  [ ("factor_10y_gov", col gov_10y);
    ("factor_1y_gov", col gov_1y);
    ("factor_30y_gov", col gov_30y);
    ("factor_5y_gov", col gov_5y);
    ("factor_30y_5y_slope", sub (col gov_30y) (col gov_5y));
    ("factor_10y_1y_slope", sub (col gov_10y) (col gov_1y));
    ("factor_30y_10y_slope", sub (col gov_30y) (col gov_10y));
    ("factor_10y_policy", col policy_10y);
    ("factor_policy_spread", sub (col policy_10y) (col gov_10y));
    ("factor_shibor3m", col shibor_3m);
    ("factor_r007", col r007);
    ("factor_fr007", col fr007_1y);
    ("factor_shibor3m_r007_spread", sub (col shibor_3m) (col r007));
    ("factor_fr007_shibor3m_spread", sub (col fr007_1y) (col shibor_3m));
    ("factor_curve_curvature",
     sub (add (col gov_30y) (col gov_1y)) (const_mul 2 (col gov_10y)));
    ("factor_rel_10y_coupon", sub_const (col gov_10y) 0.03);
    ("factor_rel_30y_coupon", sub_const (col gov_30y) 0.03);
    ("factor_30y_10y_spread", sub (col gov_30y) (col gov_10y));
    ("factor_30y_5y_spread", sub (col gov_30y) (col gov_5y));
    ("factor_10y_5y_spread", sub (col gov_10y) (col gov_5y));
    ("factor_tax_spread", sub (col policy_10y) (col gov_10y));
    ("factor_swap_spread", sub (col fr007_1y) (col r007));
    ("factor_basis", sub (col "close_etf") (col "close_fut"));
    ("spread", sub (col "close_etf") (col "close_fut"));
    ("etf_ret", pct (col "close_etf"));
    ("fut_ret", pct (col "close_fut"));
    ("corr_20d", corr_of 20 (pct (col "close_etf")) (pct (col "close_fut")));
    ("etf_vol_20d", std_of 20 (pct (col "close_etf")));
    ("fut_vol_20d", std_of 20 (pct (col "close_fut"))) ]%string.

Definition add_factors (df : Frame) : result Frame :=
  run_steps factor_steps df.

End WithPandas.

(** The columns that [add_factors] reads, in the order of their first
    use, and the columns that it writes. *)
Definition source_columns : list string :=
  [ gov_10y; gov_1y; gov_30y; gov_5y; policy_10y; shibor_3m; r007;
    fr007_1y; "close_etf"; "close_fut" ]%string.

Definition factor_columns : list string :=
  [ "factor_10y_gov"; "factor_1y_gov"; "factor_30y_gov"; "factor_5y_gov";
    "factor_30y_5y_slope"; "factor_10y_1y_slope"; "factor_30y_10y_slope";
    "factor_10y_policy"; "factor_policy_spread"; "factor_shibor3m";
    "factor_r007"; "factor_fr007"; "factor_shibor3m_r007_spread";
    "factor_fr007_shibor3m_spread"; "factor_curve_curvature";
    "factor_rel_10y_coupon"; "factor_rel_30y_coupon";
    "factor_30y_10y_spread"; "factor_30y_5y_spread";
    "factor_10y_5y_spread"; "factor_tax_spread"; "factor_swap_spread";
    "factor_basis"; "spread"; "etf_ret"; "fut_ret"; "corr_20d";
    "etf_vol_20d"; "fut_vol_20d" ]%string.

(** The name of a column of the frame. *)
Definition has_column (df : Frame) (name : string) : Prop :=
  exists c, getcol df name = Ok c.

(** The first name of a list that is not a column of the frame. *)
Fixpoint first_missing (df : Frame) (names : list string) : option string :=
  match names with
  | [] => None
  | n :: rest =>
      match getcol df n with
      | Ok _ => first_missing df rest
      | Raise _ => Some n
      end
  end.

End Factors.

(** ** The assignments of [add_factors] taken together *)

Module Columns.
Import Factors.

(** The right-hand sides of the statements, all evaluated on one frame. *)
Fixpoint eval_all (steps : list (string * Expr)) (df : Frame)
  : result (list (string * list fval)) :=
  match steps with
  | [] => Ok []
  | (name, e) :: rest =>
      c <- e df ;; vals <- eval_all rest df ;; Ok ((name, c) :: vals)
  end.

(** The columns assigned one after the other. *)
Definition set_all (df : Frame) (vals : list (string * list fval)) : Frame :=
  fold_left (fun f p => setcol f (fst p) (snd p)) vals df.

(** The last column assigned to a name. *)
Fixpoint assigned (vals : list (string * list fval)) (name : string)
  : option (list fval) :=
  match vals with
  | [] => None
  | (k, c) :: rest =>
      match assigned rest name with
      | Some c' => Some c'
      | None => if String.eqb name k then Some c else None
      end
  end.

(** Two frames with the same columns of the given names. *)
Definition agree (names : list string) (df df' : Frame) : Prop :=
  forall n, In n names -> getcol df' n = getcol df n.

(** An expression that reads columns of the given names only. *)
Definition reads_only (names : list string) (e : Expr) : Prop :=
  forall df df', agree names df df' -> e df' = e df.

Definition mentions (names : list string) (n : string) : bool :=
  existsb (String.eqb n) names.

End Columns.

Module FactorExamples.
Import Factors.

(** [pct_change] of a series without missing cells. *)
Definition plain_pct_change (l : list fval) : list fval :=
  match l with
  | [] => []
  | _ :: rest =>
      NaN :: zip_with (fun prev cur => fsub (fdiv cur prev) (Fin 1)) l rest
  end.

(** [rolling(n)] statistics of a frame with fewer than [n] rows: no window
    is complete. *)
Definition short_rolling_corr (n : nat) (a b : list fval) : list fval :=
  map (fun _ => NaN) a.

Definition short_rolling_std (n : nat) (a : list fval) : list fval :=
  map (fun _ => NaN) a.

Definition two_days (x : Q) : list fval := [Fin x; Fin (x + 0.01)].

Definition rates_frame : Frame :=
  [ ("date", [Fin 20240102; Fin 20240103]);
    (gov_10y, two_days 0.025); (gov_1y, two_days 0.02);
    (gov_30y, two_days 0.03); (gov_5y, two_days 0.023);
    (policy_10y, two_days 0.027); (shibor_3m, two_days 0.021);
    (r007, two_days 0.019); (fr007_1y, two_days 0.02);
    ("close_etf", two_days 100); ("close_fut", two_days 99) ]%string.

Definition add_factors_short : Frame -> result Frame :=
  add_factors plain_pct_change short_rolling_corr short_rolling_std.

End FactorExamples.



(** * Properties *)

(** ** Arithmetic *)

Lemma Qltb_lt (x y : Q) : Qltb x y = true <-> x < y.
Proof.
  unfold Qltb. rewrite negb_true_iff. split; intro H.
  - apply Qnot_le_lt. intro H'. apply Qle_bool_iff in H'. congruence.
  - destruct (Qle_bool y x) eqn:E; [| reflexivity].
    apply Qle_bool_iff in E. apply Qle_not_lt in E. contradiction.
Qed.

Lemma Qltb_ge (x y : Q) : Qltb x y = false <-> y <= x.
Proof.
  unfold Qltb. rewrite negb_false_iff. apply Qle_bool_iff.
Qed.

Lemma Qleb_le (x y : Q) : Qleb x y = true <-> x <= y.
Proof. apply Qle_bool_iff. Qed.

Lemma Qleb_gt (x y : Q) : Qleb x y = false <-> y < x.
Proof.
  unfold Qleb. split; intro H.
  - apply Qnot_le_lt. intro H'. apply Qle_bool_iff in H'. congruence.
  - destruct (Qle_bool x y) eqn:E; [| reflexivity].
    apply Qle_bool_iff in E. apply Qle_not_lt in E. contradiction.
Qed.

Lemma py_div_ok (x y : Q) : ~ y == 0 -> py_div x y = Ok (x / y).
Proof.
  intro H. unfold py_div. destruct (Qeq_bool y 0) eqn:E; [| reflexivity].
  apply Qeq_bool_eq in E. contradiction.
Qed.


Lemma inject_Z_succ (z : Z) : inject_Z (z + 1) == inject_Z z + 1.
Proof. rewrite inject_Z_plus. reflexivity. Qed.


Lemma mapM_ok {A B : Type} (f : A -> result B) (g : A -> B) (l : list A) :
  (forall a, In a l -> f a = Ok (g a)) -> mapM f l = Ok (map g l).
Proof.
  induction l as [| a l IH]; intro H; simpl; [reflexivity |].
  rewrite (H a (or_introl eq_refl)). simpl.
  rewrite IH by (intros b Hb; apply H; right; exact Hb).
  reflexivity.
Qed.


Lemma Qdiv_nonzero (x y : Q) : ~ x == 0 -> ~ y == 0 -> ~ x / y == 0.
Proof.
  intros Hx Hy H. apply Hx.
  setoid_replace x with (x / y * y) by (field; exact Hy).
  rewrite H. ring.
Qed.

(** ** The ledger of position and trade flags *)

Section LedgerFacts.
Import Backtest Ledger.

Variable cfg : Config.

Ltac bind_ok H x E :=
  match type of H with
  | bind ?m _ = Ok _ =>
      destruct m as [x |] eqn:E; simpl in H; [| discriminate H]
  end.

Lemma exit_primary_cases (row : Row) (a a1 : Account) (pnls pnls1 : list Q)
    (act : Z) :
  exit_primary cfg row a pnls = Ok (a1, pnls1, act) ->
  (a1 = a /\ act = 0%Z)
  \/ (holding a = true /\ holding a1 = false /\ act = (-1)%Z).
Proof.
  unfold exit_primary. intro H.
  destruct (holding a) eqn:Hh.
  - bind_ok H rate E.
    destruct (exit_condition cfg row rate); inversion H; subst.
    + right. auto.
    + left. auto.
  - inversion H; subst. left. auto.
Qed.

Lemma enter_primary_cases (row : Row) (a a2 : Account) (act act2 : Z) :
  enter_primary cfg row a act = Ok (a2, act2) ->
  (holding a = false /\ holding a2 = true /\ act2 = 1%Z)
  \/ (holding a2 = holding a /\ act2 = act).
Proof.
  unfold enter_primary. intro H.
  destruct (holding a) eqn:Hh; simpl in H.
  - inversion H; subst. right. auto.
  - destruct (nan_gt (signal_today row) 0); simpl in H.
    + destruct (Qleb (open_etf (day row)) 0 || Qleb (hedge_ratio row) 0).
      * inversion H; subst. right. auto.
      * bind_ok H sz E. destruct sz as [[units lots] cost].
        destruct ((0 <? units)%Z && (0 <? lots)%Z); inversion H; subst.
        -- left. auto.
        -- right. auto.
    + inversion H; subst. right. auto.
Qed.

Lemma mark_and_record_flags (row : Row) (b : Books) (a : Account) (act : Z)
    (r : DailyRecord) :
  mark_and_record cfg row b a act = Ok r ->
  position r = flag (holding a) /\ trade r = act.
Proof.
  unfold mark_and_record. intro H. bind_ok H q E.
  inversion H; subst. simpl. split; reflexivity.
Qed.

Lemma step_appends_record (st st' : State) (row : Row) :
  step cfg st row = Ok st' ->
  exists r,
    records st' = records st ++ [r]
    /\ recorded_day (flag (holding (account st))) r
    /\ position r = flag (holding (account st')).
Proof.
  unfold step. intro H.
  bind_ok H p1 E1. destruct p1 as [b3 pnls1].
  bind_ok H p2 E2. destruct p2 as [[a1 pnls2] act1].
  bind_ok H p3 E3. destruct p3 as [a2 act2].
  bind_ok H r E4. inversion H; subst; clear H. simpl.
  exists r. split; [reflexivity |].
  apply mark_and_record_flags in E4. destruct E4 as [Hpos Htr].
  split; [| exact Hpos].
  apply exit_primary_cases in E2. apply enter_primary_cases in E3.
  unfold recorded_day, flags_in_range. rewrite Hpos, Htr.
  destruct E2 as [[-> ->] | [Ha [Ha1 ->]]];
    destruct E3 as [[Hb [Hb2 ->]] | [Hb2 ->]];
    rewrite ?Hb2, ?Ha1, ?Ha, ?Hb; simpl;
    try (destruct (holding (account st)); simpl);
    repeat split; intros; try lia; auto.
Qed.

Lemma each_day_snoc (P : Z -> DailyRecord -> Prop) (recs : list DailyRecord)
    (r : DailyRecord) (prev : Z) :
  each_day P prev recs -> P (last_flag prev recs) r ->
  each_day P prev (recs ++ [r]).
Proof.
  revert prev. induction recs as [| x recs IH]; intros prev Hall Hr; simpl.
  - split; [exact Hr | exact I].
  - destruct Hall as [Hx Hrest]. split; [exact Hx |].
    apply IH; [exact Hrest | exact Hr].
Qed.

Lemma last_flag_snoc (recs : list DailyRecord) (r : DailyRecord) (prev : Z) :
  last_flag prev (recs ++ [r]) = position r.
Proof. unfold last_flag. rewrite fold_left_app. reflexivity. Qed.

Lemma run_days_ledger (rows : list Row) :
  forall st st',
    run_days cfg st rows = Ok st' ->
    each_day recorded_day 0%Z (records st) ->
    last_flag 0%Z (records st) = flag (holding (account st)) ->
    each_day recorded_day 0%Z (records st')
    /\ last_flag 0%Z (records st') = flag (holding (account st')).
Proof.
  induction rows as [| row rows IH]; intros st st' H Hall Hlast; simpl in H.
  - inversion H; subst. auto.
  - bind_ok H st1 E.
    destruct (step_appends_record _ _ _ E) as [r [Hrecs [Hday Hpos]]].
    apply (IH st1 st' H).
    + rewrite Hrecs. apply each_day_snoc; [exact Hall |].
      rewrite Hlast. exact Hday.
    + rewrite Hrecs, last_flag_snoc. exact Hpos.
Qed.

Lemma run_days_records_length (rows : list Row) :
  forall st st',
    run_days cfg st rows = Ok st' ->
    List.length (records st')
    = (List.length (records st) + List.length rows)%nat.
Proof.
  induction rows as [| row rows IH]; intros st st' H; simpl in H.
  - inversion H; subst. simpl. lia.
  - bind_ok H st1 E.
    destruct (step_appends_record _ _ _ E) as [r [Hrecs _]].
    rewrite (IH st1 st' H), Hrecs, length_app. simpl. lia.
Qed.

End LedgerFacts.

(** C1 (as amended).  The loop appends one record per row.  Every record
    has a position flag in {0,1} and a trade flag in {-1,0,1}.  A trade
    flag of -1 means that the position flag was 1 the day before and is 0
    on that day; a trade flag of 1 means that the position flag is 1 on
    that day; a trade flag of 0 means that the position flag is the one of
    the day before.  The flag of the day before the first day is 0. *)
Theorem ledger_flags_and_transitions :
  forall (cfg : Backtest.Config) (rows : list Backtest.Row)
         (st : Backtest.State),
    Backtest.run_days cfg (Backtest.initial_state cfg) rows = Ok st ->
    List.length (Backtest.records st) = List.length rows
    /\ Ledger.each_day Ledger.recorded_day 0%Z (Backtest.records st).
Proof.
  intros cfg rows st H. split.
  - rewrite (run_days_records_length cfg rows _ _ H). reflexivity.
  - apply (run_days_ledger cfg rows _ _ H); simpl; auto.
Qed.

(** C1, counterexample.  In a frame of two days the position opened on the
    first day is closed by the stop-gain at the second open and reopened at
    once: the second record has trade flag 1 although the position flag
    was already 1 the day before. *)
Lemma reopen_breaks_documented_transition :
  Backtest.prepare Examples.reopen_frame "pred" Backtest.default_config
  = Ok Examples.reopen_rows
  /\ exists st,
       Backtest.run_days Backtest.default_config
         (Backtest.initial_state Backtest.default_config)
         Examples.reopen_rows = Ok st
       /\ map (fun r => (Backtest.position r, Backtest.trade r))
              (Backtest.records st) = [(1, 1); (1, 1)]%Z
       /\ ~ Ledger.each_day Ledger.documented_day 0%Z (Backtest.records st).
Proof.
  split; [vm_compute; reflexivity |].
  destruct (Backtest.run_days Backtest.default_config
              (Backtest.initial_state Backtest.default_config)
              Examples.reopen_rows) as [st |] eqn:E;
    [| vm_compute in E; discriminate E].
  exists st. split; [reflexivity |].
  assert (Hflags : map (fun r => (Backtest.position r, Backtest.trade r))
                       (Backtest.records st) = [(1, 1); (1, 1)]%Z).
  { vm_compute in E. inversion E; subst. reflexivity. }
  split; [exact Hflags |].
  destruct (Backtest.records st) as [| r1 [| r2 [| r3 rest]]];
    try discriminate Hflags.
  simpl in Hflags. injection Hflags as Hp1 Ht1 Hp2 Ht2.
  simpl. intros [_ [[_ [H2 _]] _]].
  destruct (H2 Ht2) as [Hprev _]. rewrite Hp1 in Hprev. discriminate Hprev.
Qed.

(** The run of the two-day frame above completes, and its ledger has the
    recorded transitions. *)
Lemma ledger_flags_and_transitions_witness :
  exists st,
    Backtest.run_days Backtest.default_config
      (Backtest.initial_state Backtest.default_config)
      Examples.reopen_rows = Ok st
    /\ Ledger.each_day Ledger.recorded_day 0%Z (Backtest.records st).
Proof.
  destruct (Backtest.run_days Backtest.default_config
              (Backtest.initial_state Backtest.default_config)
              Examples.reopen_rows) as [st |] eqn:E;
    [| vm_compute in E; discriminate E].
  exists st. split; [reflexivity |].
  exact (proj2 (ledger_flags_and_transitions _ _ _ E)).
Defined.

(** ** The cap of the alpha book *)

Section BookFacts.
Import Backtest Invariant.

Variable cfg : Config.

Ltac books_fields :=
  cbn [base_built base_etf_units base_fut_units alpha_etf_units
       alpha_fut_units entry_equity_alpha].

Lemma build_base_inv (row : Row) (b : Books) :
  books_inv b -> books_inv (build_base row b).
Proof.
  intros [Hbase [Hunbuilt [k [Hk [Hal Hcap]]]]].
  unfold build_base.
  destruct (negb (base_built b) && nan_gt (signal_today row) 0
            && Qgtb (hedge_ratio row) 0 && Qgtb (open_etf (day row)) 0)
    eqn:E.
  - unfold books_inv; books_fields. split; [right; reflexivity |].
    split; [discriminate |].
    exists k. repeat split; try assumption. lia.
  - unfold books_inv. eauto 10.
Qed.

Lemma accumulate_alpha_inv (row : Row) (c : Q) (b : Books) :
  books_inv b -> books_inv (accumulate_alpha cfg row c b).
Proof.
  intros Hinv. unfold accumulate_alpha.
  destruct (nan_lt (signal_today row) (alpha_entry_threshold cfg)
            && Qgtb (hedge_ratio row) 0); [| exact Hinv].
  destruct (alpha_etf_units b <? 2 * base_etf_units b)%Z eqn:Hlt;
    [| exact Hinv].
  apply Z.ltb_lt in Hlt.
  destruct Hinv as [Hbase [Hunbuilt [k [Hk [Hal Hcap]]]]].
  unfold books_inv; books_fields. split; [exact Hbase |].
  split; [exact Hunbuilt |].
  exists (k + 1)%Z. repeat split; lia.
Qed.

Lemma close_alpha_inv (b : Books) : books_inv b -> books_inv (close_alpha b).
Proof.
  intros [Hbase [Hunbuilt _]]. unfold books_inv, close_alpha; books_fields.
  split; [exact Hbase |]. split; [exact Hunbuilt |].
  exists 0%Z. repeat split; lia.
Qed.

Lemma exit_alpha_inv (row : Row) (c : Q) (b b' : Books)
    (pnls pnls' : list Q) :
  exit_alpha cfg row c b pnls = Ok (b', pnls') ->
  books_inv b -> books_inv b'.
Proof.
  unfold exit_alpha. intros H Hinv.
  destruct (entry_equity_alpha b) as [basis |];
    [| inversion H; subst; exact Hinv].
  destruct ((0 <? alpha_etf_units b)%Z && negb (Qeq_bool basis 0));
    [| inversion H; subst; exact Hinv].
  destruct (py_div (combined_value c b row - basis) basis) as [rate |];
    simpl in H; [| discriminate H].
  destruct (Qgeb rate (stop_gain cfg) || Qleb rate (- stop_loss cfg));
    inversion H; subst; [apply close_alpha_inv |]; exact Hinv.
Qed.

Lemma step_books_inv (st st' : State) (row : Row) :
  step cfg st row = Ok st' -> books_inv (books st) -> books_inv (books st').
Proof.
  unfold step. intros H Hinv.
  destruct (exit_alpha cfg row (cash (account st))
              (accumulate_alpha cfg row (cash (account st))
                 (build_base row (books st)))
              (realized_pnls st)) as [[b3 pnls1] |] eqn:E1;
    simpl in H; [| discriminate H].
  destruct (exit_primary cfg row (account st) pnls1)
    as [[[a1 pnls2] act1] |]; simpl in H; [| discriminate H].
  destruct (enter_primary cfg row a1 act1) as [[a2 act2] |];
    simpl in H; [| discriminate H].
  destruct (mark_and_record cfg row b3 a2 act2) as [r |];
    simpl in H; [| discriminate H].
  inversion H; subst; simpl.
  apply (exit_alpha_inv _ _ _ _ _ _ E1).
  apply accumulate_alpha_inv, build_base_inv, Hinv.
Qed.

Lemma run_days_books_inv (rows : list Row) :
  forall st st',
    run_days cfg st rows = Ok st' ->
    books_inv (books st) -> books_inv (books st').
Proof.
  induction rows as [| row rows IH]; intros st st' H Hinv; simpl in H.
  - inversion H; subst. exact Hinv.
  - destruct (step cfg st row) as [st1 |] eqn:E; simpl in H;
      [| discriminate H].
    apply (IH st1 st' H). apply (step_books_inv _ _ _ E Hinv).
Qed.

Lemma initial_books_inv : books_inv (books (initial_state cfg)).
Proof.
  unfold books_inv, initial_state; cbn [books]; books_fields.
  split; [left; reflexivity |].
  split; [reflexivity |]. exists 0%Z. repeat split; lia.
Qed.

End BookFacts.

(** C4.  For every configuration and every series of rows, after each
    simulated day (the loop run on the first [n] rows) the alpha book holds
    at most twice as many ETF units as the base book, and it holds none as
    long as the base book has not been built. *)
Theorem alpha_book_capped_at_twice_base :
  forall (cfg : Backtest.Config) (rows : list Backtest.Row) (n : nat)
         (st : Backtest.State),
    Backtest.run_days cfg (Backtest.initial_state cfg) (firstn n rows)
    = Ok st ->
    (Backtest.alpha_etf_units (Backtest.books st)
     <= 2 * Backtest.base_etf_units (Backtest.books st))%Z
    /\ (Backtest.base_built (Backtest.books st) = false ->
        Backtest.alpha_etf_units (Backtest.books st) = 0%Z).
Proof.
  intros cfg rows n st H.
  destruct (run_days_books_inv cfg _ _ _ H (initial_books_inv cfg))
    as [_ [Hunbuilt [k [Hk [Hal Hcap]]]]].
  split; [exact Hcap |].
  intro Hb. specialize (Hunbuilt Hb). lia.
Qed.

(** After a build and one step of accumulation the alpha book holds 100
    units, the base book 1000. *)
Lemma alpha_book_capped_at_twice_base_witness :
  exists st,
    Backtest.run_days Backtest.default_config
      (Backtest.initial_state Backtest.default_config)
      (firstn 2 Examples.alpha_rows) = Ok st
    /\ Backtest.alpha_etf_units (Backtest.books st) = 100%Z
    /\ (Backtest.alpha_etf_units (Backtest.books st)
        <= 2 * Backtest.base_etf_units (Backtest.books st))%Z.
Proof.
  destruct (Backtest.run_days Backtest.default_config
              (Backtest.initial_state Backtest.default_config)
              (firstn 2 Examples.alpha_rows)) as [st |] eqn:E;
    [| vm_compute in E; discriminate E].
  exists st. split; [reflexivity |].
  split; [vm_compute in E; inversion E; reflexivity |].
  exact (proj1 (alpha_book_capped_at_twice_base _ _ _ _ E)).
Defined.

(** ** The exit of the primary position *)

Section ExitFacts.
Import Backtest ExitRule.

Variable cfg : Config.

Lemma nan_gt_positive (row : Row) :
  nan_gt (signal_today row) 0 = true <-> signal_positive row.
Proof.
  unfold nan_gt, signal_positive, Qgtb.
  destruct (signal_today row) as [s |].
  - rewrite Qltb_lt. split.
    + intro H. exists s. split; [reflexivity | exact H].
    + intros [s' [Hs H]]. inversion Hs; subst. exact H.
  - split; [discriminate |]. intros [s' [Hs _]]. discriminate Hs.
Qed.

Lemma exit_condition_iff (row : Row) (rate : Q) :
  exit_condition cfg row rate = true <-> stop_or_flip cfg row rate.
Proof.
  unfold exit_condition, stop_or_flip, Qgeb.
  rewrite !orb_true_iff, !Qleb_le, negb_true_iff.
  rewrite <- nan_gt_positive.
  destruct (nan_gt (signal_today row) 0); intuition congruence.
Qed.

Lemma pnl_rate_total (row : Row) (a : Account) :
  exists rate,
    pnl_rate row a = Ok rate
    /\ (~ entry_equity a == 0 ->
        rate = (current_equity_open row a - entry_equity a) / entry_equity a)
    /\ (entry_equity a == 0 -> rate = 0).
Proof.
  unfold pnl_rate, py_div.
  destruct (Qeq_bool (entry_equity a) 0) eqn:E; simpl.
  - apply Qeq_bool_eq in E. exists 0.
    split; [reflexivity |]. split; [intro H; contradiction | reflexivity].
  - apply Qeq_bool_neq in E. eexists.
    split; [reflexivity |]. split; [reflexivity | intro H; contradiction].
Qed.

End ExitFacts.

(** C5.  While the primary position is held, the floating return is
    defined (it is the gain at the open relative to the entry equity of the
    position, and 0 when that entry equity is zero), and the position is
    closed on the day exactly when this return is at least [stop_gain], or
    at most minus [stop_loss], or the signal of the day is not strictly
    positive; otherwise the account is left as it is.  A return equal to
    [stop_gain] closes the position. *)
Theorem primary_exit_iff_stop_or_flip :
  forall (cfg : Backtest.Config) (row : Backtest.Row)
         (a : Backtest.Account) (pnls : list Q),
    Backtest.holding a = true ->
    exists rate,
      Backtest.pnl_rate row a = Ok rate
      /\ (~ Backtest.entry_equity a == 0 ->
          rate = (Backtest.current_equity_open row a
                  - Backtest.entry_equity a) / Backtest.entry_equity a)
      /\ (ExitRule.stop_or_flip cfg row rate ->
          Backtest.exit_primary cfg row a pnls
          = Ok (Backtest.close_primary row a, pnls ++ [rate], (-1)%Z)
          /\ Backtest.holding (Backtest.close_primary row a) = false)
      /\ (~ ExitRule.stop_or_flip cfg row rate ->
          Backtest.exit_primary cfg row a pnls = Ok (a, pnls, 0%Z))
      /\ (rate == Backtest.stop_gain cfg ->
          Backtest.exit_primary cfg row a pnls
          = Ok (Backtest.close_primary row a, pnls ++ [rate], (-1)%Z)).
Proof.
  intros cfg row a pnls Hh.
  destruct (pnl_rate_total row a) as [rate [Hrate [Hdef _]]].
  exists rate. split; [exact Hrate |]. split; [exact Hdef |].
  assert (Hclose : ExitRule.stop_or_flip cfg row rate ->
                   Backtest.exit_primary cfg row a pnls
                   = Ok (Backtest.close_primary row a, pnls ++ [rate],
                         (-1)%Z)).
  { intro Hc. apply exit_condition_iff in Hc.
    unfold Backtest.exit_primary. rewrite Hh, Hrate. simpl.
    rewrite Hc. reflexivity. }
  split; [| split].
  - intro Hc. split; [exact (Hclose Hc) | reflexivity].
  - intro Hc. unfold Backtest.exit_primary. rewrite Hh, Hrate. simpl.
    destruct (Backtest.exit_condition cfg row rate) eqn:E;
      [| reflexivity].
    apply exit_condition_iff in E. contradiction.
  - intro Heq. apply Hclose. left. rewrite Heq. apply Qle_refl.
Qed.

(** The boundary: a floating return equal to the stop-gain closes. *)
Lemma primary_exit_iff_stop_or_flip_witness :
  Backtest.holding Examples.held_account = true
  /\ exists rate,
       Backtest.pnl_rate Examples.boundary_row Examples.held_account = Ok rate
       /\ rate == Backtest.stop_gain Backtest.default_config
       /\ Backtest.exit_primary Backtest.default_config Examples.boundary_row
            Examples.held_account []
          = Ok (Backtest.close_primary Examples.boundary_row
                  Examples.held_account, [rate], (-1)%Z).
Proof.
  split; [reflexivity |].
  destruct (primary_exit_iff_stop_or_flip Backtest.default_config
              Examples.boundary_row Examples.held_account [] eq_refl)
    as [rate [Hrate [_ [_ [_ Hboundary]]]]].
  assert (Heq : rate == Backtest.stop_gain Backtest.default_config).
  { vm_compute in Hrate. inversion Hrate; subst. vm_compute. reflexivity. }
  exists rate. split; [exact Hrate |]. split; [exact Heq |].
  exact (Hboundary Heq).
Defined.

(** ** Sizing of the primary position *)

Section SizingFacts.
Import Backtest ExitRule Sizing.

Variable cfg : Config.

Lemma Qlt_Qgtb (x y : Q) : x < y -> Qgtb y x = true.
Proof. intro H. unfold Qgtb. apply Qltb_lt. exact H. Qed.

Lemma Qle_Qgtb (x y : Q) : y <= x -> Qgtb y x = false.
Proof. intro H. unfold Qgtb. apply Qltb_ge. exact H. Qed.

Lemma Qlt_nonzero (x : Q) : 0 < x -> ~ x == 0.
Proof. intros H E. rewrite E in H. exact (Qlt_irrefl 0 H). Qed.

Lemma wrap64_range (z : Z) :
  (int64_min <= wrap64 z <= int64_max)%Z.
Proof.
  unfold wrap64, int64_min, int64_max.
  pose proof (Z.mod_pos_bound (z + 2 ^ 63) (2 ^ 64) eq_refl). lia.
Qed.

Lemma is_finite_bound (x b : Q) :
  0 <= x -> x <= b -> b < float_overflow -> is_finite x = true.
Proof.
  intros H0 Hb Hlt. unfold is_finite. apply Qltb_lt.
  rewrite (Qabs_pos x H0). apply (Qle_lt_trans _ b); assumption.
Qed.

Lemma hedge_ratio_cell_positive (row : Row) :
  0 < hedge_ratio row ->
  exists h, hedge_ratio_cell row = Some h /\ (1 <= h)%Z.
Proof.
  unfold hedge_ratio. destruct (hedge_ratio_cell row) as [h |]; intro H.
  - exists h. split; [reflexivity |].
    change 0 with (inject_Z 0) in H. rewrite <- Zlt_Qlt in H. lia.
  - exfalso. exact (Qlt_irrefl 0 H).
Qed.

(** The quotient [n_fut / hedge_ratio] is a finite float. *)
Lemma lots_quotient_finite (row : Row) (units : Z) :
  0 < hedge_ratio row ->
  is_finite (inject_Z (lots_value row units) / hedge_ratio row) = true.
Proof.
  intro Hh. destruct (hedge_ratio_cell_positive row Hh) as [h [Hc Hh1]].
  assert (Hl : (1 <= lots_value row units <= int64_max)%Z).
  { unfold lots_value, units_times_hedge.
    pose proof (wrap64_range (units * hedge_int row)).
    unfold int64_max in *. lia. }
  apply (is_finite_bound _ (inject_Z int64_max)).
  - apply Qle_shift_div_l; [exact Hh |]. rewrite Qmult_0_l.
    change 0 with (inject_Z 0). rewrite <- Zle_Qle. lia.
  - apply Qle_shift_div_r; [exact Hh |].
    unfold hedge_ratio. rewrite Hc, <- inject_Z_mult, <- Zle_Qle.
    unfold int64_max in *. nia.
  - unfold float_overflow. rewrite <- Zlt_Qlt. reflexivity.
Qed.

(** The first two quotients of [size_position]. *)
Lemma size_position_first (row : Row) (avail : Q) :
  0 < open_etf (day row) -> 0 < hedge_ratio row ->
  is_finite (avail / open_etf (day row)) = true ->
  fits_int64 (floor (avail / open_etf (day row))) = true ->
  size_position cfg row avail =
  (if scale_down cfg row avail
   then
     scale <- py_div avail (first_required cfg row avail) ;;
     units' <- floor_product (first_units row avail) scale ;;
     lots' <- lots_for row units' ;;
     if Qgtb (total_required cfg row units' lots') avail
     then Ok (0%Z, 0%Z, etf_cost row units')
     else Ok (units', lots', etf_cost row units')
   else Ok (first_units row avail, first_lots row avail,
            etf_cost row (first_units row avail))).
Proof.
  intros Hp Hh Hfin Hfit. unfold size_position.
  rewrite (py_div_ok _ _ (Qlt_nonzero _ Hp)). cbn [bind].
  unfold math_floor at 1. rewrite Hfin. cbn [bind].
  unfold lots_for at 1. rewrite Hfit. cbn [bind].
  rewrite (py_div_ok _ _ (Qlt_nonzero _ Hh)). cbn [bind].
  unfold math_floor at 1.
  rewrite (lots_quotient_finite row _ Hh). cbn [bind].
  reflexivity.
Qed.


Lemma computable_parts (row : Row) (avail : Q) :
  computable cfg row avail = true ->
  is_finite (avail / open_etf (day row)) = true
  /\ fits_int64 (floor (avail / open_etf (day row))) = true
  /\ (scale_down cfg row avail = true ->
      is_finite (avail / first_required cfg row avail) = true
      /\ is_finite (inject_Z (first_units row avail)
                    * (avail / first_required cfg row avail)) = true
      /\ fits_int64 (scaled_units cfg row avail) = true).
Proof.
  intro Hr. unfold computable in Hr.
  apply andb_true_iff in Hr. destruct Hr as [Hr H3].
  apply andb_true_iff in Hr. destruct Hr as [H1 H2].
  split; [exact H1 |]. split; [exact H2 |].
  intro S. rewrite S in H3. cbn [negb orb] in H3.
  apply andb_true_iff in H3. destruct H3 as [H3 H5].
  apply andb_true_iff in H3. destruct H3 as [H3 H4]. auto.
Qed.

Lemma representable_computable (row : Row) (avail : Q) :
  representable cfg row avail = true -> computable cfg row avail = true.
Proof.
  unfold representable. intro H.
  apply andb_true_iff in H. destruct H as [H _].
  apply andb_true_iff in H. exact (proj1 H).
Qed.

Lemma size_position_scaled (row : Row) (avail : Q) :
  0 < open_etf (day row) -> 0 < hedge_ratio row ->
  computable cfg row avail = true ->
  avail < first_required cfg row avail ->
  0 < first_required cfg row avail ->
  size_position cfg row avail =
  (if Qgtb (scaled_required cfg row avail) avail
   then Ok (0%Z, 0%Z, etf_cost row (scaled_units cfg row avail))
   else Ok (scaled_units cfg row avail, scaled_lots cfg row avail,
            etf_cost row (scaled_units cfg row avail))).
Proof.
  intros Hp Hh Hr Hover Hpos.
  destruct (computable_parts row avail Hr) as [H1 [H2 H3]].
  assert (S : scale_down cfg row avail = true).
  { unfold scale_down.
    rewrite (Qlt_Qgtb _ _ Hover), (Qlt_Qgtb _ _ Hpos). reflexivity. }
  destruct (H3 S) as [H4 [H5 H6]].
  rewrite (size_position_first row avail Hp Hh H1 H2), S.
  rewrite (py_div_ok _ _ (Qlt_nonzero _ Hpos)). cbn [bind].
  unfold floor_product, math_floor. rewrite H4, H5. cbn [bind].
  fold (scaled_units cfg row avail).
  unfold lots_for. rewrite H6. cbn [bind].
  fold (scaled_lots cfg row avail). fold (scaled_required cfg row avail).
  reflexivity.
Qed.

Lemma enter_primary_attempt (row : Row) (a : Account) (act : Z) :
  holding a = false -> signal_positive row ->
  0 < open_etf (day row) -> 0 < hedge_ratio row ->
  enter_primary cfg row a act =
  (' (units, lots, cost) <- size_position cfg row (capital a * 0.90) ;;
   if (0 <? units)%Z && (0 <? lots)%Z
   then Ok (open_primary cfg row a units lots cost, 1%Z)
   else Ok (with_sizes a units lots, act)).
Proof.
  intros Hflat Hsig Hp Hh. unfold enter_primary.
  apply nan_gt_positive in Hsig. rewrite Hflat, Hsig. cbn [bind].
  apply Qleb_gt in Hp. apply Qleb_gt in Hh. rewrite Hp, Hh. cbn [bind].
  reflexivity.
Qed.

End SizingFacts.

(** ** Guards of the divisions *)

Section GuardFacts.
Import Backtest ExitRule Sizing.

Variable cfg : Config.

Lemma Qgtb_nonzero (x : Q) : Qgtb x 0 = true -> ~ x == 0.
Proof.
  unfold Qgtb. rewrite Qltb_lt. intros H E. rewrite E in H.
  exact (Qlt_irrefl 0 H).
Qed.

Lemma Qleb_false_nonzero (x : Q) : Qleb x 0 = false -> ~ x == 0.
Proof.
  rewrite Qleb_gt. intros H E. rewrite E in H. exact (Qlt_irrefl 0 H).
Qed.

Lemma exit_alpha_total (row : Row) (c : Q) (b : Books) (pnls : list Q) :
  exists b' pnls', exit_alpha cfg row c b pnls = Ok (b', pnls').
Proof.
  unfold exit_alpha.
  destruct (entry_equity_alpha b) as [basis |]; [| eauto].
  destruct ((0 <? alpha_etf_units b)%Z && negb (Qeq_bool basis 0)) eqn:G;
    [| eauto].
  apply andb_true_iff in G. destruct G as [_ G].
  apply negb_true_iff in G. unfold py_div. rewrite G. cbn [bind].
  destruct (Qgeb _ (stop_gain cfg) || Qleb _ (- stop_loss cfg)); eauto.
Qed.


(** With sizes that can be computed the sizing returns. *)
Lemma size_position_total (row : Row) (avail : Q) :
  0 < open_etf (day row) -> 0 < hedge_ratio row ->
  computable cfg row avail = true ->
  exists units lots cost, size_position cfg row avail = Ok (units, lots, cost).
Proof.
  intros Hp Hh Hr.
  destruct (computable_parts cfg row avail Hr) as [H1 [H2 H3]].
  rewrite (size_position_first cfg row avail Hp Hh H1 H2).
  destruct (scale_down cfg row avail) eqn:S; [| eauto].
  destruct (H3 eq_refl) as [H4 [H5 H6]]. unfold scale_down in S.
  apply andb_true_iff in S. destruct S as [_ G].
  rewrite (py_div_ok _ _ (Qgtb_nonzero _ G)). cbn [bind].
  unfold floor_product, math_floor. rewrite H4, H5. cbn [bind].
  fold (scaled_units cfg row avail).
  unfold lots_for. rewrite H6. cbn [bind].
  match goal with
  | |- context [if ?g then _ else _] => destruct g; eauto
  end.
Qed.


Lemma enter_primary_total (row : Row) (a : Account) (act : Z) :
  computable cfg row (capital a * 0.90) = true ->
  exists a' act', enter_primary cfg row a act = Ok (a', act').
Proof.
  intro Hr. unfold enter_primary.
  destruct (negb (holding a) && nan_gt (signal_today row) 0); [| eauto].
  destruct (Qleb (open_etf (day row)) 0) eqn:Hp; cbn [bind orb]; [eauto |].
  destruct (Qleb (hedge_ratio row) 0) eqn:Hh; cbn [bind orb]; [eauto |].
  apply Qleb_gt in Hp. apply Qleb_gt in Hh.
  destruct (size_position_total row (capital a * 0.90) Hp Hh Hr)
    as [units [lots [cost ->]]]. cbn [bind].
  destruct ((0 <? units)%Z && (0 <? lots)%Z); eauto.
Qed.

Lemma is_finite_zero (x : Q) : x == 0 -> is_finite x = true.
Proof.
  intro H. unfold is_finite. apply Qltb_lt. rewrite H. reflexivity.
Qed.

Lemma floor_zero (x : Q) : x == 0 -> floor x = 0%Z.
Proof. intro H. unfold floor. rewrite (Qfloor_comp x 0 H). reflexivity. Qed.

Lemma Qdiv_zero (a b : Q) : a == 0 -> a / b == 0.
Proof. intro H. unfold Qdiv. rewrite H. apply Qmult_0_l. Qed.

Lemma Qmult_div_zero (u a b : Q) : a == 0 -> u * (a / b) == 0.
Proof. intro H. rewrite (Qdiv_zero a b H). apply Qmult_0_r. Qed.

(** With no funds the sizes can be computed. *)
Lemma computable_zero_funds (row : Row) (avail : Q) :
  avail == 0 -> computable cfg row avail = true.
Proof.
  intro H. unfold computable.
  assert (H1 : avail / open_etf (day row) == 0)
    by (apply Qdiv_zero, H).
  rewrite (is_finite_zero _ H1), (floor_zero _ H1). cbn [andb].
  destruct (scale_down cfg row avail); cbn [negb orb]; [| reflexivity].
  assert (H2 : inject_Z (first_units row avail)
               * (avail / first_required cfg row avail) == 0)
    by (apply Qmult_div_zero, H).
  assert (H3 : avail / first_required cfg row avail == 0)
    by (apply Qdiv_zero, H).
  unfold scaled_units.
  rewrite (is_finite_zero _ H2), (is_finite_zero _ H3), (floor_zero _ H2).
  reflexivity.
Qed.






End GuardFacts.





(** ** Infeasible sizing *)

(** C6 (as amended).  On an entry attempt (flat account, strictly positive
    signal, open price and hedge ratio) whose sizes are numbers of the loop
    (the quotient and the product that are floored are finite floats, the
    unit counts are [int64]), if the capital required by the first sizes
    exceeds the reserved funds and is strictly positive, the ETF units are
    scaled by reserved / required and floored, and the lots are recomputed
    from them, once.  If the capital required by the scaled
    sizes is within the reserved funds, these are the sizes that go on to
    the entry test.  If it still exceeds them, the entry is abandoned: both
    counts are set to zero, the account is otherwise unchanged (no cash is
    debited, the position stays flat), the trade flag is left as it was,
    nothing is raised, and with a non-zero initial capital the record of
    the day is appended with position flag 0, so that the loop goes on. *)
Theorem infeasible_entry_abandoned_after_one_scale_down :
  forall (cfg : Backtest.Config) (row : Backtest.Row)
         (a : Backtest.Account) (act : Z),
    Backtest.holding a = false ->
    ExitRule.signal_positive row ->
    0 < Backtest.open_etf (Backtest.day row) ->
    0 < Backtest.hedge_ratio row ->
    let avail := Backtest.capital a * 0.90 in
    Sizing.representable cfg row avail = true ->
    avail < Sizing.first_required cfg row avail ->
    0 < Sizing.first_required cfg row avail ->
    (Sizing.scaled_required cfg row avail <= avail ->
     Backtest.size_position cfg row avail
     = Ok (Sizing.scaled_units cfg row avail,
           Sizing.scaled_lots cfg row avail,
           Backtest.etf_cost row (Sizing.scaled_units cfg row avail)))
    /\ (avail < Sizing.scaled_required cfg row avail ->
        Backtest.enter_primary cfg row a act
        = Ok (Backtest.with_sizes a 0 0, act)
        /\ Backtest.n_etf (Backtest.with_sizes a 0 0) = 0%Z
        /\ Backtest.n_fut (Backtest.with_sizes a 0 0) = 0%Z
        /\ Backtest.cash (Backtest.with_sizes a 0 0) = Backtest.cash a
        /\ Backtest.holding (Backtest.with_sizes a 0 0) = false
        /\ forall b,
             ~ Backtest.initial_capital cfg == 0 ->
             exists r,
               Backtest.mark_and_record cfg row b
                 (Backtest.with_sizes a 0 0) act = Ok r
               /\ Backtest.position r = 0%Z
               /\ Backtest.equity r = Backtest.cash a).
Proof.
  intros cfg row a act Hflat Hsig Hp Hh avail Hrep Hover Hpos.
  pose proof (size_position_scaled cfg row avail Hp Hh
                (representable_computable cfg row avail Hrep) Hover Hpos)
    as Hsize.
  split.
  - intro Hfit. rewrite Hsize, (Qle_Qgtb _ _ Hfit). reflexivity.
  - intro Hstill. rewrite (Qlt_Qgtb _ _ Hstill) in Hsize.
    split; [| repeat split; try assumption].
    + rewrite (enter_primary_attempt cfg row a act Hflat Hsig Hp Hh).
      fold avail. rewrite Hsize. reflexivity.
    + intros b Hcap. unfold Backtest.mark_and_record.
      cbn [Backtest.holding Backtest.with_sizes Backtest.cash].
      rewrite Hflat. rewrite (py_div_ok _ _ Hcap). cbn [bind].
      eexists. split; [reflexivity |]. split; reflexivity.
Qed.

(** With 100 of capital one lot is out of reach before and after the
    scale-down, and the entry is abandoned. *)
Lemma infeasible_entry_abandoned_after_one_scale_down_witness :
  Backtest.holding Examples.small_account = false
  /\ ExitRule.signal_positive Examples.entry_row
  /\ 0 < Backtest.open_etf (Backtest.day Examples.entry_row)
  /\ 0 < Backtest.hedge_ratio Examples.entry_row
  /\ Sizing.representable Backtest.default_config Examples.entry_row
       (Backtest.capital Examples.small_account * 0.90) = true
  /\ Backtest.capital Examples.small_account * 0.90
     < Sizing.first_required Backtest.default_config Examples.entry_row
         (Backtest.capital Examples.small_account * 0.90)
  /\ 0 < Sizing.first_required Backtest.default_config Examples.entry_row
           (Backtest.capital Examples.small_account * 0.90)
  /\ Backtest.capital Examples.small_account * 0.90
     < Sizing.scaled_required Backtest.default_config Examples.entry_row
         (Backtest.capital Examples.small_account * 0.90)
  /\ Backtest.enter_primary Backtest.default_config Examples.entry_row
       Examples.small_account 0
     = Ok (Backtest.with_sizes Examples.small_account 0 0, 0%Z).
Proof.
  assert (Hflat : Backtest.holding Examples.small_account = false)
    by reflexivity.
  assert (Hsig : ExitRule.signal_positive Examples.entry_row)
    by (exists 1; split; reflexivity).
  assert (Hp : 0 < Backtest.open_etf (Backtest.day Examples.entry_row))
    by (vm_compute; reflexivity).
  assert (Hh : 0 < Backtest.hedge_ratio Examples.entry_row)
    by (vm_compute; reflexivity).
  assert (Hrep : Sizing.representable Backtest.default_config
                   Examples.entry_row
                   (Backtest.capital Examples.small_account * 0.90) = true)
    by (vm_compute; reflexivity).
  assert (Hover : Backtest.capital Examples.small_account * 0.90
                  < Sizing.first_required Backtest.default_config
                      Examples.entry_row
                      (Backtest.capital Examples.small_account * 0.90))
    by (vm_compute; reflexivity).
  assert (Hpos : 0 < Sizing.first_required Backtest.default_config
                       Examples.entry_row
                       (Backtest.capital Examples.small_account * 0.90))
    by (vm_compute; reflexivity).
  assert (Hstill : Backtest.capital Examples.small_account * 0.90
                   < Sizing.scaled_required Backtest.default_config
                       Examples.entry_row
                       (Backtest.capital Examples.small_account * 0.90))
    by (vm_compute; reflexivity).
  refine (conj Hflat (conj Hsig (conj Hp (conj Hh (conj Hrep
            (conj Hover (conj Hpos (conj Hstill _)))))))).
  exact (proj1 (proj2 (infeasible_entry_abandoned_after_one_scale_down
                         Backtest.default_config Examples.entry_row
                         Examples.small_account 0 Hflat Hsig Hp Hh
                         Hrep Hover Hpos) Hstill)).
Defined.

(** C6, counterexample.  After an entry and a close that leaves the equity
    negative, the third day is an entry attempt whose first sizes are 0
    units and 1 lot; with a margin rate of zero they require a capital of
    0, which exceeds the negative reserved funds.  No scale-down is made
    and the entry does not take place, but the lot count is left at 1. *)
Lemma zero_requirement_is_not_scaled_down :
  Backtest.prepare Examples.negative_equity_frame "pred"
    Examples.no_margin_config = Ok Examples.negative_equity_rows
  /\ nth_error Examples.negative_equity_rows 2 = Some Examples.third_day
  /\ exists st,
       Backtest.run_days Examples.no_margin_config
         (Backtest.initial_state Examples.no_margin_config)
         (firstn 2 Examples.negative_equity_rows) = Ok st
       /\ Backtest.holding (Backtest.account st) = false
       /\ ExitRule.signal_positive Examples.third_day
       /\ 0 < Backtest.open_etf (Backtest.day Examples.third_day)
       /\ 0 < Backtest.hedge_ratio Examples.third_day
       /\ Sizing.first_units Examples.third_day
            (Backtest.capital (Backtest.account st) * 0.90) = 0%Z
       /\ Sizing.first_lots Examples.third_day
            (Backtest.capital (Backtest.account st) * 0.90) = 1%Z
       /\ Backtest.capital (Backtest.account st) * 0.90
          < Sizing.first_required Examples.no_margin_config
              Examples.third_day
              (Backtest.capital (Backtest.account st) * 0.90)
       /\ Backtest.enter_primary Examples.no_margin_config
            Examples.third_day (Backtest.account st) 0
          = Ok (Backtest.with_sizes (Backtest.account st) 0 1, 0%Z)
       /\ Backtest.n_fut (Backtest.with_sizes (Backtest.account st) 0 1)
          <> 0%Z.
Proof.
  split; [vm_compute; reflexivity |]. split; [reflexivity |].
  destruct (Backtest.run_days Examples.no_margin_config
              (Backtest.initial_state Examples.no_margin_config)
              (firstn 2 Examples.negative_equity_rows)) as [st |] eqn:E;
    [| vm_compute in E; discriminate E].
  exists st. split; [reflexivity |].
  vm_compute in E. inversion E; subst; clear E.
  split; [reflexivity |].
  split; [exists 1; split; reflexivity |].
  repeat split; try (vm_compute; reflexivity).
  discriminate.
Qed.

(** ** Signal alignment *)

Section SignalFacts.
Import Signal Pattern.

Lemma take_digits_app (l r : list N) :
  forallb is_digit l = true -> take_digits r = [] ->
  take_digits (l ++ r) = l.
Proof.
  intros Hl Hr. induction l as [| c l IH]; simpl; [exact Hr |].
  simpl in Hl. apply andb_true_iff in Hl. destruct Hl as [Hc Hl].
  rewrite Hc, (IH Hl). reflexivity.
Qed.

Lemma forallb_rev {A : Type} (f : A -> bool) (l : list A) :
  forallb f (rev l) = forallb f l.
Proof.
  induction l as [| a l IH]; simpl; [reflexivity |].
  rewrite forallb_app, IH. simpl. rewrite andb_true_r. apply andb_comm.
Qed.

(** The digits found in front of a final [d]. *)
Lemma search_after_d (pre ds : list N) :
  digit_run pre ds ->
  match take_digits (rev (pre ++ ds)) with
  | [] => None
  | x :: xs => Some (rev (x :: xs))
  end = Some ds.
Proof.
  intros [Hne [Hds Hpre]].
  rewrite rev_app_distr, take_digits_app;
    [| rewrite forallb_rev; exact Hds | exact Hpre].
  destruct (rev ds) as [| x xs] eqn:E.
  - apply (f_equal (@rev N)) in E. rewrite rev_involutive in E.
    simpl in E. contradiction.
  - rewrite <- E, rev_involutive. reflexivity.
Qed.

Lemma pred_shift_of_suffix (pred_col : string) (pre ds : list N) :
  digit_run pre ds ->
  chars pred_col = pre ++ ds ++ [letter_d]
  \/ chars pred_col = pre ++ ds ++ [letter_d; newline] ->
  pred_shift pred_col = int ds.
Proof.
  intros Hrun Hname. unfold pred_shift, search_digits_d.
  assert (Hrev : before_dollar (rev (chars pred_col))
                 = letter_d :: rev (pre ++ ds)).
  { destruct Hname as [-> | ->]; rewrite app_assoc, rev_app_distr;
      reflexivity. }
  rewrite Hrev. rewrite N.eqb_refl.
  rewrite (search_after_d pre ds Hrun). reflexivity.
Qed.

Lemma pred_shift_without_pattern (pred_col : string) :
  ends_with_digits_d_before_line_feed pred_col = false ->
  pred_shift pred_col = Ok 0%Z.
Proof.
  unfold ends_with_digits_d_before_line_feed, pred_shift, search_digits_d.
  destruct (before_dollar (rev (chars pred_col)))
    as [| c [| c' r]]; [reflexivity | |].
  - intros _. destruct (c =? letter_d)%N; reflexivity.
  - intro H. destruct (c =? letter_d)%N; [| reflexivity].
    cbn [andb] in H. cbn [take_digits]. rewrite H. reflexivity.
Qed.

Lemma int_of_digits_nonneg (ds : list N) : (0 <= int_of_digits ds)%Z.
Proof.
  unfold int_of_digits.
  assert (H : forall acc, (0 <= acc)%Z ->
            (0 <= fold_left (fun a c => 10 * a + value_of c) ds acc)%Z).
  { induction ds as [| c ds IH]; intros acc Hacc; cbn [fold_left];
      [exact Hacc |].
    apply IH. unfold value_of. destruct (digit_value c); lia. }
  apply H. lia.
Qed.

Lemma pred_shift_nonneg (pred_col : string) (n : Z) :
  pred_shift pred_col = Ok n -> (0 <= n)%Z.
Proof.
  unfold pred_shift, int.
  destruct (search_digits_d pred_col) as [ds |].
  - destruct (max_str_digits <? List.length ds)%nat; [discriminate |].
    intro H. inversion H. apply int_of_digits_nonneg.
  - intro H. inversion H. lia.
Qed.

Lemma shift_back_length {A : Type} (n : nat) (col : list (option A)) :
  List.length (shift_back n col) = List.length col.
Proof.
  unfold shift_back. rewrite length_app, length_skipn, repeat_length. lia.
Qed.

Lemma shift_back_nth {A : Type} (n : nat) (col : list (option A)) (i : nat) :
  (i < List.length col)%nat ->
  nth_error (shift_back n col) i =
  if (i + n <? List.length col)%nat then nth_error col (i + n)
  else Some None.
Proof.
  intro Hi. unfold shift_back.
  destruct (i + n <? List.length col)%nat eqn:E.
  - apply Nat.ltb_lt in E.
    rewrite nth_error_app1 by (rewrite length_skipn; lia).
    rewrite nth_error_skipn. f_equal. lia.
  - apply Nat.ltb_ge in E.
    rewrite nth_error_app2 by (rewrite length_skipn; lia).
    apply nth_error_repeat. rewrite length_skipn. lia.
Qed.

Lemma shift_minus_total {A : Type} (n : Z) (col : list (option A)) :
  (n <= 2 ^ 63)%Z \/ col = [] ->
  exists s, shift_minus n col = Ok s.
Proof.
  intro H. unfold shift_minus. destruct col as [| x col]; [eauto |].
  destruct H as [H | H]; [| discriminate H].
  destruct (- n <? int64_min)%Z eqn:E; [| eauto].
  apply Z.ltb_lt in E. unfold int64_min in E. lia.
Qed.

Lemma shift_minus_rows {A : Type} (n : Z) (col s : list (option A)) :
  (0 <= n)%Z ->
  shift_minus n col = Ok s ->
  List.length s = List.length col
  /\ forall i, (i < List.length col)%nat ->
       nth_error s i =
       if (Z.of_nat i + n <? Z.of_nat (List.length col))%Z
       then nth_error col (i + Z.to_nat n)
       else Some None.
Proof.
  intros Hn H. unfold shift_minus in H.
  destruct col as [| x col].
  - inversion H. split; [reflexivity |]. intros i Hi. inversion Hi.
  - destruct (- n <? int64_min)%Z; [discriminate |]. injection H as <-.
    set (c := x :: col).
    change (Z.pos (Pos.of_succ_nat (List.length col)))
      with (Z.of_nat (List.length c)).
    split; [apply shift_back_length |].
    intros i Hi. rewrite (shift_back_nth _ c i Hi).
    destruct (Z.of_nat i + n <? Z.of_nat (List.length c))%Z eqn:E.
    + apply Z.ltb_lt in E.
      assert (Hk : Z.to_nat (Z.min n (Z.of_nat (List.length c)))
                   = Z.to_nat n) by lia.
      rewrite Hk.
      assert (E' : (i + Z.to_nat n <? List.length c)%nat = true)
        by (apply Nat.ltb_lt; lia).
      rewrite E'. reflexivity.
    + apply Z.ltb_ge in E.
      assert (E' : (i + Z.to_nat (Z.min n (Z.of_nat (List.length c)))
                    <? List.length c)%nat = false)
        by (apply Nat.ltb_ge; lia).
      rewrite E'. reflexivity.
Qed.

End SignalFacts.

(** C2 (as amended).  For every column name, the horizon N is the integer
    written by the run of decimal digits (of any script) that stands in
    front of a [d] at the end of the name, or in front of a [d] followed by
    one final line feed, and N is 0 when neither is there; a run of more
    than 4300 digits is refused by [int].  The signal column is the raw
    column when N is 0; otherwise row [i] of it holds the raw value of row
    [i + N], and is absent on the last N rows; the shift is made for every
    N up to 2^63.  On a row whose signal is absent the engine takes no
    entry action: the base book is not built, the alpha book does not
    grow, and no primary position is opened. *)
Theorem signal_is_prediction_shifted_back :
  forall (pred_col : string) (col : list (option Q)),
    (forall pre ds,
        Pattern.digit_run pre ds ->
        Signal.chars pred_col = pre ++ ds ++ [Signal.letter_d]
        \/ Signal.chars pred_col
           = pre ++ ds ++ [Signal.letter_d; Signal.newline] ->
        Signal.pred_shift pred_col = Signal.int ds
        /\ ((List.length ds <= Signal.max_str_digits)%nat ->
            Signal.pred_shift pred_col = Ok (Signal.int_of_digits ds)))
    /\ (Pattern.ends_with_digits_d_before_line_feed pred_col = false ->
        Signal.pred_shift pred_col = Ok 0%Z)
    /\ (forall n,
          Signal.pred_shift pred_col = Ok n ->
          (0 <= n)%Z
          /\ (n = 0%Z -> Signal.signal_today_col pred_col col = Ok col)
          /\ ((n <= 2 ^ 63)%Z ->
              exists signal,
                Signal.signal_today_col pred_col col = Ok signal)
          /\ forall signal,
               Signal.signal_today_col pred_col col = Ok signal ->
               List.length signal = List.length col
               /\ forall i, (i < List.length col)%nat ->
                    nth_error signal i =
                    if (Z.of_nat i + n <? Z.of_nat (List.length col))%Z
                    then nth_error col (i + Z.to_nat n)
                    else Some None)
    /\ (forall (cfg : Backtest.Config) (row : Backtest.Row)
               (b : Backtest.Books) (c : Q) (a : Backtest.Account)
               (act : Z),
          Backtest.signal_today row = None ->
          Backtest.build_base row b = b
          /\ Backtest.accumulate_alpha cfg row c b = b
          /\ Backtest.enter_primary cfg row a act = Ok (a, act)).
Proof.
  intros pred_col col.
  split; [| split; [| split]].
  - intros pre ds Hrun Hname.
    pose proof (pred_shift_of_suffix pred_col pre ds Hrun Hname) as H.
    split; [exact H |]. intro Hlen. rewrite H. unfold Signal.int.
    apply Nat.ltb_ge in Hlen. rewrite Hlen. reflexivity.
  - apply pred_shift_without_pattern.
  - intros n Hn. pose proof (pred_shift_nonneg pred_col n Hn) as H0.
    unfold Signal.signal_today_col. rewrite Hn. cbn [bind].
    split; [exact H0 |]. split; [| split].
    + intros ->. reflexivity.
    + intro Hmax. destruct (0 <? n)%Z; [| eauto].
      apply shift_minus_total. left. exact Hmax.
    + intros signal Hs. destruct (0 <? n)%Z eqn:E.
      * apply (shift_minus_rows n col signal H0 Hs).
      * apply Z.ltb_ge in E. assert (n = 0%Z) by lia. subst n.
        inversion Hs; subst. split; [reflexivity |].
        intros i Hi. rewrite Z.add_0_r, Nat.add_0_r.
        assert (E' : (Z.of_nat i <? Z.of_nat (List.length signal))%Z = true)
          by (apply Z.ltb_lt; lia).
        rewrite E'. reflexivity.
  - intros cfg row b c a act Hnone.
    unfold Backtest.build_base, Backtest.accumulate_alpha,
      Backtest.enter_primary.
    rewrite Hnone. cbn [nan_gt nan_lt]. rewrite !andb_false_r.
    cbn [andb]. auto.
Qed.

(** C2, counterexample.  A name that ends with a line feed does not end
    with digits and [d], yet its horizon is 5 and the signal is shifted. *)
Lemma line_feed_name_is_shifted :
  Pattern.ends_with_digits_d Examples.name_with_line_feed = false
  /\ Signal.pred_shift Examples.name_with_line_feed = Ok 5%Z
  /\ Signal.signal_today_col Examples.name_with_line_feed
       [Some 1; Some 2; Some 3; Some 4; Some 5; Some 6]
     = Ok [Some 6; None; None; None; None; None].
Proof.
  split; [vm_compute; reflexivity |].
  split; [vm_compute; reflexivity |]. vm_compute. reflexivity.
Qed.

(** ** The performance metrics *)

Section MetricFacts.
Import Backtest Evaluator.

Variable fpow : fval -> fval -> fval.
Variable fsqrt : fval -> fval.

Lemma inject_nat_nonzero (n : nat) :
  (0 < n)%nat -> ~ inject_Z (Z.of_nat n) == 0.
Proof.
  intros Hn H. unfold Qeq in H. simpl in H. lia.
Qed.

Lemma annual_return_of_days (tr : fval) (n : nat) :
  (0 < n)%nat ->
  annual_return_of fpow tr n
  = Ok (fsub (fpow (fadd (Fin 1) tr) (Fin (252 / inject_Z (Z.of_nat n))))
          (Fin 1)).
Proof.
  intro Hn. unfold annual_return_of.
  apply Nat.ltb_lt in Hn. rewrite Hn. apply Nat.ltb_lt in Hn.
  rewrite (py_div_ok _ _ (inject_nat_nonzero n Hn)). reflexivity.
Qed.

Lemma win_rate_of_value (pnls : list Q) :
  win_rate_of pnls = Ok (win_rate_value pnls).
Proof.
  unfold win_rate_of, win_rate_value. destruct pnls as [| p pnls].
  - reflexivity.
  - cbn [List.length Nat.ltb Nat.leb].
    rewrite py_div_ok by (apply inject_nat_nonzero; simpl; lia).
    reflexivity.
Qed.

Lemma last_default_irrelevant {A : Type} (l : list A) (d d' : A) :
  l <> [] -> last l d = last l d'.
Proof.
  induction l as [| a l IH]; intro H; [contradiction |].
  destruct l as [| b l]; [reflexivity |].
  change (last (b :: l) d = last (b :: l) d'). apply IH. discriminate.
Qed.

Lemma evaluate_records (initial : Q) (recs : list DailyRecord)
    (pnls : list Q) :
  recs <> [] ->
  evaluate fpow fsqrt initial recs pnls
  = Ok (combine recs (strategy_ret_of (map equity recs)),
        metrics_of fpow fsqrt initial recs pnls, pnls).
Proof.
  intro Hne. destruct recs as [| r recs]; [contradiction |].
  unfold evaluate.
  rewrite annual_return_of_days by (simpl; lia). cbn [bind].
  rewrite win_rate_of_value. cbn [bind]. unfold metrics_of.
  rewrite (last_default_irrelevant (map equity (r :: recs)) (equity r) 0)
    by discriminate.
  reflexivity.
Qed.

Lemma evaluate_ok_records (initial : Q) (recs : list DailyRecord)
    (pnls : list Q) frame metrics pnls' :
  evaluate fpow fsqrt initial recs pnls = Ok (frame, metrics, pnls') ->
  recs <> [] /\ metrics = metrics_of fpow fsqrt initial recs pnls.
Proof.
  intro H. destruct recs as [| r recs]; [discriminate H |].
  split; [discriminate |].
  rewrite evaluate_records in H by discriminate.
  inversion H; subst. reflexivity.
Qed.

End MetricFacts.

(** C7 (as amended).  For every ledger with at least one record the
    evaluator returns, and the dictionary of metrics has exactly the keys
    [annual_return], [max_drawdown], [sharpe_ratio], [calmar_ratio],
    [win_rate] and [total_trades]; there is no [total_return] entry.  The
    total return, final equity / initial capital - 1, is an intermediate
    value from which the [annual_return] entry is computed. *)
Theorem metrics_has_six_fields_without_total_return :
  forall (fpow : fval -> fval -> fval) (fsqrt : fval -> fval)
         (initial : Q) (r : Backtest.DailyRecord)
         (recs : list Backtest.DailyRecord) (pnls : list Q),
    let ledger := r :: recs in
    let final_equity := last (map Backtest.equity ledger) 0 in
    exists frame metrics,
      Evaluator.evaluate fpow fsqrt initial ledger pnls
      = Ok (frame, metrics, pnls)
      /\ map fst metrics
         = [ "annual_return"; "max_drawdown"; "sharpe_ratio";
             "calmar_ratio"; "win_rate"; "total_trades" ]%string
      /\ Evaluator.lookup "total_return" metrics = None
      /\ Evaluator.lookup "annual_return" metrics
         = Some (Evaluator.MFloat
                   (fsub (fpow (fadd (Fin 1)
                                  (Evaluator.total_return_of final_equity
                                     initial))
                            (Fin (252 / inject_Z
                                          (Z.of_nat (List.length ledger)))))
                         (Fin 1)))
      /\ (~ initial == 0 ->
          exists tr,
            Evaluator.total_return_of final_equity initial = Fin tr
            /\ tr == final_equity / initial - 1).
Proof.
  intros fpow fsqrt initial r recs pnls ledger final_equity.
  exists (combine ledger
            (Evaluator.strategy_ret_of (map Backtest.equity ledger))),
         (Evaluator.metrics_of fpow fsqrt initial ledger pnls).
  split; [apply evaluate_records; discriminate |].
  split; [reflexivity |]. split; [reflexivity |]. split; [reflexivity |].
  intro Hinit. unfold Evaluator.total_return_of, fsub, fdiv.
  destruct (Qeq_bool initial 0) eqn:E;
    [apply Qeq_bool_eq in E; contradiction |].
  eexists. split; [reflexivity |]. unfold Qminus. reflexivity.
Qed.

(** C7, counterexample.  The run on a frame of one quiet day completes,
    and the metrics it returns have no [total_return] entry, whatever the
    power and square root functions are. *)
Lemma quiet_run_metrics_lack_total_return :
  ~ (forall (fpow : fval -> fval -> fval) (fsqrt : fval -> fval),
       exists frame metrics pnls v,
         Evaluator.backtest_spread_strategy fpow fsqrt Examples.quiet_frame
           "pred" Backtest.default_config = Ok (frame, metrics, pnls)
         /\ Evaluator.lookup "total_return" metrics = Some v).
Proof.
  intro H.
  destruct (H (fun _ _ => NaN) (fun _ => NaN))
    as [frame [metrics [pnls [v [Hrun Hv]]]]].
  vm_compute in Hrun. inversion Hrun; subst. discriminate Hv.
Qed.

(** The wins counted by the evaluator are the strictly positive
    outcomes. *)
Lemma win_trades_of_positive_count (pnls : list Q) :
  Evaluator.win_trades_of pnls = Outcome.positive_count pnls.
Proof.
  unfold Evaluator.win_trades_of.
  induction pnls as [| p pnls IH]; cbn [filter Outcome.positive_count];
    [reflexivity |].
  destruct (Qlt_le_dec 0 p) as [Hp | Hp].
  - rewrite (Qlt_Qgtb _ _ Hp). cbn [List.length]. rewrite IH. reflexivity.
  - rewrite (Qle_Qgtb _ _ Hp). exact IH.
Qed.

(** C8 (as amended).  For every ledger with at least one record the
    evaluator returns its metrics, whatever the statistics are.  The Sharpe
    ratio is 0 when the standard deviation of the daily returns is exactly
    zero.  The Calmar ratio is the annual return divided by the maximal
    drawdown when the latter exceeds 1e-8, and not-a-number otherwise.  The
    win rate is the number of strictly positive trade outcomes divided by
    the number of trade outcomes when there is one at least, and
    not-a-number when there is none.  For a ledger without records the
    evaluation is aborted by a [KeyError]. *)
Theorem degenerate_statistics_have_fallback_values :
  forall (fpow : fval -> fval -> fval) (fsqrt : fval -> fval)
         (initial : Q) (pnls : list Q),
    Evaluator.evaluate fpow fsqrt initial [] pnls = Raise (KeyError "equity")
    /\ forall (r : Backtest.DailyRecord) (recs : list Backtest.DailyRecord),
         let ledger := r :: recs in
         let daily_returns :=
           Evaluator.strategy_ret_of (map Backtest.equity ledger) in
         exists frame metrics annual_return max_drawdown,
           Evaluator.evaluate fpow fsqrt initial ledger pnls
           = Ok (frame, metrics, pnls)
           /\ Evaluator.lookup "annual_return" metrics
              = Some (Evaluator.MFloat annual_return)
           /\ Evaluator.lookup "max_drawdown" metrics
              = Some (Evaluator.MFloat max_drawdown)
           /\ (forall q,
                 Evaluator.series_std fsqrt daily_returns = Fin q ->
                 q == 0 ->
                 Evaluator.lookup "sharpe_ratio" metrics
                 = Some (Evaluator.MFloat (Fin 0)))
           /\ (fgtb max_drawdown (Fin 1e-8) = true ->
               Evaluator.lookup "calmar_ratio" metrics
               = Some (Evaluator.MFloat (fdiv annual_return max_drawdown)))
           /\ (fgtb max_drawdown (Fin 1e-8) = false ->
               Evaluator.lookup "calmar_ratio" metrics
               = Some (Evaluator.MFloat NaN))
           /\ (pnls <> [] ->
               Evaluator.lookup "win_rate" metrics
               = Some (Evaluator.MFloat
                         (Fin (inject_Z
                                 (Z.of_nat (Outcome.positive_count pnls))
                               / inject_Z (Z.of_nat (List.length pnls))))))
           /\ (pnls = [] ->
               Evaluator.lookup "win_rate" metrics
               = Some (Evaluator.MFloat NaN)).
Proof.
  intros fpow fsqrt initial pnls. split; [reflexivity |].
  intros r recs ledger daily_returns.
  eexists. exists (Evaluator.metrics_of fpow fsqrt initial ledger pnls).
  eexists. eexists.
  split; [apply evaluate_records; discriminate |].
  split; [reflexivity |]. split; [reflexivity |].
  split; [| split; [| split; [| split]]].
  - intros q Hstd Hq.
    cbn [Evaluator.metrics_of Evaluator.lookup String.eqb Ascii.eqb
         Bool.eqb].
    unfold Evaluator.sharpe_ratio_of. fold ledger. fold daily_returns.
    rewrite Hstd. cbn [fneb]. apply Qeq_eq_bool in Hq. rewrite Hq.
    reflexivity.
  - intro Hgt.
    cbn [Evaluator.metrics_of Evaluator.lookup String.eqb Ascii.eqb
         Bool.eqb].
    unfold Evaluator.calmar_ratio_of. rewrite Hgt. reflexivity.
  - intro Hle.
    cbn [Evaluator.metrics_of Evaluator.lookup String.eqb Ascii.eqb
         Bool.eqb].
    unfold Evaluator.calmar_ratio_of. rewrite Hle. reflexivity.
  - intro Hne. rewrite <- win_trades_of_positive_count.
    destruct pnls as [| p pnls]; [contradiction | reflexivity].
  - intros ->. reflexivity.
Qed.

(** C8, counterexample.  A run on a frame without rows has no trade and
    no day; its evaluation is aborted by [KeyError] instead of giving the
    fallback values. *)
Lemma zero_day_run_aborts_evaluation :
  Backtest.run_days Backtest.default_config
    (Backtest.initial_state Backtest.default_config) []
  = Ok (Backtest.initial_state Backtest.default_config)
  /\ Evaluator.evaluate (fun _ _ => NaN) (fun _ => NaN)
       (Backtest.initial_capital Backtest.default_config)
       (Backtest.records (Backtest.initial_state Backtest.default_config))
       (Backtest.realized_pnls
          (Backtest.initial_state Backtest.default_config))
     = Raise (KeyError "equity")
  /\ Evaluator.backtest_spread_strategy (fun _ _ => NaN) (fun _ => NaN)
       [] "pred" Backtest.default_config
     = Raise (KeyError "equity").
Proof.
  split; [reflexivity |]. split; [reflexivity |]. vm_compute. reflexivity.
Qed.

(** C9.  For a ledger of [n] records, [n] at least 1, the [annual_return]
    entry is (1 + total_return) to the power 252 / n, minus 1.  For a
    ledger without records the evaluator raises [KeyError] instead of
    returning an annual return of 0, and so does the whole function on a
    frame without rows (unless the column name carries a horizon that
    [int] refuses to read, which raises before). *)
Theorem annual_return_formula_and_zero_days_raise :
  forall (fpow : fval -> fval -> fval) (fsqrt : fval -> fval),
    (forall (initial : Q) (r : Backtest.DailyRecord)
            (recs : list Backtest.DailyRecord) (pnls : list Q),
        let ledger := r :: recs in
        let total_return :=
          Evaluator.total_return_of
            (last (map Backtest.equity ledger) 0) initial in
        exists frame metrics,
          Evaluator.evaluate fpow fsqrt initial ledger pnls
          = Ok (frame, metrics, pnls)
          /\ Evaluator.lookup "annual_return" metrics
             = Some (Evaluator.MFloat
                       (fsub (fpow (fadd (Fin 1) total_return)
                                (Fin (252 / inject_Z
                                              (Z.of_nat
                                                 (List.length ledger)))))
                             (Fin 1))))
    /\ (forall (initial : Q) (pnls : list Q),
          Evaluator.evaluate fpow fsqrt initial [] pnls
          = Raise (KeyError "equity"))
    /\ (forall pred_col : string,
          Evaluator.backtest_spread_strategy fpow fsqrt [] pred_col
            Backtest.default_config
          = match Signal.pred_shift pred_col with
            | Ok _ => Raise (KeyError "equity")
            | Raise e => Raise e
            end).
Proof.
  intros fpow fsqrt. split; [| split].
  - intros initial r recs pnls ledger total_return.
    exists (combine ledger
              (Evaluator.strategy_ret_of (map Backtest.equity ledger))),
           (Evaluator.metrics_of fpow fsqrt initial ledger pnls).
    split; [apply evaluate_records; discriminate | reflexivity].
  - intros initial pnls. reflexivity.
  - intro pred_col.
    unfold Evaluator.backtest_spread_strategy, Backtest.prepare,
      Backtest.rows_of, Signal.signal_today_col.
    assert (Hd : Dv01.calculate_dv01_metrics
                   (map Backtest.quote_of (Backtest.sort_values_date []))
                   (Backtest.etf_duration Backtest.default_config)
                   Backtest.ctd_dv01
                   (Backtest.conversion_factor Backtest.default_config)
                 = Ok []) by (vm_compute; reflexivity).
    rewrite Hd. cbn [bind Backtest.merge_hedge_ratio
                     Backtest.sort_values_date fold_right flat_map map].
    destruct (Signal.pred_shift pred_col) as [n | e]; cbn [bind];
      [| reflexivity].
    destruct (0 <? n)%Z; reflexivity.
Qed.

(** * Further properties of the loop *)

Section ReachFacts.
Import Backtest Reach.

Variable cfg : Config.

Ltac bind_in H x E :=
  match type of H with
  | bind ?m _ = Ok _ =>
      destruct m as [x |] eqn:E; cbn [bind] in H; [| discriminate H]
  end.

Lemma exit_primary_account_inv (row : Row) (a a1 : Account)
    (pnls pnls1 : list Q) (act : Z) :
  exit_primary cfg row a pnls = Ok (a1, pnls1, act) ->
  account_inv a -> account_inv a1.
Proof.
  unfold exit_primary. intros H Hinv.
  destruct (holding a) eqn:Hh.
  - bind_in H rate E.
    destruct (exit_condition cfg row rate); inversion H; subst.
    + unfold account_inv, close_primary. cbn [holding capital cash].
      reflexivity.
    + exact Hinv.
  - inversion H; subst. exact Hinv.
Qed.

Lemma enter_primary_account_inv (row : Row) (a a2 : Account) (act act2 : Z) :
  enter_primary cfg row a act = Ok (a2, act2) ->
  account_inv a -> account_inv a2.
Proof.
  unfold enter_primary. intros H Hinv.
  destruct (holding a) eqn:Hh; cbn [negb andb] in H.
  - inversion H; subst. exact Hinv.
  - destruct (nan_gt (signal_today row) 0);
      [| inversion H; subst; exact Hinv].
    destruct (Qleb (open_etf (day row)) 0 || Qleb (hedge_ratio row) 0);
      [inversion H; subst; exact Hinv |].
    bind_in H sz E. destruct sz as [[units lots] cost].
    destruct ((0 <? units)%Z && (0 <? lots)%Z) eqn:G; inversion H; subst.
    + apply andb_true_iff in G. destruct G as [Gu Gl].
      apply Z.ltb_lt in Gu. apply Z.ltb_lt in Gl.
      unfold account_inv, open_primary.
      cbn [holding capital cash entry_equity n_etf n_fut entry_etf_price].
      repeat split; assumption.
    + unfold account_inv, with_sizes. cbn [holding capital cash].
      rewrite Hh. unfold account_inv in Hinv. rewrite Hh in Hinv.
      exact Hinv.
Qed.

Lemma step_account_inv (st st' : State) (row : Row) :
  step cfg st row = Ok st' ->
  account_inv (account st) -> account_inv (account st').
Proof.
  unfold step. intros H Hinv.
  bind_in H p1 E1. destruct p1 as [b3 pnls1].
  bind_in H p2 E2. destruct p2 as [[a1 pnls2] act1].
  bind_in H p3 E3. destruct p3 as [a2 act2].
  bind_in H r E4. inversion H; subst; cbn [account].
  apply (enter_primary_account_inv _ _ _ _ _ E3).
  apply (exit_primary_account_inv _ _ _ _ _ _ E2 Hinv).
Qed.

Lemma run_days_account_inv (rows : list Row) :
  forall st st',
    run_days cfg st rows = Ok st' ->
    account_inv (account st) -> account_inv (account st').
Proof.
  induction rows as [| row rows IH]; intros st st' H Hinv;
    cbn [run_days] in H.
  - inversion H; subst. exact Hinv.
  - bind_in H st1 E. apply (IH st1 st' H).
    apply (step_account_inv _ _ _ E Hinv).
Qed.

End ReachFacts.

(** X1.  In every state that the loop reaches from the initial state, the
    capital is the cash when the account is flat; when a position is held
    the capital is its entry equity, the entry equity is the cash plus the
    ETF units valued at their entry price, and the unit and lot counts are
    strictly positive. *)
Theorem reachable_account_invariant :
  forall (cfg : Backtest.Config) (rows : list Backtest.Row)
         (st : Backtest.State),
    Backtest.run_days cfg (Backtest.initial_state cfg) rows = Ok st ->
    Reach.account_inv (Backtest.account st).
Proof.
  intros cfg rows st H.
  apply (run_days_account_inv cfg rows _ _ H). reflexivity.
Qed.

(** The state after the first day of the two-day frame holds a position. *)
Lemma reachable_account_invariant_witness :
  exists st,
    Backtest.run_days Backtest.default_config
      (Backtest.initial_state Backtest.default_config)
      (firstn 1 Examples.reopen_rows) = Ok st
    /\ Backtest.holding (Backtest.account st) = true
    /\ Reach.account_inv (Backtest.account st).
Proof.
  destruct (Backtest.run_days Backtest.default_config
              (Backtest.initial_state Backtest.default_config)
              (firstn 1 Examples.reopen_rows)) as [st |] eqn:E;
    [| vm_compute in E; discriminate E].
  exists st. split; [reflexivity |].
  split; [vm_compute in E; inversion E; reflexivity |].
  exact (reachable_account_invariant _ _ _ E).
Defined.

(** ** Rounding *)

Lemma Qcompare_lt (x y : Q) : x < y -> Qcompare x y = Lt.
Proof. intro H. exact (proj1 (Qlt_alt x y) H). Qed.


Lemma rint_le_0 (x : Q) : x <= 1 # 2 -> (rint x <= 0)%Z.
Proof.
  intro Hx. pose proof (Qfloor_le x) as Hlo.
  pose proof (Qlt_floor x) as Hhi. rewrite inject_Z_succ in Hhi.
  assert (Hf : (Qfloor x <= 0)%Z).
  { apply Qfloor_resp_le in Hx. revert Hx.
    change (Qfloor (1 # 2)) with 0%Z. auto. }
  unfold rint.
  destruct (Qcompare (x - inject_Z (Qfloor x)) (1 # 2)) eqn:E.
  - apply Qeq_alt in E. destruct (Z.even (Qfloor x)) eqn:Ev; [exact Hf |].
    assert (Hne : Qfloor x <> 0%Z) by (intro H0; rewrite H0 in Ev; discriminate).
    lia.
  - exact Hf.
  - apply Qgt_alt in E.
    assert (Hne : Qfloor x <> 0%Z).
    { intro H0. rewrite H0 in E.
      change (inject_Z 0) with 0 in E. lra. }
    lia.
Qed.


(** ** The hedge ratio and its frame *)

Lemma overflow_finite (q : Q) :
  is_finite q = true -> overflow (Fin q) = Fin q.
Proof. intro H. unfold overflow. rewrite H. reflexivity. Qed.

Lemma finite_quotient_parts (dur ctd cf close : Q) :
  Dv01.finite_quotient dur ctd cf close = true ->
  is_finite (close * dur) = true
  /\ is_finite (close * dur * 0.0001) = true
  /\ is_finite (ctd / cf) = true
  /\ is_finite (ctd / cf * 10000) = true
  /\ is_finite (Dv01.dv01_quotient dur ctd cf close) = true.
Proof.
  unfold Dv01.finite_quotient. intro H.
  repeat (apply andb_true_iff in H; destruct H as [H ?]). auto.
Qed.

Lemma fut_dv01_of_finite (ctd cf : Q) :
  ~ cf == 0 ->
  is_finite (ctd / cf) = true -> is_finite (ctd / cf * 10000) = true ->
  Dv01.fut_dv01_of ctd cf = Ok (Fin (ctd / cf * 10000)).
Proof.
  intros Hcf H1 H2. unfold Dv01.fut_dv01_of.
  rewrite (py_div_ok _ _ Hcf). cbn [bind].
  rewrite (overflow_finite _ H1). cbn [fmul].
  rewrite (overflow_finite _ H2). reflexivity.
Qed.

Lemma etf_dv01_of_finite (dur close : Q) :
  is_finite (close * dur) = true ->
  is_finite (close * dur * 0.0001) = true ->
  Dv01.etf_dv01_of dur close = Fin (close * dur * 0.0001).
Proof.
  intros H1 H2. unfold Dv01.etf_dv01_of. cbn [fmul].
  rewrite (overflow_finite _ H1). cbn [fmul].
  rewrite (overflow_finite _ H2). reflexivity.
Qed.

Lemma rint_astype_int_finite (a b : Q) :
  ~ b == 0 -> is_finite (a / b) = true ->
  Dv01.rint_astype_int (Fin a) (Fin b) = Ok (Dv01.to_int64 (rint (a / b))).
Proof.
  intros Hb Hfin. unfold Dv01.rint_astype_int. cbn [fdiv].
  destruct (Qeq_bool b 0) eqn:E;
    [apply Qeq_bool_eq in E; contradiction |].
  rewrite (overflow_finite _ Hfin). reflexivity.
Qed.

Lemma fut_dv01_nonzero (ctd cf : Q) :
  ~ cf == 0 -> ~ ctd == 0 -> ~ ctd / cf * 10000 == 0.
Proof.
  intros Hcf Hctd H. apply (Qdiv_nonzero ctd cf Hctd Hcf).
  apply Qmult_integral in H. destruct H as [H | H]; [exact H |].
  discriminate H.
Qed.

(** The frame returned when nothing leaves the range of [float64]. *)
Lemma calculate_dv01_metrics_rows (df : list Dv01.Quote)
    (dur ctd cf : Q) :
  ~ cf == 0 -> ~ ctd == 0 ->
  (forall r, In r df ->
     Dv01.finite_quotient dur ctd cf (Dv01.close_etf r) = true) ->
  Dv01.calculate_dv01_metrics df dur ctd cf
  = Ok (map (Dv01Rows.row_metrics dur ctd cf) df).
Proof.
  intros Hcf Hctd Hfin. unfold Dv01.calculate_dv01_metrics.
  destruct df as [| r0 df].
  - unfold Dv01.fut_dv01_of. rewrite (py_div_ok _ _ Hcf). reflexivity.
  - destruct (finite_quotient_parts _ _ _ _ (Hfin r0 (or_introl eq_refl)))
      as [_ [_ [F3 [F4 _]]]].
    rewrite (fut_dv01_of_finite ctd cf Hcf F3 F4). cbn [bind].
    apply mapM_ok. intros r Hr.
    destruct (finite_quotient_parts _ _ _ _ (Hfin r Hr))
      as [F1 [F2 [_ [_ F5]]]].
    unfold Dv01.metrics_of_row.
    rewrite (etf_dv01_of_finite dur _ F1 F2).
    rewrite (rint_astype_int_finite _ _ (fut_dv01_nonzero ctd cf Hcf Hctd) F5).
    reflexivity.
Qed.




(** ** Trade outcomes, the base book, and days that open nothing *)

Section OutcomeFacts.
Import Backtest Reach.

Variable cfg : Config.

Ltac bind_in H x E :=
  match type of H with
  | bind ?m _ = Ok _ =>
      destruct m as [x |] eqn:E; cbn [bind] in H; [| discriminate H]
  end.

Lemma exit_alpha_appends (row : Row) (c : Q) (b b' : Books)
    (pnls pnls' : list Q) :
  exit_alpha cfg row c b pnls = Ok (b', pnls') ->
  exists l, pnls' = pnls ++ l /\ (List.length l <= 1)%nat
            /\ base_book b' = base_book b.
Proof.
  unfold exit_alpha. intro H.
  assert (Hsame : exists l, pnls = pnls ++ l /\ (List.length l <= 1)%nat
                            /\ base_book b = base_book b).
  { exists []. rewrite app_nil_r. simpl. auto. }
  destruct (entry_equity_alpha b) as [basis |];
    [| inversion H; subst; exact Hsame].
  destruct ((0 <? alpha_etf_units b)%Z && negb (Qeq_bool basis 0));
    [| inversion H; subst; exact Hsame].
  bind_in H rate E.
  destruct (Qgeb rate (stop_gain cfg) || Qleb rate (- stop_loss cfg));
    inversion H; subst; [| exact Hsame].
  exists [rate]. simpl. auto.
Qed.

Lemma exit_primary_appends (row : Row) (a a1 : Account)
    (pnls pnls1 : list Q) (act : Z) :
  exit_primary cfg row a pnls = Ok (a1, pnls1, act) ->
  exists l, pnls1 = pnls ++ l /\ (List.length l <= 1)%nat.
Proof.
  unfold exit_primary. intro H.
  assert (Hsame : exists l, pnls = pnls ++ l /\ (List.length l <= 1)%nat).
  { exists []. rewrite app_nil_r. simpl. auto. }
  destruct (holding a); [| inversion H; subst; exact Hsame].
  bind_in H rate E.
  destruct (exit_condition cfg row rate); inversion H; subst;
    [| exact Hsame].
  exists [rate]. simpl. auto.
Qed.

Lemma step_appends_outcomes (st st' : State) (row : Row) :
  step cfg st row = Ok st' ->
  exists l, realized_pnls st' = realized_pnls st ++ l
            /\ (List.length l <= 2)%nat.
Proof.
  unfold step. intro H.
  bind_in H p1 E1. destruct p1 as [b3 pnls1].
  bind_in H p2 E2. destruct p2 as [[a1 pnls2] act1].
  bind_in H p3 E3. destruct p3 as [a2 act2].
  bind_in H r E4. inversion H; subst; cbn [realized_pnls].
  destruct (exit_alpha_appends _ _ _ _ _ _ E1) as [l1 [-> [H1 _]]].
  destruct (exit_primary_appends _ _ _ _ _ _ E2) as [l2 [-> H2]].
  exists (l1 ++ l2). rewrite app_assoc, length_app. split; [reflexivity | lia].
Qed.

Lemma run_days_appends_outcomes (rows : list Row) :
  forall st st',
    run_days cfg st rows = Ok st' ->
    exists l, realized_pnls st' = realized_pnls st ++ l
              /\ (List.length l <= 2 * List.length rows)%nat.
Proof.
  induction rows as [| row rows IH]; intros st st' H; cbn [run_days] in H.
  - inversion H; subst. exists []. rewrite app_nil_r. simpl. auto.
  - bind_in H st1 E.
    destruct (step_appends_outcomes _ _ _ E) as [l1 [Hl1 Hn1]].
    destruct (IH st1 st' H) as [l2 [Hl2 Hn2]].
    exists (l1 ++ l2). rewrite Hl2, Hl1, app_assoc, length_app.
    split; [reflexivity |]. cbn [List.length]. lia.
Qed.

(** *** The base book *)

Lemma build_base_built (row : Row) (b : Books) :
  base_built b = true -> build_base row b = b.
Proof. intro H. unfold build_base. rewrite H. reflexivity. Qed.

Lemma accumulate_alpha_base (row : Row) (c : Q) (b : Books) :
  base_book (accumulate_alpha cfg row c b) = base_book b.
Proof.
  unfold accumulate_alpha.
  destruct (nan_lt (signal_today row) (alpha_entry_threshold cfg)
            && Qgtb (hedge_ratio row) 0); [| reflexivity].
  destruct (alpha_etf_units b <? 2 * base_etf_units b)%Z; reflexivity.
Qed.

Lemma step_base_book (st st' : State) (row : Row) :
  step cfg st row = Ok st' ->
  base_book (books st') = base_book (build_base row (books st)).
Proof.
  unfold step. intro H.
  bind_in H p1 E1. destruct p1 as [b3 pnls1].
  bind_in H p2 E2. destruct p2 as [[a1 pnls2] act1].
  bind_in H p3 E3. destruct p3 as [a2 act2].
  bind_in H r E4. inversion H; subst; cbn [books].
  destruct (exit_alpha_appends _ _ _ _ _ _ E1) as [l1 [_ [_ Hb]]].
  rewrite Hb. apply accumulate_alpha_base.
Qed.

Lemma run_days_base_book_kept (rows : list Row) :
  forall st st',
    run_days cfg st rows = Ok st' ->
    base_built (books st) = true ->
    base_book (books st') = base_book (books st).
Proof.
  induction rows as [| row rows IH]; intros st st' H Hb; cbn [run_days] in H.
  - inversion H; subst. reflexivity.
  - bind_in H st1 E. pose proof (step_base_book _ _ _ E) as Hstep.
    rewrite (build_base_built row _ Hb) in Hstep.
    rewrite (IH st1 st' H).
    + exact Hstep.
    + unfold base_book in Hstep. injection Hstep as H1 _ _.
      rewrite H1. exact Hb.
Qed.

(** *** Days that open nothing *)

Lemma step_inert (st : State) (row : Row) :
  ~ initial_capital cfg == 0 ->
  inert cfg row = true ->
  books st = books (initial_state cfg) ->
  account st = account (initial_state cfg) ->
  step cfg st row
  = Ok {| books := books (initial_state cfg);
          account := account (initial_state cfg);
          realized_pnls := realized_pnls st;
          records := records st ++ [flat_record cfg row] |}.
Proof.
  intros Hcap Hin Hb Ha. unfold step. rewrite Hb, Ha.
  unfold inert in Hin.
  assert (Hbase : build_base row (books (initial_state cfg))
                  = books (initial_state cfg)).
  { unfold build_base, Qgtb, Qltb, Qleb in *.
    destruct (Qle_bool (hedge_ratio row) 0);
      destruct (nan_gt (signal_today row) 0);
      destruct (nan_lt (signal_today row) (alpha_entry_threshold cfg));
      cbn [negb andb orb] in *;
      rewrite ?andb_false_r; try reflexivity; discriminate Hin. }
  rewrite Hbase.
  assert (Halpha : accumulate_alpha cfg row
                     (cash (account (initial_state cfg)))
                     (books (initial_state cfg))
                   = books (initial_state cfg)).
  { unfold accumulate_alpha, Qgtb, Qltb, Qleb in *.
    destruct (Qle_bool (hedge_ratio row) 0);
      destruct (nan_gt (signal_today row) 0);
      destruct (nan_lt (signal_today row) (alpha_entry_threshold cfg));
      cbn [negb andb orb] in *;
      rewrite ?andb_false_r; try reflexivity; discriminate Hin. }
  rewrite Halpha.
  assert (Henter : forall act,
             enter_primary cfg row (account (initial_state cfg)) act
             = Ok (account (initial_state cfg), act)).
  { intro act. unfold enter_primary, Qgtb, Qltb, Qleb in *.
    cbn [initial_state account holding negb andb].
    destruct (Qle_bool (hedge_ratio row) 0);
      destruct (nan_gt (signal_today row) 0);
      destruct (nan_lt (signal_today row) (alpha_entry_threshold cfg));
      cbn [negb andb orb] in *;
      rewrite ?orb_true_r; try reflexivity; discriminate Hin. }
  cbn [exit_alpha initial_state books account entry_equity_alpha bind
       exit_primary holding] in *.
  rewrite Henter. cbn [bind]. unfold mark_and_record.
  cbn [holding cash]. rewrite (py_div_ok _ _ Hcap). reflexivity.
Qed.

Lemma run_days_inert (rows : list Row) :
  ~ initial_capital cfg == 0 ->
  forallb (inert cfg) rows = true ->
  forall st,
    books st = books (initial_state cfg) ->
    account st = account (initial_state cfg) ->
    run_days cfg st rows
    = Ok {| books := books (initial_state cfg);
            account := account (initial_state cfg);
            realized_pnls := realized_pnls st;
            records := records st ++ map (flat_record cfg) rows |}.
Proof.
  intros Hcap. induction rows as [| row rows IH]; intros Hall st Hb Ha.
  - cbn [run_days map]. rewrite app_nil_r. destruct st as [b a p r].
    cbn [books account] in Hb, Ha. subst. reflexivity.
  - cbn [forallb] in Hall. apply andb_true_iff in Hall.
    destruct Hall as [Hrow Hrest]. cbn [run_days].
    rewrite (step_inert st row Hcap Hrow Hb Ha). cbn [bind].
    rewrite (IH Hrest); [| reflexivity | reflexivity].
    cbn [realized_pnls records map]. rewrite <- app_assoc. reflexivity.
Qed.

End OutcomeFacts.

(** X3.  The list of trade outcomes only grows: the list after a run is
    the list before it followed by the outcomes of the run, of which there
    are at most two per day (one close of the alpha book, one close of the
    primary position). *)
Theorem trade_outcomes_append_only :
  forall (cfg : Backtest.Config) (st st' : Backtest.State)
         (rows : list Backtest.Row),
    Backtest.run_days cfg st rows = Ok st' ->
    exists l,
      Backtest.realized_pnls st' = Backtest.realized_pnls st ++ l
      /\ (List.length l <= 2 * List.length rows)%nat.
Proof.
  intros cfg st st' rows H.
  exact (run_days_appends_outcomes cfg rows st st' H).
Qed.

Lemma trade_outcomes_append_only_witness :
  exists st' l,
    Backtest.run_days Backtest.default_config
      (Backtest.initial_state Backtest.default_config)
      Examples.reopen_rows = Ok st'
    /\ Backtest.realized_pnls st' = [] ++ l
    /\ (List.length l <= 2 * 2)%nat.
Proof.
  destruct (Backtest.run_days Backtest.default_config
              (Backtest.initial_state Backtest.default_config)
              Examples.reopen_rows) as [st' |] eqn:E;
    [| vm_compute in E; discriminate E].
  destruct (trade_outcomes_append_only _ _ _ _ E) as [l [Hl Hn]].
  exists st', l. split; [reflexivity |]. split; [exact Hl | exact Hn].
Defined.

(** X4.  Once the base book is built it is never touched again: from any
    state whose base book is built, a run of any rows ends with the same
    built flag, ETF units and futures lots of the base book. *)
Theorem base_book_never_changes_once_built :
  forall (cfg : Backtest.Config) (st st' : Backtest.State)
         (rows : list Backtest.Row),
    Backtest.run_days cfg st rows = Ok st' ->
    Backtest.base_built (Backtest.books st) = true ->
    Backtest.base_built (Backtest.books st') = true
    /\ Backtest.base_etf_units (Backtest.books st')
       = Backtest.base_etf_units (Backtest.books st)
    /\ Backtest.base_fut_units (Backtest.books st')
       = Backtest.base_fut_units (Backtest.books st).
Proof.
  intros cfg st st' rows H Hb.
  pose proof (run_days_base_book_kept cfg rows st st' H Hb) as Hk.
  unfold Reach.base_book in Hk. injection Hk as H1 H2 H3.
  rewrite H1, H2, H3. auto.
Qed.

Lemma base_book_never_changes_once_built_witness :
  exists st st',
    Backtest.run_days Backtest.default_config
      (Backtest.initial_state Backtest.default_config)
      (firstn 1 Examples.alpha_rows) = Ok st
    /\ Backtest.run_days Backtest.default_config st
         (skipn 1 Examples.alpha_rows) = Ok st'
    /\ Backtest.base_built (Backtest.books st) = true
    /\ Backtest.base_fut_units (Backtest.books st')
       = Backtest.base_fut_units (Backtest.books st).
Proof.
  destruct (Backtest.run_days Backtest.default_config
              (Backtest.initial_state Backtest.default_config)
              (firstn 1 Examples.alpha_rows)) as [st |] eqn:E;
    [| vm_compute in E; discriminate E].
  destruct (Backtest.run_days Backtest.default_config st
              (skipn 1 Examples.alpha_rows)) as [st' |] eqn:E';
    [| vm_compute in E; inversion E; subst; vm_compute in E';
       discriminate E'].
  assert (Hb : Backtest.base_built (Backtest.books st) = true)
    by (vm_compute in E; inversion E; reflexivity).
  exists st, st'. split; [reflexivity |]. split; [exact E' |].
  split; [exact Hb |].
  exact (proj2 (proj2 (base_book_never_changes_once_built _ _ _ _ E' Hb))).
Defined.

(** X6.  With a non-zero initial capital, a run all of whose rows open
    nothing (hedge ratio missing or not positive, or signal neither
    positive nor below the alpha threshold) never trades: it ends in the
    initial books and account with no trade outcome, and its ledger has,
    for every row, position flag 0, trade flag 0 and an equity equal to
    the initial capital. *)
Theorem inert_rows_leave_account_untouched :
  forall (cfg : Backtest.Config) (rows : list Backtest.Row),
    ~ Backtest.initial_capital cfg == 0 ->
    forallb (Reach.inert cfg) rows = true ->
    Backtest.run_days cfg (Backtest.initial_state cfg) rows
    = Ok {| Backtest.books := Backtest.books (Backtest.initial_state cfg);
            Backtest.account :=
              Backtest.account (Backtest.initial_state cfg);
            Backtest.realized_pnls := [];
            Backtest.records := map (Reach.flat_record cfg) rows |}.
Proof.
  intros cfg rows Hcap Hall.
  rewrite (run_days_inert cfg rows Hcap Hall); reflexivity.
Qed.

Lemma inert_rows_leave_account_untouched_witness :
  ~ Backtest.initial_capital Backtest.default_config == 0
  /\ forallb (Reach.inert Backtest.default_config) Examples.quiet_rows = true
  /\ Backtest.run_days Backtest.default_config
       (Backtest.initial_state Backtest.default_config) Examples.quiet_rows
     = Ok {| Backtest.books :=
               Backtest.books (Backtest.initial_state Backtest.default_config);
             Backtest.account :=
               Backtest.account
                 (Backtest.initial_state Backtest.default_config);
             Backtest.realized_pnls := [];
             Backtest.records :=
               map (Reach.flat_record Backtest.default_config)
                   Examples.quiet_rows |}.
Proof.
  assert (Hcap : ~ Backtest.initial_capital Backtest.default_config == 0)
    by (intro H; vm_compute in H; discriminate H).
  assert (Hall : forallb (Reach.inert Backtest.default_config)
                   Examples.quiet_rows = true) by reflexivity.
  split; [exact Hcap |]. split; [exact Hall |].
  exact (inert_rows_leave_account_untouched Backtest.default_config
           Examples.quiet_rows Hcap Hall).
Defined.

(** ** The prepared frame *)

Section FrameFacts.
Import Backtest Reach.

Lemma In_insert_by_date (r x : MarketDay) (l : list MarketDay) :
  In x (insert_by_date r l) <-> x = r \/ In x l.
Proof.
  induction l as [| y l IH]; cbn [insert_by_date].
  - simpl. intuition.
  - destruct (date r <=? date y)%Z; simpl in *; intuition.
Qed.

Lemma In_sort_values_date (x : MarketDay) (df : list MarketDay) :
  In x (sort_values_date df) <-> In x df.
Proof.
  unfold sort_values_date. induction df as [| d df IH]; cbn [fold_right].
  - reflexivity.
  - rewrite In_insert_by_date, IH. simpl. intuition.
Qed.

Lemma In_merge_hedge_ratio (df : list MarketDay) (dv : list Dv01.Metrics)
    (d : MarketDay) (c : option Z) :
  In (d, c) (merge_hedge_ratio df dv) ->
  In d df
  /\ (c = None \/ exists m, In m dv /\ c = Some (Dv01.hedge_ratio m)).
Proof.
  unfold merge_hedge_ratio. rewrite in_flat_map.
  intros [d0 [Hd0 Hin]].
  destruct (filter (fun m => (Dv01.m_date m =? date d0)%Z) dv)
    as [| m ms] eqn:F.
  - destruct Hin as [Hin | []]. inversion Hin; subst. auto.
  - apply in_map_iff in Hin. destruct Hin as [m' [Heq Hm']].
    inversion Heq; subst. split; [exact Hd0 |]. right. exists m'.
    split; [| reflexivity].
    assert (Hf : In m' (filter (fun m => (Dv01.m_date m =? date d)%Z) dv))
      by (rewrite F; exact Hm').
    apply filter_In in Hf. exact (proj1 Hf).
Qed.

Lemma In_make_rows (merged : list (MarketDay * option Z))
    (signal : list (option Q)) (row : Row) :
  In row (make_rows merged signal) ->
  In (day row, hedge_ratio_cell row) merged.
Proof.
  unfold make_rows. rewrite in_map_iff. intros [[[d c] s] [Heq Hin]].
  subst row. cbn [day hedge_ratio_cell fst snd].
  exact (in_combine_l _ _ _ _ Hin).
Qed.

Lemma signal_today_col_total (pred_col : string) (col : list (option Q))
    (n : Z) :
  Signal.pred_shift pred_col = Ok n -> (n <= 2 ^ 63)%Z ->
  exists signal, Signal.signal_today_col pred_col col = Ok signal.
Proof.
  intros Hn Hmax. unfold Signal.signal_today_col. rewrite Hn. cbn [bind].
  destruct (0 <? n)%Z; [| eauto].
  apply shift_minus_total. left. exact Hmax.
Qed.

End FrameFacts.

Section QuietFrameFacts.
Import Backtest Reach Prepared.

Lemma ctd_dv01_nonzero : ~ ctd_dv01 == 0.
Proof. intro H. vm_compute in H. discriminate H. Qed.

Lemma prepare_rows (df : list MarketDay) (pred_col : string) (cfg : Config)
    (signal : list (option Q)) :
  ~ conversion_factor cfg == 0 ->
  (forall d, In d df -> finite_day cfg d = true) ->
  Signal.signal_today_col pred_col
    (map (fun p => pred (fst p)) (merged_frame cfg df)) = Ok signal ->
  prepare df pred_col cfg = Ok (make_rows (merged_frame cfg df) signal).
Proof.
  intros Hcf Hfin Hsig. unfold prepare.
  rewrite (calculate_dv01_metrics_rows _ _ _ _ Hcf ctd_dv01_nonzero).
  - cbn [bind]. unfold rows_of. fold (merged_frame cfg df).
    rewrite Hsig. reflexivity.
  - intros r Hr. apply in_map_iff in Hr. destruct Hr as [d [<- Hd]].
    apply (proj1 (In_sort_values_date d df)) in Hd.
    exact (Hfin d Hd).
Qed.

Lemma to_int64_le_0 (z : Z) : (z <= 0)%Z -> (Dv01.to_int64 z <= 0)%Z.
Proof.
  intro H. unfold Dv01.to_int64. destruct (fits_int64 z); [exact H |].
  unfold int64_min. lia.
Qed.

Lemma low_close_rows_inert (df : list MarketDay) (cfg : Config)
    (signal : list (option Q)) (row : Row) :
  (forall d, In d df -> low_close cfg d = true) ->
  In row (make_rows (merged_frame cfg df) signal) ->
  inert cfg row = true.
Proof.
  intros Hlow Hrow. apply In_make_rows, In_merge_hedge_ratio in Hrow.
  destruct Hrow as [_ Hcell]. unfold inert.
  assert (Hle : Qleb (hedge_ratio row) 0 = true);
    [| rewrite Hle; reflexivity].
  apply Qleb_le. unfold hedge_ratio.
  destruct Hcell as [-> | [m [Hm ->]]]; [apply Qle_refl |].
  apply in_map_iff in Hm. destruct Hm as [q [<- Hq]].
  apply in_map_iff in Hq. destruct Hq as [d [<- Hd]].
  apply (proj1 (In_sort_values_date d df)) in Hd.
  cbn [Dv01Rows.row_metrics Dv01.hedge_ratio quote_of Dv01.close_etf].
  change 0 with (inject_Z 0). rewrite <- Zle_Qle.
  apply to_int64_le_0, rint_le_0.
  pose proof (Hlow d Hd) as H. unfold low_close in H.
  apply andb_true_iff in H. destruct H as [_ H]. apply Qleb_le in H.
  apply (Qle_trans _ 0.499); [exact H | discriminate].
Qed.

End QuietFrameFacts.

(** X7.  With a non-zero conversion factor and initial capital and a
    column name whose horizon is at most 2^63, a frame whose ETF closes
    all give, without overflow, a DV01 quotient of at most 0.499 has a
    hedge ratio of 0 or less on every row, and the back-test never trades
    on it: the frame is prepared, and the loop ends in the initial books
    and account with no trade outcome and a ledger that is flat at the
    initial capital. *)
Theorem low_closes_never_trade :
  forall (cfg : Backtest.Config) (df : list Backtest.MarketDay)
         (pred_col : string) (n : Z),
    ~ Backtest.conversion_factor cfg == 0 ->
    ~ Backtest.initial_capital cfg == 0 ->
    Signal.pred_shift pred_col = Ok n ->
    (n <= 2 ^ 63)%Z ->
    (forall d, In d df -> Prepared.low_close cfg d = true) ->
    exists rows,
      Backtest.prepare df pred_col cfg = Ok rows
      /\ Backtest.run_days cfg (Backtest.initial_state cfg) rows
         = Ok {| Backtest.books :=
                   Backtest.books (Backtest.initial_state cfg);
                 Backtest.account :=
                   Backtest.account (Backtest.initial_state cfg);
                 Backtest.realized_pnls := [];
                 Backtest.records := map (Reach.flat_record cfg) rows |}.
Proof.
  intros cfg df pred_col n Hcf Hcap Hn Hmax Hlow.
  destruct (signal_today_col_total pred_col
              (map (fun p => Backtest.pred (fst p))
                 (Prepared.merged_frame cfg df)) n Hn Hmax)
    as [signal Hsig].
  assert (Hfin : forall d, In d df -> Prepared.finite_day cfg d = true).
  { intros d Hd. pose proof (Hlow d Hd) as H. unfold Prepared.low_close in H.
    apply andb_true_iff in H. exact (proj1 H). }
  eexists. split; [apply (prepare_rows df pred_col cfg signal Hcf Hfin Hsig) |].
  rewrite (run_days_inert cfg _ Hcap); [reflexivity | | reflexivity
                                       | reflexivity].
  apply forallb_forall. intros row Hrow.
  exact (low_close_rows_inert df cfg signal row Hlow Hrow).
Qed.

(** An ETF at 100: the quotient is 0.000165. *)
Lemma low_closes_never_trade_witness :
  ~ Backtest.conversion_factor Backtest.default_config == 0
  /\ ~ Backtest.initial_capital Backtest.default_config == 0
  /\ Signal.pred_shift "pred_5d" = Ok 5%Z
  /\ (5 <= 2 ^ 63)%Z
  /\ (forall d, In d Examples.quiet_frame ->
        Prepared.low_close Backtest.default_config d = true)
  /\ exists rows,
       Backtest.prepare Examples.quiet_frame "pred_5d"
         Backtest.default_config = Ok rows
       /\ Backtest.run_days Backtest.default_config
            (Backtest.initial_state Backtest.default_config) rows
          = Ok {| Backtest.books :=
                    Backtest.books
                      (Backtest.initial_state Backtest.default_config);
                  Backtest.account :=
                    Backtest.account
                      (Backtest.initial_state Backtest.default_config);
                  Backtest.realized_pnls := [];
                  Backtest.records :=
                    map (Reach.flat_record Backtest.default_config) rows |}.
Proof.
  assert (Hcf : ~ Backtest.conversion_factor Backtest.default_config == 0)
    by (intro H; vm_compute in H; discriminate H).
  assert (Hcap : ~ Backtest.initial_capital Backtest.default_config == 0)
    by (intro H; vm_compute in H; discriminate H).
  assert (Hn : Signal.pred_shift "pred_5d" = Ok 5%Z)
    by (vm_compute; reflexivity).
  assert (Hmax : (5 <= 2 ^ 63)%Z) by (vm_compute; discriminate).
  assert (Hlow : forall d, In d Examples.quiet_frame ->
            Prepared.low_close Backtest.default_config d = true).
  { intros d [<- | []]. vm_compute. reflexivity. }
  split; [exact Hcf |]. split; [exact Hcap |]. split; [exact Hn |].
  split; [exact Hmax |]. split; [exact Hlow |].
  exact (low_closes_never_trade Backtest.default_config
           Examples.quiet_frame "pred_5d" 5 Hcf Hcap Hn Hmax Hlow).
Defined.


(** * Further properties of the evaluator *)

Section CurveFacts.
Import Backtest Evaluator Curve.

Lemma filter_length_le {A : Type} (f : A -> bool) (l : list A) :
  (List.length (filter f l) <= List.length l)%nat.
Proof.
  induction l as [| a l IH]; simpl; [lia |].
  destruct (f a); simpl; lia.
Qed.

Lemma filter_all {A : Type} (f : A -> bool) (l : list A) :
  forallb f l = true -> filter f l = l.
Proof.
  induction l as [| a l IH]; simpl; [reflexivity |].
  intro H. apply andb_true_iff in H. destruct H as [Ha Hl].
  rewrite Ha, (IH Hl). reflexivity.
Qed.

Lemma filter_none {A : Type} (f : A -> bool) (l : list A) :
  forallb (fun a => negb (f a)) l = true -> filter f l = [].
Proof.
  induction l as [| a l IH]; simpl; [reflexivity |].
  intro H. apply andb_true_iff in H. destruct H as [Ha Hl].
  apply negb_true_iff in Ha. rewrite Ha. exact (IH Hl).
Qed.

Lemma inject_nat_pos (n : nat) : (0 < n)%nat -> 0 < inject_Z (Z.of_nat n).
Proof.
  intro H. change 0 with (inject_Z 0). rewrite <- Zlt_Qlt. lia.
Qed.

Lemma inject_nat_le (n m : nat) :
  (n <= m)%nat -> inject_Z (Z.of_nat n) <= inject_Z (Z.of_nat m).
Proof. intro H. rewrite <- Zle_Qle. lia. Qed.

Lemma pct_change_from_length (prev : Q) (l : list Q) :
  List.length (pct_change_from prev l) = List.length l.
Proof.
  revert prev. induction l as [| x l IH]; intro prev; simpl;
    [reflexivity | rewrite IH; reflexivity].
Qed.

Lemma strategy_ret_of_length (l : list Q) :
  List.length (strategy_ret_of l) = List.length l.
Proof.
  unfold strategy_ret_of, fillna. rewrite length_map.
  destruct l as [| x l]; simpl; [reflexivity |].
  rewrite pct_change_from_length. reflexivity.
Qed.

Lemma fill_return (a b : Q) :
  (if is_nan (fsub (fdiv (Fin b) (Fin a)) (Fin 1)) then Fin 0
   else fsub (fdiv (Fin b) (Fin a)) (Fin 1))
  = daily_return a b.
Proof.
  unfold daily_return, fdiv, inf_signed.
  destruct (Qeq_bool a 0); [| reflexivity].
  destruct (Qltb 0 b); [reflexivity |].
  destruct (Qltb b 0); reflexivity.
Qed.

Lemma pct_change_from_nth (l : list Q) :
  forall prev i b,
    nth_error l i = Some b ->
    nth_error (fillna 0 (pct_change_from prev l)) i
    = Some (daily_return (match i with
                          | O => prev
                          | S j => nth j l 0
                          end) b).
Proof.
  induction l as [| x l IH]; intros prev i b Hi.
  - destruct i; discriminate Hi.
  - destruct i as [| i]; cbn [nth_error] in Hi.
    + inversion Hi; subst. cbn [pct_change_from fillna map nth_error].
      rewrite fill_return. reflexivity.
    + cbn [pct_change_from fillna map nth_error].
      change (map (fun x0 => if is_nan x0 then Fin 0 else x0)
                (pct_change_from x l))
        with (fillna 0 (pct_change_from x l)).
      rewrite (IH x i b Hi). destruct i; reflexivity.
Qed.

Lemma combine_fst {A B : Type} (l : list A) (l' : list B) :
  List.length l = List.length l' -> map fst (combine l l') = l.
Proof.
  revert l'. induction l as [| a l IH]; intros [| b l'] H; simpl in *;
    try discriminate; [reflexivity |].
  rewrite IH by lia. reflexivity.
Qed.

Lemma combine_snd {A B : Type} (l : list A) (l' : list B) :
  List.length l = List.length l' -> map snd (combine l l') = l'.
Proof.
  revert l'. induction l as [| a l IH]; intros [| b l'] H; simpl in *;
    try discriminate; [reflexivity |].
  rewrite IH by lia. reflexivity.
Qed.

End CurveFacts.

(** X9.  For a ledger with at least one record, the frame returned by the
    evaluator has the records in their order with the column of daily
    returns beside them.  The return of the first day is 0.  The return of
    a later day is equity / previous equity - 1 when the previous equity
    is not zero; when it is zero the return is plus or minus infinity
    according to the sign of the equity of the day, and 0 when that equity
    is zero too (the [NaN] of 0 / 0 is filled with 0, an infinity is
    not). *)
Theorem daily_returns_of_the_ledger :
  forall (fpow : fval -> fval -> fval) (fsqrt : fval -> fval)
         (initial : Q) (r : Backtest.DailyRecord)
         (recs : list Backtest.DailyRecord) (pnls : list Q),
    let ledger := r :: recs in
    let equity_col := map Backtest.equity ledger in
    exists frame metrics,
      Evaluator.evaluate fpow fsqrt initial ledger pnls
      = Ok (frame, metrics, pnls)
      /\ map fst frame = ledger
      /\ nth_error (map snd frame) 0 = Some (Fin 0)
      /\ forall i a b,
           nth_error equity_col i = Some a ->
           nth_error equity_col (S i) = Some b ->
           nth_error (map snd frame) (S i) = Some (Curve.daily_return a b).
Proof.
  intros fpow fsqrt initial r recs pnls ledger equity_col.
  exists (combine ledger (Evaluator.strategy_ret_of equity_col)),
         (Evaluator.metrics_of fpow fsqrt initial ledger pnls).
  assert (Hlen : List.length ledger
                 = List.length (Evaluator.strategy_ret_of equity_col)).
  { rewrite strategy_ret_of_length. unfold equity_col.
    rewrite length_map. reflexivity. }
  split; [apply evaluate_records; discriminate |].
  split; [apply combine_fst; exact Hlen |].
  rewrite (combine_snd _ _ Hlen).
  split; [reflexivity |].
  intros i a b Ha Hb. unfold equity_col, ledger in *.
  cbn [map] in *. unfold Evaluator.strategy_ret_of.
  cbn [Evaluator.pct_change Evaluator.fillna map nth_error].
  cbn [nth_error] in Hb.
  change (map (fun x => if is_nan x then Fin 0 else x)
            (Evaluator.pct_change_from (Backtest.equity r)
               (map Backtest.equity recs)))
    with (Evaluator.fillna 0
            (Evaluator.pct_change_from (Backtest.equity r)
               (map Backtest.equity recs))).
  rewrite (pct_change_from_nth _ (Backtest.equity r) i b Hb).
  destruct i as [| j]; cbn [nth_error] in Ha.
  - inversion Ha; subst. reflexivity.
  - rewrite (nth_error_nth _ _ 0 Ha). reflexivity.
Qed.

(** X10.  The win rate of a non-empty list of trade outcomes is a number
    between 0 and 1; it is 1 when every outcome is strictly positive and 0
    when none is. *)
Theorem win_rate_between_zero_and_one :
  forall (p : Q) (rest : list Q),
    let pnls := p :: rest in
    exists w,
      Evaluator.win_rate_of pnls = Ok (Fin w)
      /\ 0 <= w /\ w <= 1
      /\ (forallb (fun pnl => Qgtb pnl 0) pnls = true -> w == 1)
      /\ (forallb (fun pnl => negb (Qgtb pnl 0)) pnls = true -> w == 0).
Proof.
  intros p rest pnls.
  exists (inject_Z (Z.of_nat (Evaluator.win_trades_of pnls))
          / inject_Z (Z.of_nat (List.length pnls))).
  assert (Hpos : 0 < inject_Z (Z.of_nat (List.length pnls)))
    by (apply inject_nat_pos; simpl; lia).
  assert (Hwins : (Evaluator.win_trades_of pnls <= List.length pnls)%nat)
    by apply filter_length_le.
  split; [exact (win_rate_of_value pnls) |].
  split; [| split; [| split]].
  - apply Qle_shift_div_l; [exact Hpos |]. rewrite Qmult_0_l.
    change 0 with (inject_Z 0). rewrite <- Zle_Qle. lia.
  - apply Qle_shift_div_r; [exact Hpos |]. rewrite Qmult_1_l.
    apply inject_nat_le, Hwins.
  - intro Hall. unfold Evaluator.win_trades_of.
    rewrite (filter_all _ _ Hall). field.
    intro H0. rewrite H0 in Hpos. exact (Qlt_irrefl 0 Hpos).
  - intro Hnone. unfold Evaluator.win_trades_of.
    rewrite (filter_none _ _ Hnone). cbn [List.length Z.of_nat].
    unfold Qdiv. apply Qmult_0_l.
Qed.

Section DrawdownFacts.
Import Backtest Evaluator Curve.

Lemma fold_min_in (l : list fval) (x : fval) :
  In (fold_left (fun m y => if fltb y m then y else m) l x) (x :: l).
Proof.
  revert x. induction l as [| y l IH]; intro x; cbn [fold_left].
  - left. reflexivity.
  - destruct (IH (if fltb y x then y else x)) as [H | H].
    + rewrite <- H. destruct (fltb y x); simpl; auto.
    + right. right. exact H.
Qed.

Lemma series_min_in (l : list fval) :
  l <> [] -> forallb (fun v => negb (is_nan v)) l = true ->
  In (series_min l) l.
Proof.
  intros Hne Hall. unfold series_min, dropna.
  rewrite (filter_all _ _ Hall).
  destruct l as [| x l]; [contradiction |]. apply fold_min_in.
Qed.

(** Every drawdown of the curve is a number that satisfies [P]. *)
Lemma max_drawdown_of_number (P : Q -> Prop) (x : Q) (l : list Q) :
  Forall (fun p => exists d, drawdown_of p = Fin d /\ P d)
         (combine (x :: l) (cummax (x :: l))) ->
  exists d, max_drawdown_of (x :: l) = Fin (Qabs d) /\ P d.
Proof.
  intro Hall. unfold max_drawdown_of.
  change (fun p : Q * Q => fsub (fdiv (Fin (fst p)) (Fin (snd p))) (Fin 1))
    with drawdown_of.
  set (dds := map drawdown_of (combine (x :: l) (cummax (x :: l)))).
  assert (Hdds : Forall (fun v => exists d, v = Fin d /\ P d) dds).
  { unfold dds. apply Forall_map. exact Hall. }
  assert (Hne : dds <> []) by (unfold dds; simpl; discriminate).
  assert (Hnan : forallb (fun v => negb (is_nan v)) dds = true).
  { apply forallb_forall. intros v Hv.
    rewrite Forall_forall in Hdds. destruct (Hdds v Hv) as [d [-> _]].
    reflexivity. }
  pose proof (series_min_in dds Hne Hnan) as Hin.
  rewrite Forall_forall in Hdds.
  destruct (Hdds _ Hin) as [d [Hd HP]].
  destruct dds as [| v vs] eqn:E; [contradiction |].
  rewrite Hd. exists d. split; [reflexivity | exact HP].
Qed.

Lemma drawdown_of_positive (x c : Q) :
  0 < x -> x <= c ->
  exists d, drawdown_of (x, c) = Fin d /\ - (1) < d /\ d <= 0.
Proof.
  intros Hx Hc. unfold drawdown_of, fdiv. cbn [fst snd].
  assert (Hcpos : 0 < c) by (apply (Qlt_le_trans _ x); assumption).
  destruct (Qeq_bool c 0) eqn:E.
  - apply Qeq_bool_eq in E. rewrite E in Hcpos.
    exfalso. exact (Qlt_irrefl 0 Hcpos).
  - eexists. split; [reflexivity |].
    assert (H0 : 0 < x / c) by (apply Qlt_shift_div_l;
                                [exact Hcpos | rewrite Qmult_0_l; exact Hx]).
    assert (H1 : x / c <= 1) by (apply Qle_shift_div_r;
                                 [exact Hcpos | rewrite Qmult_1_l; exact Hc]).
    split; lra.
Qed.

Lemma cummax_from_pairs (l : list Q) :
  forall m,
    Forall (fun x => 0 < x) l ->
    Forall (fun p => 0 < fst p /\ fst p <= snd p)
           (combine l (cummax_from m l)).
Proof.
  induction l as [| x l IH]; intros m Hpos; cbn [cummax_from combine].
  - constructor.
  - inversion Hpos; subst. constructor; [| apply IH; assumption].
    cbn [fst snd]. split; [assumption |].
    destruct (Qltb m x) eqn:E; [apply Qle_refl |].
    apply Qltb_ge in E. exact E.
Qed.

Lemma cummax_from_pairs_flat (l : list Q) :
  forall m m0,
    m == m0 -> 0 < m0 ->
    nondecreasing_from m0 l ->
    Forall (fun p => 0 < fst p /\ fst p == snd p)
           (combine l (cummax_from m l)).
Proof.
  induction l as [| x l IH]; intros m m0 Hm Hpos Hnd;
    cbn [cummax_from combine].
  - constructor.
  - destruct Hnd as [Hle Hrest].
    assert (Hx : 0 < x) by (apply (Qlt_le_trans _ m0); assumption).
    assert (Hmax : (if Qltb m x then x else m) == x).
    { destruct (Qltb m x) eqn:E; [reflexivity |].
      apply Qltb_ge in E. rewrite Hm in *. apply Qle_antisym; assumption. }
    constructor.
    + cbn [fst snd]. split; [exact Hx | symmetry; exact Hmax].
    + apply (IH _ x Hmax Hx Hrest).
Qed.

Lemma drawdown_of_flat (x c : Q) :
  0 < x -> x == c -> exists d, drawdown_of (x, c) = Fin d /\ d == 0.
Proof.
  intros Hx Hc. unfold drawdown_of, fdiv. cbn [fst snd].
  assert (Hcpos : 0 < c) by (rewrite <- Hc; exact Hx).
  destruct (Qeq_bool c 0) eqn:E.
  - apply Qeq_bool_eq in E. rewrite E in Hcpos.
    exfalso. exact (Qlt_irrefl 0 Hcpos).
  - eexists. split; [reflexivity |]. rewrite Hc. field.
    intro H0. rewrite H0 in Hcpos. exact (Qlt_irrefl 0 Hcpos).
Qed.

End DrawdownFacts.

(** X11.  For a ledger whose equities are all strictly positive, the
    maximal drawdown reported by the evaluator is a number between 0 and
    1. *)
Theorem max_drawdown_between_zero_and_one :
  forall (fpow : fval -> fval -> fval) (fsqrt : fval -> fval)
         (initial : Q) (r : Backtest.DailyRecord)
         (recs : list Backtest.DailyRecord) (pnls : list Q),
    let ledger := r :: recs in
    Forall (fun x => 0 < x) (map Backtest.equity ledger) ->
    exists frame metrics q,
      Evaluator.evaluate fpow fsqrt initial ledger pnls
      = Ok (frame, metrics, pnls)
      /\ Evaluator.lookup "max_drawdown" metrics
         = Some (Evaluator.MFloat (Fin q))
      /\ 0 <= q /\ q <= 1.
Proof.
  intros fpow fsqrt initial r recs pnls ledger Hpos.
  assert (Hpairs : Forall (fun p => exists d, Curve.drawdown_of p = Fin d
                                      /\ (- (1) < d /\ d <= 0))
                     (combine (map Backtest.equity ledger)
                        (Evaluator.cummax (map Backtest.equity ledger)))).
  { unfold ledger in *. cbn [map Evaluator.cummax combine] in *.
    inversion Hpos as [| x l Hx Hrest]; subst. constructor.
    - apply drawdown_of_positive; [exact Hx | apply Qle_refl].
    - pose proof (cummax_from_pairs _ (Backtest.equity r) Hrest) as Hp.
      rewrite Forall_forall in *. intros [x c] Hin.
      destruct (Hp _ Hin) as [H1 H2]. cbn [fst snd] in *.
      apply drawdown_of_positive; assumption. }
  unfold ledger in Hpairs. cbn [map] in Hpairs.
  destruct (max_drawdown_of_number _ _ _ Hpairs) as [d [Hd [Hlo Hhi]]].
  exists (combine ledger
            (Evaluator.strategy_ret_of (map Backtest.equity ledger))),
         (Evaluator.metrics_of fpow fsqrt initial ledger pnls), (Qabs d).
  split; [apply evaluate_records; discriminate |].
  split.
  - cbn [Evaluator.metrics_of Evaluator.lookup String.eqb Ascii.eqb
         Bool.eqb].
    unfold ledger. cbn [map]. rewrite Hd. reflexivity.
  - split; [apply Qabs_nonneg |].
    rewrite (Qabs_neg d Hhi). lra.
Qed.

(** Two flat days. *)
Lemma max_drawdown_between_zero_and_one_witness :
  Forall (fun x => 0 < x)
         (map Backtest.equity [Examples.flat_day; Examples.flat_day])
  /\ exists frame metrics q,
       Evaluator.evaluate (fun _ _ => NaN) (fun _ => NaN) 10000000
         [Examples.flat_day; Examples.flat_day] []
       = Ok (frame, metrics, [])
       /\ Evaluator.lookup "max_drawdown" metrics
          = Some (Evaluator.MFloat (Fin q))
       /\ 0 <= q /\ q <= 1.
Proof.
  assert (Hpos : Forall (fun x => 0 < x)
                   (map Backtest.equity
                      [Examples.flat_day; Examples.flat_day])).
  { repeat constructor. }
  split; [exact Hpos |].
  exact (max_drawdown_between_zero_and_one (fun _ _ => NaN) (fun _ => NaN)
           10000000 Examples.flat_day [Examples.flat_day] [] Hpos).
Defined.

(** X12.  For a ledger whose equities are strictly positive and never
    decrease from one day to the next (a single day included), the maximal
    drawdown is 0 and the Calmar ratio is not-a-number. *)
Theorem no_loss_gives_zero_drawdown_and_no_calmar :
  forall (fpow : fval -> fval -> fval) (fsqrt : fval -> fval)
         (initial : Q) (r : Backtest.DailyRecord)
         (recs : list Backtest.DailyRecord) (pnls : list Q),
    let ledger := r :: recs in
    0 < Backtest.equity r ->
    Curve.nondecreasing (map Backtest.equity ledger) ->
    exists frame metrics q,
      Evaluator.evaluate fpow fsqrt initial ledger pnls
      = Ok (frame, metrics, pnls)
      /\ Evaluator.lookup "max_drawdown" metrics
         = Some (Evaluator.MFloat (Fin q))
      /\ q == 0
      /\ Evaluator.lookup "calmar_ratio" metrics
         = Some (Evaluator.MFloat NaN).
Proof.
  intros fpow fsqrt initial r recs pnls ledger Hpos Hnd.
  assert (Hpairs : Forall (fun p => exists d, Curve.drawdown_of p = Fin d
                                      /\ d == 0)
                     (combine (map Backtest.equity ledger)
                        (Evaluator.cummax (map Backtest.equity ledger)))).
  { unfold ledger in *. cbn [map Evaluator.cummax combine] in *.
    cbn [Curve.nondecreasing] in Hnd. constructor.
    - apply drawdown_of_flat; [exact Hpos | reflexivity].
    - pose proof (cummax_from_pairs_flat _ (Backtest.equity r)
                    (Backtest.equity r) (Qeq_refl _) Hpos Hnd) as Hp.
      rewrite Forall_forall in *. intros [x c] Hin.
      destruct (Hp _ Hin) as [H1 H2]. cbn [fst snd] in *.
      apply drawdown_of_flat; assumption. }
  unfold ledger in Hpairs. cbn [map] in Hpairs.
  destruct (max_drawdown_of_number _ _ _ Hpairs) as [d [Hd Hzero]].
  assert (Hq : Qabs d == 0) by (rewrite Hzero; reflexivity).
  exists (combine ledger
            (Evaluator.strategy_ret_of (map Backtest.equity ledger))),
         (Evaluator.metrics_of fpow fsqrt initial ledger pnls), (Qabs d).
  split; [apply evaluate_records; discriminate |].
  split; [| split; [exact Hq |]].
  - cbn [Evaluator.metrics_of Evaluator.lookup String.eqb Ascii.eqb
         Bool.eqb].
    unfold ledger. cbn [map]. rewrite Hd. reflexivity.
  - cbn [Evaluator.metrics_of Evaluator.lookup String.eqb Ascii.eqb
         Bool.eqb].
    unfold ledger. cbn [map]. rewrite Hd.
    unfold Evaluator.calmar_ratio_of, fgtb. cbn [fltb].
    assert (Hle : Qltb 1e-8 (Qabs d) = false).
    { apply Qltb_ge. rewrite Hq. discriminate. }
    rewrite Hle. reflexivity.
Qed.

Lemma no_loss_gives_zero_drawdown_and_no_calmar_witness :
  0 < Backtest.equity Examples.flat_day
  /\ Curve.nondecreasing
       (map Backtest.equity [Examples.flat_day; Examples.flat_day])
  /\ exists frame metrics q,
       Evaluator.evaluate (fun _ _ => NaN) (fun _ => NaN) 10000000
         [Examples.flat_day; Examples.flat_day] []
       = Ok (frame, metrics, [])
       /\ Evaluator.lookup "max_drawdown" metrics
          = Some (Evaluator.MFloat (Fin q))
       /\ q == 0
       /\ Evaluator.lookup "calmar_ratio" metrics
          = Some (Evaluator.MFloat NaN).
Proof.
  assert (Hpos : 0 < Backtest.equity Examples.flat_day) by reflexivity.
  assert (Hnd : Curve.nondecreasing
                  (map Backtest.equity
                     [Examples.flat_day; Examples.flat_day])).
  { simpl. split; [discriminate | exact I]. }
  split; [exact Hpos |]. split; [exact Hnd |].
  exact (no_loss_gives_zero_drawdown_and_no_calmar
           (fun _ _ => NaN) (fun _ => NaN) 10000000 Examples.flat_day
           [Examples.flat_day] [] Hpos Hnd).
Defined.

(** * Further properties of the hedge ratio and of the failures *)

Section RatioFacts.


End RatioFacts.



(** X14.  A conversion factor equal to zero makes the whole function raise
    [ZeroDivisionError], for every frame (the empty one included), before
    any day is simulated: the division [ctd_dv01 / conversion_factor] of
    [calculate_dv01_metrics] is not guarded. *)
Theorem zero_conversion_factor_raises :
  forall (fpow : fval -> fval -> fval) (fsqrt : fval -> fval)
         (df : list Backtest.MarketDay) (pred_col : string)
         (cfg : Backtest.Config),
    Backtest.conversion_factor cfg == 0 ->
    Dv01.calculate_dv01_metrics
      (map Backtest.quote_of (Backtest.sort_values_date df))
      (Backtest.etf_duration cfg) Backtest.ctd_dv01
      (Backtest.conversion_factor cfg) = Raise ZeroDivisionError
    /\ Evaluator.backtest_spread_strategy fpow fsqrt df pred_col cfg
       = Raise ZeroDivisionError.
Proof.
  intros fpow fsqrt df pred_col cfg Hcf.
  assert (Hdv : Dv01.calculate_dv01_metrics
                  (map Backtest.quote_of (Backtest.sort_values_date df))
                  (Backtest.etf_duration cfg) Backtest.ctd_dv01
                  (Backtest.conversion_factor cfg) = Raise ZeroDivisionError).
  { unfold Dv01.calculate_dv01_metrics, Dv01.fut_dv01_of, py_div.
    apply Qeq_eq_bool in Hcf. rewrite Hcf. reflexivity. }
  split; [exact Hdv |].
  unfold Evaluator.backtest_spread_strategy, Backtest.prepare.
  rewrite Hdv. reflexivity.
Qed.

Lemma zero_conversion_factor_raises_witness :
  Backtest.conversion_factor Examples.no_factor_config == 0
  /\ Evaluator.backtest_spread_strategy (fun _ _ => NaN) (fun _ => NaN)
       Examples.quiet_frame "pred" Examples.no_factor_config
     = Raise ZeroDivisionError.
Proof.
  assert (H : Backtest.conversion_factor Examples.no_factor_config == 0)
    by reflexivity.
  split; [exact H |].
  exact (proj2 (zero_conversion_factor_raises (fun _ _ => NaN)
                  (fun _ => NaN) Examples.quiet_frame "pred"
                  Examples.no_factor_config H)).
Defined.

(** X15.  With an initial capital equal to zero the loop raises
    [ZeroDivisionError] on the first day of a frame that has one: the
    cumulative return divides the equity by the initial capital.  (With a
    margin rate and a futures open that are not negative nothing can be
    bought with zero funds, so the equity divided is the Python number
    [cash].) *)
Theorem zero_initial_capital_raises_on_first_day :
  forall (cfg : Backtest.Config) (row : Backtest.Row)
         (rest : list Backtest.Row),
    Backtest.initial_capital cfg == 0 ->
    0 <= Backtest.margin_rate cfg ->
    0 <= Backtest.open_fut (Backtest.day row) ->
    Backtest.run_days cfg (Backtest.initial_state cfg) (row :: rest)
    = Raise ZeroDivisionError.
Proof.
  intros cfg row rest Hcap _ _. cbn [Backtest.run_days].
  assert (Hstep : Backtest.step cfg (Backtest.initial_state cfg) row
                  = Raise ZeroDivisionError).
  { unfold Backtest.step.
    destruct (exit_alpha_total cfg row
                (Backtest.cash (Backtest.account (Backtest.initial_state cfg)))
                (Backtest.accumulate_alpha cfg row
                   (Backtest.cash
                      (Backtest.account (Backtest.initial_state cfg)))
                   (Backtest.build_base row
                      (Backtest.books (Backtest.initial_state cfg))))
                (Backtest.realized_pnls (Backtest.initial_state cfg)))
      as [b3 [pnls1 ->]]. cbn [bind].
    unfold Backtest.exit_primary.
    cbn [Backtest.initial_state Backtest.account Backtest.holding bind].
    match goal with
    | |- context [Backtest.enter_primary cfg row ?a ?act] =>
        destruct (enter_primary_total cfg row a act) as [a2 [act2 ->]]
    end.
    { apply computable_zero_funds. cbn [Backtest.capital].
      rewrite Hcap. reflexivity. }
    cbn [bind]. unfold Backtest.mark_and_record, py_div.
    apply Qeq_eq_bool in Hcap. rewrite Hcap. reflexivity. }
  rewrite Hstep. reflexivity.
Qed.

Lemma zero_initial_capital_raises_on_first_day_witness :
  Backtest.initial_capital Examples.no_capital_config == 0
  /\ 0 <= Backtest.margin_rate Examples.no_capital_config
  /\ 0 <= Backtest.open_fut (Backtest.day Examples.entry_row)
  /\ Backtest.run_days Examples.no_capital_config
       (Backtest.initial_state Examples.no_capital_config)
       [Examples.entry_row] = Raise ZeroDivisionError.
Proof.
  assert (H1 : Backtest.initial_capital Examples.no_capital_config == 0)
    by reflexivity.
  assert (H2 : 0 <= Backtest.margin_rate Examples.no_capital_config)
    by discriminate.
  assert (H3 : 0 <= Backtest.open_fut (Backtest.day Examples.entry_row))
    by discriminate.
  split; [exact H1 |]. split; [exact H2 |]. split; [exact H3 |].
  exact (zero_initial_capital_raises_on_first_day
           Examples.no_capital_config Examples.entry_row [] H1 H2 H3).
Defined.


(** * Further properties of the preparation *)

Section PreparedFacts.
Import Backtest Prepared.











End PreparedFacts.





(** * Properties of the market maker *)

Section MakerFacts.
Import MarketMaker.

Context {Features : Type}.

(** A larger position never gives a larger adjustment. *)
Lemma inventory_adjust_antitone (mm : SpreadMarketMaker Features) (t : Q) :
  0 <= t ->
  calculate_inventory_adjust (update_position mm t)
  <= calculate_inventory_adjust mm.
Proof.
  intro Ht. unfold calculate_inventory_adjust, above_max, below_min,
    update_position. cbn [inventory_limits position].
  destruct (dict_get "max" (inventory_limits mm)) as [M |];
    destruct (dict_get "min" (inventory_limits mm)) as [m |];
    unfold Qgtb;
    repeat match goal with
    | |- context [Qltb ?x ?y] =>
        let E := fresh "E" in
        destruct (Qltb x y) eqn:E;
        [apply Qltb_lt in E | apply Qltb_ge in E]
    end; try discriminate; try (exfalso; lra); try apply Qle_refl.
Qed.

Lemma above_max_over (mm : SpreadMarketMaker Features) :
  above_max mm = true <-> Limits.over mm.
Proof.
  unfold above_max, Limits.over.
  destruct (dict_get "max" (inventory_limits mm)) as [M |].
  - unfold Qgtb. rewrite Qltb_lt. split.
    + intro H. exists M. auto.
    + intros [M' [E H]]. inversion E. subst. exact H.
  - split; [discriminate | intros [M' [E _]]; discriminate].
Qed.

Lemma below_min_under (mm : SpreadMarketMaker Features) :
  below_min mm = true <-> Limits.under mm.
Proof.
  unfold below_min, Limits.under.
  destruct (dict_get "min" (inventory_limits mm)) as [m |].
  - rewrite Qltb_lt. split.
    + intro H. exists m. auto.
    + intros [m' [E H]]. inversion E. subst. exact H.
  - split; [discriminate | intros [m' [E _]]; discriminate].
Qed.

End MakerFacts.

(** X17.  The quote that the market maker publishes shows the current
    position, and with a base spread that is not negative its bid is at
    most its ask.  The inventory adjustment of the quote is -0.1 when the
    position is above the limit ["max"]; otherwise it is 0.1 when the
    position is below the limit ["min"], and 0 when it is not (a limit
    that the dictionary lacks is never passed). *)
Theorem published_quote_is_ordered :
  forall (Features : Type) (mm : MarketMaker.SpreadMarketMaker Features)
         (features : Features),
    0 <= MarketMaker.base_spread mm ->
    let q := MarketMaker.on_new_market_data mm features in
    let adj := MarketMaker.calculate_inventory_adjust mm in
    MarketMaker.pub_bid q <= MarketMaker.pub_ask q
    /\ MarketMaker.pub_position q = MarketMaker.position mm
    /\ (Limits.over mm -> adj = - 0.1)
    /\ (~ Limits.over mm -> Limits.under mm -> adj = 0.1)
    /\ (~ Limits.over mm -> ~ Limits.under mm -> adj = 0).
Proof.
  intros Features mm features Hw q adj.
  split; [| split; [reflexivity |]].
  - unfold q, MarketMaker.on_new_market_data, MarketMaker.adjust_quote,
      MarketMaker.publish_quote.
    cbn [MarketMaker.pub_bid MarketMaker.pub_ask].
    assert (Hhalf : 0 <= MarketMaker.base_spread mm / 2).
    { apply Qle_shift_div_l; [reflexivity |]. rewrite Qmult_0_l. exact Hw. }
    set (w := MarketMaker.base_spread mm / 2) in *.
    set (m := MarketMaker.calculate_theoretical_spread mm
              + 0.5 * MarketMaker.predict_spread mm features
              + MarketMaker.calculate_inventory_adjust mm).
    lra.
  - unfold adj, MarketMaker.calculate_inventory_adjust.
    split; [| split].
    + intro Ho. apply above_max_over in Ho. rewrite Ho. reflexivity.
    + intros Ho Hu. apply below_min_under in Hu.
      destruct (MarketMaker.above_max mm) eqn:E;
        [apply above_max_over in E; contradiction |].
      rewrite Hu. reflexivity.
    + intros Ho Hu.
      destruct (MarketMaker.above_max mm) eqn:E;
        [apply above_max_over in E; contradiction |].
      destruct (MarketMaker.below_min mm) eqn:E';
        [apply below_min_under in E'; contradiction | reflexivity].
Qed.

(** The maker of [example_usage]: a base spread of 0.02. *)
Lemma published_quote_is_ordered_witness :
  0 <= MarketMaker.base_spread MarketMaker.example_maker
  /\ MarketMaker.pub_bid
       (MarketMaker.on_new_market_data MarketMaker.example_maker
          MarketMaker.example_features)
     <= MarketMaker.pub_ask
          (MarketMaker.on_new_market_data MarketMaker.example_maker
             MarketMaker.example_features).
Proof.
  assert (H : 0 <= MarketMaker.base_spread MarketMaker.example_maker)
    by discriminate.
  split; [exact H |].
  exact (proj1 (published_quote_is_ordered (list Q)
                  MarketMaker.example_maker MarketMaker.example_features H)).
Defined.

(** X18.  The quotes follow the prediction and lean against the
    inventory: of two predictions the higher one gives a bid and an ask
    that are not lower, and after a purchase (a call of
    [update_position] with a trade size that is not negative) the position
    is not lower and neither the bid nor the ask for a given prediction is
    higher than before, whatever the limits are; the call changes nothing
    else in the object. *)
Theorem quotes_rise_with_prediction_and_fall_with_inventory :
  forall (Features : Type) (mm : MarketMaker.SpreadMarketMaker Features)
         (p1 p2 t : Q),
    p1 <= p2 -> 0 <= t ->
    let q1 := MarketMaker.adjust_quote mm p1 in
    let q2 := MarketMaker.adjust_quote mm p2 in
    let mm' := MarketMaker.update_position mm t in
    let q1' := MarketMaker.adjust_quote mm' p1 in
    fst q1 <= fst q2 /\ snd q1 <= snd q2
    /\ MarketMaker.position mm <= MarketMaker.position mm'
    /\ fst q1' <= fst q1 /\ snd q1' <= snd q1
    /\ MarketMaker.model mm' = MarketMaker.model mm
    /\ MarketMaker.inventory_limits mm' = MarketMaker.inventory_limits mm
    /\ MarketMaker.base_spread mm' = MarketMaker.base_spread mm.
Proof.
  intros Features mm p1 p2 t Hp Ht q1 q2 mm' q1'.
  pose proof (inventory_adjust_antitone mm t Ht) as Hadj.
  unfold q1, q2, q1', mm', MarketMaker.adjust_quote,
    MarketMaker.calculate_theoretical_spread.
  cbn [fst snd MarketMaker.base_spread MarketMaker.update_position
       MarketMaker.position MarketMaker.model
       MarketMaker.inventory_limits].
  set (adj := MarketMaker.calculate_inventory_adjust mm) in *.
  set (adj' := MarketMaker.calculate_inventory_adjust
                 (MarketMaker.update_position mm t)) in *.
  set (w := MarketMaker.base_spread mm / 2).
  repeat split; lra.
Qed.

Lemma quotes_rise_with_prediction_and_fall_with_inventory_witness :
  0 <= 0.05 /\ 0 <= 200
  /\ fst (MarketMaker.adjust_quote MarketMaker.example_maker 0)
     <= fst (MarketMaker.adjust_quote MarketMaker.example_maker 0.05)
  /\ fst (MarketMaker.adjust_quote
            (MarketMaker.update_position MarketMaker.example_maker 200) 0)
     <= fst (MarketMaker.adjust_quote MarketMaker.example_maker 0).
Proof.
  assert (H1 : 0 <= 0.05) by discriminate.
  assert (H2 : 0 <= 200) by discriminate.
  split; [exact H1 |]. split; [exact H2 |].
  destruct (quotes_rise_with_prediction_and_fall_with_inventory
              (list Q) MarketMaker.example_maker 0 0.05 200 H1 H2)
    as [Hb [_ [_ [Hb' _]]]].
  split; [exact Hb | exact Hb'].
Defined.





(** ** The factor columns *)

Section ColumnFacts.

Import Factors Columns.

Lemma getcol_raise :
  forall (df : Frame) (n : string) (e : exn),
    getcol df n = Raise e -> e = KeyError n.
Proof.
  induction df as [| [k c] df IH]; intros n e H; cbn [getcol] in H.
  - now inversion H.
  - destruct (String.eqb n k); [discriminate | now apply IH].
Qed.

Lemma getcol_setcol_eq :
  forall (df : Frame) (k : string) (c : list fval),
    getcol (setcol df k c) k = Ok c.
Proof.
  induction df as [| [k0 c0] df IH]; intros k c; cbn [setcol getcol].
  - now rewrite String.eqb_refl.
  - destruct (String.eqb k k0) eqn:E; cbn [getcol]; rewrite E;
      [reflexivity | apply IH].
Qed.

Lemma getcol_setcol_ne :
  forall (df : Frame) (n k : string) (c : list fval),
    String.eqb n k = false ->
    getcol (setcol df k c) n = getcol df n.
Proof.
  induction df as [| [k0 c0] df IH]; intros n k c Hne; cbn [setcol getcol].
  - now rewrite Hne.
  - destruct (String.eqb k k0) eqn:E; cbn [getcol].
    + apply String.eqb_eq in E; subst k0. now rewrite Hne.
    + destruct (String.eqb n k0); [reflexivity | now apply IH].
Qed.

Lemma setcol_same :
  forall (df : Frame) (k : string) (c : list fval),
    getcol df k = Ok c -> setcol df k c = df.
Proof.
  induction df as [| [k0 c0] df IH]; intros k c H; cbn [getcol setcol] in *.
  - discriminate.
  - destruct (String.eqb k k0) eqn:E.
    + now inversion H.
    + now rewrite IH.
Qed.

Lemma getcol_set_all :
  forall (vals : list (string * list fval)) (df : Frame) (n : string),
    getcol (set_all df vals) n
    = match assigned vals n with
      | Some c => Ok c
      | None => getcol df n
      end.
Proof.
  unfold set_all.
  induction vals as [| [k c] vals IH]; intros df n;
    cbn [fold_left assigned fst snd]; [reflexivity |].
  rewrite IH. destruct (assigned vals n); [reflexivity |].
  destruct (String.eqb n k) eqn:E.
  - apply String.eqb_eq in E; subst. apply getcol_setcol_eq.
  - now apply getcol_setcol_ne.
Qed.

Lemma assigned_none :
  forall (vals : list (string * list fval)) (n : string),
    ~ In n (map fst vals) -> assigned vals n = None.
Proof.
  induction vals as [| [k c] vals IH]; intros n H; cbn [assigned];
    [reflexivity |].
  cbn [map fst In] in H. rewrite IH by tauto.
  destruct (String.eqb n k) eqn:E; [| reflexivity].
  apply String.eqb_eq in E. subst. tauto.
Qed.

Lemma assigned_in :
  forall (vals : list (string * list fval)) (k : string) (c : list fval),
    NoDup (map fst vals) -> In (k, c) vals -> assigned vals k = Some c.
Proof.
  induction vals as [| [k0 c0] vals IH]; intros k c Hnd Hin; [easy |].
  cbn [map fst] in Hnd. inversion Hnd as [| ? ? Hout Hnd']; subst.
  cbn [assigned]. destruct Hin as [Heq | Hin].
  - inversion Heq; subst. rewrite (assigned_none _ _ Hout).
    now rewrite String.eqb_refl.
  - now rewrite (IH _ _ Hnd' Hin).
Qed.

Lemma set_all_same :
  forall (vals : list (string * list fval)) (df : Frame),
    Forall (fun p => getcol df (fst p) = Ok (snd p)) vals ->
    set_all df vals = df.
Proof.
  unfold set_all.
  induction vals as [| [k c] vals IH]; intros df H; cbn [fold_left fst snd];
    [reflexivity |].
  inversion H as [| ? ? Hk Hrest]; subst. cbn [fst snd] in Hk.
  rewrite (setcol_same _ _ _ Hk). now apply IH.
Qed.

Lemma eval_all_names :
  forall (steps : list (string * Expr)) (df : Frame)
         (vals : list (string * list fval)),
    eval_all steps df = Ok vals -> map fst vals = map fst steps.
Proof.
  induction steps as [| [k e] steps IH]; intros df vals H;
    cbn [eval_all] in H.
  - now inversion H.
  - destruct (e df) as [c | x]; cbn [bind] in H; [| discriminate].
    destruct (eval_all steps df) as [vs | x] eqn:E; cbn [bind] in H;
      [| discriminate].
    inversion H; subst. cbn [map fst]. f_equal. now apply (IH df).
Qed.

Lemma eval_all_in :
  forall (steps : list (string * Expr)) (df : Frame)
         (vals : list (string * list fval)) (k : string) (e : Expr),
    eval_all steps df = Ok vals ->
    In (k, e) steps ->
    exists c, e df = Ok c /\ In (k, c) vals.
Proof.
  induction steps as [| [k0 e0] steps IH]; intros df vals k e H Hin;
    [easy |].
  cbn [eval_all] in H.
  destruct (e0 df) as [c0 | x] eqn:E0; cbn [bind] in H; [| discriminate].
  destruct (eval_all steps df) as [vs | x] eqn:E; cbn [bind] in H;
    [| discriminate].
  inversion H; subst. destruct Hin as [Heq | Hin].
  - inversion Heq; subst. exists c0. split; [assumption | now left].
  - destruct (IH df vs k e E Hin) as [c [Hc Hv]].
    exists c. split; [assumption | now right].
Qed.

Lemma mentions_in :
  forall (names : list string) (n : string),
    mentions names n = true <-> In n names.
Proof.
  intros names n. unfold mentions. rewrite existsb_exists. split.
  - intros [x [Hx E]]. apply String.eqb_eq in E. now subst.
  - intros H. exists n. split; [assumption | apply String.eqb_refl].
Qed.

Lemma agree_refl :
  forall (names : list string) (df : Frame), agree names df df.
Proof. intros names df n _. reflexivity. Qed.

Lemma agree_setcol :
  forall (names : list string) (df A : Frame) (k : string)
         (c : list fval),
    mentions names k = false ->
    agree names df A -> agree names df (setcol A k c).
Proof.
  intros names df A k c Hk H n Hn. rewrite getcol_setcol_ne; [now apply H |].
  destruct (String.eqb n k) eqn:E; [| reflexivity].
  apply String.eqb_eq in E. subst.
  apply mentions_in in Hn. congruence.
Qed.

(** The statements do not feed each other: when no statement assigns a
    column that a statement reads, running them gives the frame with the
    columns that the right-hand sides have on the frame of the start. *)
Lemma run_steps_eval_all :
  forall (names : list string) (steps : list (string * Expr))
         (df A : Frame),
    Forall (fun st => reads_only names (snd st)
                      /\ mentions names (fst st) = false) steps ->
    agree names df A ->
    run_steps steps A = (vals <- eval_all steps df ;; Ok (set_all A vals)).
Proof.
  intros names steps df.
  induction steps as [| [k e] steps IH]; intros A Hsteps Hag;
    cbn [run_steps eval_all bind]; [reflexivity |].
  inversion Hsteps as [| ? ? [Hread Hk] Hrest]; subst.
  cbn [fst snd] in Hread, Hk. rewrite (Hread df A Hag).
  destruct (e df) as [c | x]; cbn [bind]; [| reflexivity].
  rewrite (IH (setcol A k c) Hrest (agree_setcol _ _ _ _ _ Hk Hag)).
  destruct (eval_all steps df) as [vs | x]; reflexivity.
Qed.

Lemma reads_col :
  forall (names : list string) (n : string),
    mentions names n = true -> reads_only names (col n).
Proof.
  intros names n Hn df df' H. unfold col. apply H. now apply mentions_in.
Qed.

Lemma reads_sub :
  forall (names : list string) (a b : Expr),
    reads_only names a -> reads_only names b -> reads_only names (sub a b).
Proof.
  intros names a b Ha Hb df df' H. unfold sub.
  now rewrite (Ha df df' H), (Hb df df' H).
Qed.

Lemma reads_add :
  forall (names : list string) (a b : Expr),
    reads_only names a -> reads_only names b -> reads_only names (add a b).
Proof.
  intros names a b Ha Hb df df' H. unfold add.
  now rewrite (Ha df df' H), (Hb df df' H).
Qed.

Lemma reads_sub_const :
  forall (names : list string) (a : Expr) (c : Q),
    reads_only names a -> reads_only names (sub_const a c).
Proof.
  intros names a c Ha df df' H. unfold sub_const. now rewrite (Ha df df' H).
Qed.

Lemma reads_const_mul :
  forall (names : list string) (a : Expr) (c : Q),
    reads_only names a -> reads_only names (const_mul c a).
Proof.
  intros names a c Ha df df' H. unfold const_mul. now rewrite (Ha df df' H).
Qed.

Variable pct_change : list fval -> list fval.
Variable rolling_corr : nat -> list fval -> list fval -> list fval.
Variable rolling_std : nat -> list fval -> list fval.

Lemma reads_pct :
  forall (names : list string) (a : Expr),
    reads_only names a -> reads_only names (pct pct_change a).
Proof.
  intros names a Ha df df' H. unfold pct. now rewrite (Ha df df' H).
Qed.

Lemma reads_corr_of :
  forall (names : list string) (n : nat) (a b : Expr),
    reads_only names a -> reads_only names b ->
    reads_only names (corr_of rolling_corr n a b).
Proof.
  intros names n a b Ha Hb df df' H. unfold corr_of.
  now rewrite (Ha df df' H), (Hb df df' H).
Qed.

Lemma reads_std_of :
  forall (names : list string) (n : nat) (a : Expr),
    reads_only names a -> reads_only names (std_of rolling_std n a).
Proof.
  intros names n a Ha df df' H. unfold std_of. now rewrite (Ha df df' H).
Qed.

Let steps : list (string * Expr) :=
  factor_steps pct_change rolling_corr rolling_std.

Lemma factor_steps_names : map fst steps = factor_columns.
Proof. reflexivity. Qed.

Lemma factor_columns_nodup : NoDup factor_columns.
Proof.
  unfold factor_columns.
  repeat (constructor; [cbn [In]; intuition discriminate |]).
  constructor.
Qed.

Lemma factor_steps_read_sources :
  Forall (fun st => reads_only source_columns (snd st)
                    /\ mentions source_columns (fst st) = false) steps.
Proof.
  unfold steps, factor_steps.
  repeat (constructor;
          [split;
           [cbn [snd];
            repeat first
              [ apply reads_col; reflexivity
              | apply reads_sub | apply reads_add | apply reads_sub_const
              | apply reads_const_mul | apply reads_pct
              | apply reads_corr_of | apply reads_std_of ]
           | reflexivity ] |]).
  constructor.
Qed.

Lemma add_factors_eval_all :
  forall (df A : Frame),
    agree source_columns df A ->
    add_factors pct_change rolling_corr rolling_std A
    = (vals <- eval_all steps df ;; Ok (set_all A vals)).
Proof.
  intros df A H. unfold add_factors.
  apply (run_steps_eval_all source_columns);
    [apply factor_steps_read_sources | assumption].
Qed.

End ColumnFacts.


Section FactorFacts.

Import Factors Columns.

Variable pct_change : list fval -> list fval.
Variable rolling_corr : nat -> list fval -> list fval -> list fval.
Variable rolling_std : nat -> list fval -> list fval.

Ltac read_column name E :=
  destruct (getcol _ name) as [? | ?] eqn:E; cbn [bind];
  [| apply getcol_raise in E; subst; reflexivity].

Lemma eval_all_first_missing :
  forall (df : Frame),
    match first_missing df source_columns with
    | Some n =>
        eval_all (factor_steps pct_change rolling_corr rolling_std) df
        = Raise (KeyError n)
    | None =>
        exists vals,
          eval_all (factor_steps pct_change rolling_corr rolling_std) df
          = Ok vals
    end.
Proof.
  intros df. unfold factor_steps, source_columns.
  cbn [first_missing eval_all].
  unfold col, sub, add, sub_const, const_mul, pct, corr_of, std_of.
  read_column gov_10y E1. read_column gov_1y E2. read_column gov_30y E3.
  read_column gov_5y E4. read_column policy_10y E5.
  read_column shibor_3m E6. read_column r007 E7. read_column fr007_1y E8.
  read_column "close_etf"%string E9. read_column "close_fut"%string E10.
  eexists. reflexivity.
Qed.

Lemma add_factors_result :
  forall (df out : Frame),
    add_factors pct_change rolling_corr rolling_std df = Ok out ->
    exists vals,
      eval_all (factor_steps pct_change rolling_corr rolling_std) df
      = Ok vals
      /\ out = set_all df vals
      /\ map fst vals = factor_columns.
Proof.
  intros df out H.
  rewrite (add_factors_eval_all _ _ _ df df (agree_refl _ _)) in H.
  destruct (eval_all _ df) as [vals | x] eqn:E; cbn [bind] in H;
    [| discriminate].
  exists vals. split; [reflexivity |]. split; [now inversion H |].
  rewrite (eval_all_names _ _ _ E). reflexivity.
Qed.

Lemma add_factors_column :
  forall (df out : Frame) (k : string) (e : Expr),
    add_factors pct_change rolling_corr rolling_std df = Ok out ->
    In (k, e) (factor_steps pct_change rolling_corr rolling_std) ->
    getcol out k = e df.
Proof.
  intros df out k e H Hin.
  destruct (add_factors_result df out H) as [vals [E [Hout Hnames]]].
  destruct (eval_all_in _ _ _ _ _ E Hin) as [c [Hc Hv]].
  subst out. rewrite getcol_set_all, Hc.
  rewrite (assigned_in vals k c); [reflexivity | | assumption].
  rewrite Hnames. apply factor_columns_nodup.
Qed.

Lemma add_factors_other_column :
  forall (df out : Frame) (n : string),
    add_factors pct_change rolling_corr rolling_std df = Ok out ->
    ~ In n factor_columns ->
    getcol out n = getcol df n.
Proof.
  intros df out n H Hn.
  destruct (add_factors_result df out H) as [vals [E [Hout Hnames]]].
  subst out. rewrite getcol_set_all, assigned_none; [reflexivity |].
  now rewrite Hnames.
Qed.

Ltac in_steps :=
  unfold factor_steps; cbn [In];
  repeat first [left; reflexivity | right].

(** X20.  [add_factors] needs exactly its ten source columns: when the
    frame has them all it returns a frame, and otherwise it raises
    [KeyError] for the first of them, in the order of their first use in
    the function, that the frame lacks. *)
Theorem add_factors_raises_for_first_missing_source :
  forall (df : Frame),
    match first_missing df source_columns with
    | Some n =>
        add_factors pct_change rolling_corr rolling_std df
        = Raise (KeyError n)
    | None =>
        exists out,
          add_factors pct_change rolling_corr rolling_std df = Ok out
    end.
Proof.
  intros df.
  rewrite (add_factors_eval_all _ _ _ df df (agree_refl _ _)).
  pose proof (eval_all_first_missing df) as H.
  destruct (first_missing df source_columns) as [n |].
  - now rewrite H.
  - destruct H as [vals H]. rewrite H. cbn [bind]. eexists. reflexivity.
Qed.

(** X21.  When [add_factors] returns, every column whose name is not one
    of the factor columns is as it was in the frame passed (the source
    columns among them), and every factor column holds its right-hand side
    as evaluated on the frame passed: no statement reads what an earlier
    one wrote.  So the columns [factor_tax_spread] and
    [factor_policy_spread] are equal, and so are [factor_30y_10y_spread]
    and [factor_30y_10y_slope], [factor_30y_5y_spread] and
    [factor_30y_5y_slope], [factor_basis] and [spread]. *)
Theorem factor_columns_computed_from_input :
  forall (df out : Frame),
    add_factors pct_change rolling_corr rolling_std df = Ok out ->
    (forall n, ~ In n factor_columns -> getcol out n = getcol df n)
    /\ (forall k e,
          In (k, e) (factor_steps pct_change rolling_corr rolling_std) ->
          getcol out k = e df)
    /\ getcol out "factor_tax_spread" = getcol out "factor_policy_spread"
    /\ getcol out "factor_30y_10y_spread"
       = getcol out "factor_30y_10y_slope"
    /\ getcol out "factor_30y_5y_spread" = getcol out "factor_30y_5y_slope"
    /\ getcol out "factor_basis" = getcol out "spread".
Proof.
  intros df out H.
  split; [intros n Hn; now apply add_factors_other_column |].
  split; [intros k e Hin; now apply add_factors_column |].
  repeat split.
  - rewrite (add_factors_column df out "factor_tax_spread"
               (sub (col policy_10y) (col gov_10y)) H) by in_steps.
    symmetry. apply (add_factors_column df out _ _ H). in_steps.
  - rewrite (add_factors_column df out "factor_30y_10y_spread"
               (sub (col gov_30y) (col gov_10y)) H) by in_steps.
    symmetry. apply (add_factors_column df out _ _ H). in_steps.
  - rewrite (add_factors_column df out "factor_30y_5y_spread"
               (sub (col gov_30y) (col gov_5y)) H) by in_steps.
    symmetry. apply (add_factors_column df out _ _ H). in_steps.
  - rewrite (add_factors_column df out "factor_basis"
               (sub (col "close_etf") (col "close_fut")) H) by in_steps.
    symmetry. apply (add_factors_column df out _ _ H). in_steps.
Qed.

(** X22.  [add_factors] can be repeated: applied to a frame that it has
    returned, it returns that frame again, with the same columns in the
    same order. *)
Theorem add_factors_twice_is_once :
  forall (df out : Frame),
    add_factors pct_change rolling_corr rolling_std df = Ok out ->
    add_factors pct_change rolling_corr rolling_std out = Ok out.
Proof.
  intros df out H.
  destruct (add_factors_result df out H) as [vals [E [Hout Hnames]]].
  assert (Hag : agree source_columns df out).
  { intros n Hn. apply (add_factors_other_column df out n H).
    apply mentions_in in Hn. intros Hf.
    assert (Hm : mentions source_columns n = false);
      [| congruence].
    cbn [In factor_columns] in Hf.
    repeat (destruct Hf as [Hf | Hf]; [subst n; reflexivity |]).
    contradiction. }
  rewrite (add_factors_eval_all _ _ _ df out Hag), E. cbn [bind].
  f_equal. apply set_all_same. apply Forall_forall. intros [k c] Hin.
  cbn [fst snd]. subst out. rewrite getcol_set_all.
  rewrite (assigned_in vals k c); [reflexivity | | assumption].
  rewrite Hnames. apply factor_columns_nodup.
Qed.

End FactorFacts.

Lemma factor_columns_computed_from_input_witness :
  exists out,
    FactorExamples.add_factors_short FactorExamples.rates_frame = Ok out
    /\ Factors.getcol out "factor_basis" = Factors.getcol out "spread"
    /\ Factors.getcol out "date"
       = Factors.getcol FactorExamples.rates_frame "date".
Proof.
  destruct (FactorExamples.add_factors_short FactorExamples.rates_frame)
    as [out | e] eqn:E; [| vm_compute in E; discriminate].
  exists out. split; [reflexivity |].
  pose proof (factor_columns_computed_from_input _ _ _ _ out E) as H.
  split; [apply H |].
  apply (proj1 H). cbn [In Factors.factor_columns]. intuition discriminate.
Defined.

Lemma add_factors_twice_is_once_witness :
  exists out,
    FactorExamples.add_factors_short FactorExamples.rates_frame = Ok out
    /\ FactorExamples.add_factors_short out = Ok out.
Proof.
  destruct (FactorExamples.add_factors_short FactorExamples.rates_frame)
    as [out | e] eqn:E; [| vm_compute in E; discriminate].
  exists out. split; [reflexivity |].
  exact (add_factors_twice_is_once _ _ _ _ out E).
Defined.
